(** * Real-time coordination core of nearby-connect

    A shallow embedding of the two Durable Objects of the backend,
    [ChatRoomDurableObject] (src/backend/src/lib/chat-room-durable-object.ts)
    and [PresenceDurableObject] (src/backend/src/lib/feed-service.ts),
    together with the message route helper [persistMessageToDatabase]
    of the HTTP entry point.

    Conventions of the embedding.
    - A JavaScript [Map] is an insertion-ordered association list
      ([JsMap]); a [Set<string>] is an insertion-ordered list ([JsSet]).
    - Every handler is a function from the object's state to a result, a
      new state and the chronological list of the effects it performed
      ([Effect]): frames written to sockets, sockets closed, timers
      cleared, storage and database writes.  One extra effect, [Bcast],
      records each call of a broadcast method with the event it was
      given.
    - [Date.now()], [crypto.randomUUID()] and the timer ids returned by
      [setInterval] are inputs of the handlers.
    - Timestamps are integers ([Z]); strings are byte strings. *)

From Stdlib Require Import String Ascii List ZArith Lia Bool DecimalString.
Import ListNotations.

Set Warnings "-register-all".

Local Open Scope string_scope.
Local Open Scope Z_scope.

(* ================================================================== *)
(** ** JavaScript containers                                           *)
(* ================================================================== *)

Module JsMap.
Section Ops.
Context {V : Type}.

(** Entries are (key, value) pairs, in insertion order. *)
Definition is_key (k : string) (e : string * V) : bool := String.eqb (fst e) k.

Definition get (k : string) (m : list (string * V)) : option V :=
  match find (is_key k) m with
  | Some e => Some (snd e)
  | None => None
  end.

Definition has (k : string) (m : list (string * V)) : bool :=
  existsb (is_key k) m.

(** [Map.prototype.set]: an existing key keeps its position. *)
Definition set (k : string) (v : V) (m : list (string * V)) : list (string * V) :=
  if has k m
  then map (fun e => if is_key k e then (k, v) else e) m
  else (m ++ [(k, v)])%list.

(** [Map.prototype.delete]. *)
Definition delete (k : string) (m : list (string * V)) : list (string * V) :=
  filter (fun e => negb (is_key k e)) m.

Definition keys (m : list (string * V)) : list string := map fst m.
Definition values (m : list (string * V)) : list V := map snd m.
Definition size (m : list (string * V)) : nat := length m.
End Ops.
Abbreviation t V := (list (string * V)) (only parsing).
End JsMap.

Module JsSet.
Abbreviation t := (list string) (only parsing).

Definition has (x : string) (s : t) : bool := existsb (String.eqb x) s.
Definition add (x : string) (s : t) : t := if has x s then s else (s ++ [x])%list.
Definition delete (x : string) (s : t) : t :=
  filter (fun y => negb (String.eqb x y)) s.
Definition size (s : t) : nat := length s.
End JsSet.

(* ================================================================== *)
(** ** JSON values and [JSON.stringify]                                *)
(* ================================================================== *)

Module Json.

(** A JSON value; numbers are the integers the objects produce, object
    fields keep the order in which they were created. *)
Inductive value : Type :=
| JNull
| JBool (b : bool)
| JNum (n : Z)
| JStr (s : string)
| JArr (items : list value)
| JObj (fields : list (string * value)).

(** The double quote character. *)
Definition dq : string := String (ascii_of_nat 34) EmptyString.

Definition hex_digit (n : nat) : ascii :=
  ascii_of_nat (if Nat.ltb n 10 then 48 + n else 87 + n).

(** One code unit of a string literal, as QuoteJSONString writes it. *)
Definition escape_char (c : ascii) : string :=
  let n := nat_of_ascii c in
  if Nat.eqb n 34 then "\" ++ dq
  else if Nat.eqb n 92 then "\\"
  else if Nat.eqb n 8 then "\b"
  else if Nat.eqb n 12 then "\f"
  else if Nat.eqb n 10 then "\n"
  else if Nat.eqb n 13 then "\r"
  else if Nat.eqb n 9 then "\t"
  else if Nat.ltb n 32 then
    "\u00" ++ String (hex_digit (Nat.div n 16))
                (String (hex_digit (Nat.modulo n 16)) EmptyString)
  else String c EmptyString.

Fixpoint escape (s : string) : string :=
  match s with
  | EmptyString => EmptyString
  | String c rest => escape_char c ++ escape rest
  end.

Definition quote (s : string) : string := dq ++ escape s ++ dq.

(** An integer in decimal. *)
Definition number (n : Z) : string := NilZero.string_of_int (Z.to_int n).

(** [JSON.stringify] without indentation. *)
Fixpoint stringify (v : value) : string :=
  match v with
  | JNull => "null"
  | JBool true => "true"
  | JBool false => "false"
  | JNum n => number n
  | JStr s => quote s
  | JArr items =>
      let fix elems (l : list value) : string :=
        match l with
        | [] => ""
        | [x] => stringify x
        | x :: rest => stringify x ++ "," ++ elems rest
        end in
      "[" ++ elems items ++ "]"
  | JObj fields =>
      let fix members (l : list (string * value)) : string :=
        match l with
        | [] => ""
        | [(k, x)] => quote k ++ ":" ++ stringify x
        | (k, x) :: rest => quote k ++ ":" ++ stringify x ++ "," ++ members rest
        end in
      "{" ++ members fields ++ "}"
  end.

(** JavaScript truthiness of a parsed JSON value. *)
Definition truthy (v : value) : bool :=
  match v with
  | JNull => false
  | JBool b => b
  | JNum n => negb (n =? 0)
  | JStr s => negb (String.eqb s "")
  | JArr _ => true
  | JObj _ => true
  end.

(** A property whose value may be [undefined]: [JSON.stringify] leaves
    such a property out. *)
Definition opt_field (k : string) (o : option value) : list (string * value) :=
  match o with
  | Some v => [(k, v)]
  | None => []
  end.

(** Property read on an object value; [None] is [undefined]. *)
Definition prop (k : string) (v : value) : option value :=
  match v with
  | JObj fields => JsMap.get k fields
  | _ => None
  end.

End Json.
Import Json.

(* ================================================================== *)
(** ** Sockets, effects, requests                                      *)
(* ================================================================== *)

(** [WebSocket.readyState]. *)
Inductive ReadyState : Type := CONNECTING | OPEN | CLOSING | CLOSED.

(** What a coordinator can observe of a server-side socket: the
    transport state it reports, and whether a [send] on it throws. *)
Record WebSocket : Type := mkWebSocket {
  readyState : ReadyState;
  sendThrows : bool
}.

Definition is_open (ws : WebSocket) : bool :=
  match readyState ws with
  | OPEN => true
  | _ => false
  end.

(** A socket to which a frame is actually handed over. *)
Definition deliverable (ws : WebSocket) : bool :=
  is_open ws && negb (sendThrows ws).

(** The user the Clerk middleware stores in the request context. *)
Record AuthUser : Type := mkAuthUser {
  auth_id : string;
  auth_email : string;
  auth_username : option string;
  auth_displayName : option string;
  auth_avatar : option string
}.

(** A variable of the request context: [null], the authenticated user,
    or one of the handles the middlewares store (the database client,
    the database, the Clerk client). *)
Inductive ContextValue : Type :=
| CtxNull
| CtxUser (user : AuthUser)
| CtxHandle (name : string).

(** A row of the messages table, as [persistMessageToDatabase] builds it;
    [row_senderId] is what [c.get("userId")] returned, [None] when that is
    [undefined]. *)
Record MessageRow : Type := mkMessageRow {
  row_id : string;
  row_chatId : string;
  row_senderId : option ContextValue;
  row_content : string;
  row_type : string;
  row_metadata : string;
  row_status : string;
  row_sentAt : Z;
  row_createdAt : Z;
  row_updatedAt : Z
}.

(** What a handler does to the outside world.  [WsSend c payload d] is
    a call of [send] on the socket of connection [c]; [d] tells whether
    the frame was handed over ([false] when [send] threw).  [Bcast] marks
    the entry of a broadcast method. *)
Inductive Effect : Type :=
| WsSend (connectionId payload : string) (delivered : bool)
| WsClose (connectionId : string)
| ClearInterval (timer : Z)
| Bcast (event : value)
| StoragePut (key : string) (v : value)
| DbInsertMessage (row : MessageRow)
| DbUpdateChat (chatId : string) (lastMessageAt updatedAt : Z).

(** The send loop shared by [broadcastMessage] and
    [broadcastPresenceUpdate]: one pass over the registry in insertion
    order, which writes the frame to the sockets that report open and
    pushes the ids of the others, and of those whose [send] threw, on
    [deadConnections].  The registry is not touched. *)
Fixpoint sendToAll (messageStr : string) (registry : list (string * WebSocket))
  : list Effect * list string :=
  match registry with
  | [] => ([], [])
  | (connectionId, ws) :: rest =>
      let '(sent, deadConnections) := sendToAll messageStr rest in
      if is_open ws then
        if sendThrows ws
        then (WsSend connectionId messageStr false :: sent,
              connectionId :: deadConnections)
        else (WsSend connectionId messageStr true :: sent, deadConnections)
      else (sent, connectionId :: deadConnections)
  end.

(** An incoming request; [json] is the parsed body, typed as the handler
    casts it, [None] when [request.json()] rejects. *)
Record Request (B : Type) : Type := mkRequest {
  method : string;
  upgradeHeader : option string;
  xUserId : option string;
  cfAccessJwtClaims : option string;
  queryUserId : option string;
  json : option B
}.
Arguments mkRequest {B}.
Arguments method {B}.
Arguments upgradeHeader {B}.
Arguments xUserId {B}.
Arguments cfAccessJwtClaims {B}.
Arguments queryUserId {B}.
Arguments json {B}.

(** An HTTP response; [webSocket] names the connection whose client end
    goes back with a 101. *)
Record Response : Type := mkResponse {
  status : Z;
  body : option string;
  contentType : option string;
  webSocket : option string
}.

(** A handler either returns a response or rejects. *)
Inductive Outcome : Type :=
| Returned (r : Response)
| Threw.

Definition textResponse (text : string) (code : Z) : Response :=
  mkResponse code (Some text) None None.

Definition jsonResponse (v : value) : Response :=
  mkResponse 200 (Some (stringify v)) (Some "application/json") None.

Definition successResponse : Response :=
  jsonResponse (JObj [("success", JBool true)]).

Definition response_ok (r : Response) : bool :=
  (200 <=? status r) && (status r <=? 299).

(** A header or query value that is present and not the empty string. *)
Definition nonEmpty (o : option string) : option string :=
  match o with
  | Some s => if String.eqb s "" then None else Some s
  | None => None
  end.

(** [getUserIdFromRequest], the same in both objects; [None] is the
    thrown error. *)
Definition getUserIdFromRequest {B} (request : Request B) : option string :=
  match nonEmpty (xUserId request) with
  | Some userId => Some userId
  | None =>
      match nonEmpty (cfAccessJwtClaims request) with
      | Some userId => Some userId
      | None => nonEmpty (queryUserId request)
      end
  end.

Definition is_websocket (h : option string) : bool :=
  match h with
  | Some v => String.eqb v "websocket"
  | None => false
  end.

(* ================================================================== *)
(** ** ChatRoomDurableObject                                           *)
(* ================================================================== *)

Module ChatRoom.

(** The four private fields of the object. *)
Record State : Type := mkState {
  connections : JsMap.t WebSocket;
  userConnections : JsMap.t JsSet.t;
  typingUsers : JsSet.t;
  heartbeatIntervals : JsMap.t Z
}.

Definition initial : State := mkState [] [] [] [].

Definition with_connections (st : State) (c : JsMap.t WebSocket) : State :=
  mkState c (userConnections st) (typingUsers st) (heartbeatIntervals st).
Definition with_userConnections (st : State) (u : JsMap.t JsSet.t) : State :=
  mkState (connections st) u (typingUsers st) (heartbeatIntervals st).
Definition with_typingUsers (st : State) (t : JsSet.t) : State :=
  mkState (connections st) (userConnections st) t (heartbeatIntervals st).
Definition with_heartbeatIntervals (st : State) (h : JsMap.t Z) : State :=
  mkState (connections st) (userConnections st) (typingUsers st) h.

(** Request bodies, as the handlers cast them. *)
Record MessageData : Type := mkMessageData {
  content : string;
  type : string;
  metadata : option value
}.
Record TypingData : Type := mkTypingData { isTyping : bool }.
Record PresenceData : Type := mkPresenceData { presenceStatus : string }.

(** [messageData.metadata || {}]. *)
Definition metadataOrEmpty (d : MessageData) : value :=
  match metadata d with
  | Some v => if truthy v then v else JObj []
  | None => JObj []
  end.

(** The events the room broadcasts. *)
Definition messageEvent (id : string) (d : MessageData) (senderId : string)
  (timestamp : Z) : value :=
  JObj [("type", JStr "message");
        ("data", JObj [("id", JStr id);
                       ("content", JStr (content d));
                       ("type", JStr (type d));
                       ("senderId", JStr senderId);
                       ("timestamp", JNum timestamp);
                       ("metadata", metadataOrEmpty d)])].

(** The message event of [handleClientMessage]: the type defaults to
    text. *)
Definition clientMessageEvent (id : string) (d : MessageData) (senderId : string)
  (timestamp : Z) : value :=
  JObj [("type", JStr "message");
        ("data", JObj [("id", JStr id);
                       ("content", JStr (content d));
                       ("type", JStr (if String.eqb (type d) "" then "text" else type d));
                       ("senderId", JStr senderId);
                       ("timestamp", JNum timestamp);
                       ("metadata", metadataOrEmpty d)])].

Definition typingEvent (userId : string) (typing : bool) (timestamp : Z) : value :=
  JObj [("type", JStr "typing");
        ("data", JObj [("userId", JStr userId);
                       ("isTyping", JBool typing);
                       ("timestamp", JNum timestamp)])].

Definition presenceEvent (userId status : string) (timestamp : Z) : value :=
  JObj [("type", JStr "presence");
        ("data", JObj [("userId", JStr userId);
                       ("status", JStr status);
                       ("timestamp", JNum timestamp)])].

Definition pingFrame : string := stringify (JObj [("type", JStr "ping")]).

(** The [for ... of this.userConnections] loop of [removeConnection]
    stops at the first user whose set holds the id. *)
Definition owns (connectionId : string) (e : string * JsSet.t) : bool :=
  JsSet.has connectionId (snd e).

(** First block of [removeConnection]: close and forget the socket. *)
Definition closeSocket (connectionId : string) (st : State) : State * list Effect :=
  match JsMap.get connectionId (connections st) with
  | Some ws =>
      (with_connections st (JsMap.delete connectionId (connections st)),
       [WsClose connectionId])
  | None => (st, [])
  end.

(** Second block: clear and forget the heartbeat timer. *)
Definition clearHeartbeat (connectionId : string) (st : State) : State * list Effect :=
  match JsMap.get connectionId (heartbeatIntervals st) with
  | Some interval =>
      if interval =? 0 then (st, [])
      else (with_heartbeatIntervals st
              (JsMap.delete connectionId (heartbeatIntervals st)),
            [ClearInterval interval])
  | None => (st, [])
  end.

(** [removeConnection], with the broadcast it calls for a user's last
    connection passed in ([broadcast] is [this.broadcastMessage]). *)
Definition removeConnectionWith
  (broadcast : value -> State -> option (State * list Effect))
  (now : Z) (connectionId : string) (st : State)
  : option (State * list Effect) :=
  let '(st1, closed) := closeSocket connectionId st in
  let '(st2, cleared) := clearHeartbeat connectionId st1 in
  match find (owns connectionId) (userConnections st2) with
  | Some (userId, connectionIds) =>
      let connectionIds' := JsSet.delete connectionId connectionIds in
      match JsSet.size connectionIds' with
      | O =>
          let st3 := with_userConnections st2
                       (JsMap.delete userId (userConnections st2)) in
          match broadcast (presenceEvent userId "offline" now) st3 with
          | Some (st4, sent) => Some (st4, (closed ++ cleared ++ sent)%list)
          | None => None
          end
      | S _ =>
          Some (with_userConnections st2
                  (JsMap.set userId connectionIds' (userConnections st2)),
                (closed ++ cleared)%list)
      end
  | None => Some (st2, (closed ++ cleared)%list)
  end.

(** The second loop of [broadcastMessage]: [remove] every recorded id. *)
Fixpoint removeAll
  (remove : string -> State -> option (State * list Effect))
  (deadConnections : list string) (st : State)
  : option (State * list Effect) :=
  match deadConnections with
  | [] => Some (st, [])
  | connectionId :: rest =>
      match remove connectionId st with
      | Some (st1, t1) =>
          match removeAll remove rest st1 with
          | Some (st2, t2) => Some (st2, (t1 ++ t2)%list)
          | None => None
          end
      | None => None
      end
  end.

(** [broadcastMessage].  It and [removeConnection] call each other;
    [fuel] bounds the nesting of broadcasts, [None] means it ran out. *)
Fixpoint broadcastMessageFuel (fuel : nat) (now : Z) (message : value)
  (st : State) : option (State * list Effect) :=
  match fuel with
  | O => None
  | S fuel' =>
      let messageStr := stringify message in
      let '(sent, deadConnections) := sendToAll messageStr (connections st) in
      match removeAll (removeConnectionWith (broadcastMessageFuel fuel' now) now)
                      deadConnections st with
      | Some (st', cleanup) =>
          Some (st', (Bcast message :: sent ++ cleanup)%list)
      | None => None
      end
  end.

(** Every nested broadcast follows the removal of a user from
    [userConnections], so this much fuel always suffices. *)
Definition enoughFuel (st : State) : nat := S (length (userConnections st)).

(** [broadcastMessage] and [removeConnection] as the handlers call them. *)
Definition broadcastMessage (now : Z) (message : value) (st : State)
  : option (State * list Effect) :=
  broadcastMessageFuel (enoughFuel st) now message st.

Definition removeConnection (now : Z) (connectionId : string) (st : State)
  : option (State * list Effect) :=
  removeConnectionWith (broadcastMessageFuel (enoughFuel st) now) now
    connectionId st.

(** [setupHeartbeat] stores the timer id that [setInterval] returned. *)
Definition setupHeartbeat (connectionId : string) (interval : Z) (st : State) : State :=
  with_heartbeatIntervals st
    (JsMap.set connectionId interval (heartbeatIntervals st)).

(** One tick of the heartbeat timer [interval] of [connectionId].  The
    timer holds the socket it was set up for; a socket that is no longer
    in [connections] was closed when it was removed. *)
Definition heartbeatTick (now : Z) (connectionId : string) (interval : Z)
  (st : State) : option (State * list Effect) :=
  let expire :=
    match removeConnection now connectionId st with
    | Some (st', t) => Some (st', (t ++ [ClearInterval interval])%list)
    | None => None
    end in
  match JsMap.get connectionId (connections st) with
  | Some ws =>
      if is_open ws
      then Some (st, [WsSend connectionId pingFrame (negb (sendThrows ws))])
      else expire
  | None => expire
  end.

(** A frame received on a socket, after [JSON.parse]. *)
Inductive ClientFrame : Type :=
| PongFrame
| MessageFrame (data : MessageData)
| TypingFrame (data : TypingData)
| UnknownFrame.

(** [handleClientMessage]. *)
Definition handleClientMessage (messageData : MessageData) (userId id : string)
  (now : Z) (st : State) : option (State * list Effect) :=
  broadcastMessage now (clientMessageEvent id messageData userId now) st.

(** [handleTypingIndicator]. *)
Definition handleTypingIndicator (typingData : TypingData) (userId : string)
  (now : Z) (st : State) : option (State * list Effect) :=
  broadcastMessage now (typingEvent userId (isTyping typingData) now)
    (with_typingUsers st
       (if isTyping typingData
        then JsSet.add userId (typingUsers st)
        else JsSet.delete userId (typingUsers st))).

(** The message listener that [handleWebSocketEvents] attaches to the
    socket of [userId]. *)
Definition onSocketMessage (frame : ClientFrame) (userId id : string) (now : Z)
  (st : State) : option (State * list Effect) :=
  match frame with
  | PongFrame => Some (st, [])
  | MessageFrame data => handleClientMessage data userId id now st
  | TypingFrame data => handleTypingIndicator data userId now st
  | UnknownFrame => Some (st, [])
  end.

(** [handleWebSocketUpgrade]; [server] is the server end of the new
    pair after [accept()], [connectionId] the generated id, [interval]
    the id of the heartbeat timer. *)
Definition handleWebSocketUpgrade {B} (request : Request B)
  (connectionId : string) (server : WebSocket) (interval : Z) (st : State)
  : Outcome * State :=
  if negb (is_websocket (upgradeHeader request))
  then (Returned (textResponse "Expected websocket" 400), st)
  else
    match getUserIdFromRequest request with
    | None => (Threw, st)
    | Some userId =>
        let st1 := with_connections st
                     (JsMap.set connectionId server (connections st)) in
        let uc1 := if JsMap.has userId (userConnections st1)
                   then userConnections st1
                   else JsMap.set userId [] (userConnections st1) in
        let uc2 := match JsMap.get userId uc1 with
                   | Some ids => JsMap.set userId (JsSet.add connectionId ids) uc1
                   | None => uc1
                   end in
        let st2 := setupHeartbeat connectionId interval
                     (with_userConnections st1 uc2) in
        (Returned (mkResponse 101 None None (Some connectionId)), st2)
    end.

Definition Result : Type := option (Outcome * State * list Effect).

Definition afterBroadcast (r : option (State * list Effect)) : Result :=
  match r with
  | Some (st', t) => Some (Returned successResponse, st', t)
  | None => None
  end.

(** [handleMessageRequest]; [id] is the generated message id. *)
Definition handleMessageRequest (request : Request MessageData)
  (id : string) (now : Z) (st : State) : Result :=
  if negb (String.eqb (method request) "POST")
  then Some (Returned (textResponse "Method not allowed" 405), st, [])
  else
    match json request with
    | None => Some (Returned (textResponse "Internal server error" 500), st, [])
    | Some messageData =>
        match getUserIdFromRequest request with
        | None => Some (Returned (textResponse "Internal server error" 500), st, [])
        | Some userId =>
            if String.eqb (content messageData) "" || String.eqb (type messageData) ""
            then Some (Returned (textResponse "Invalid message data" 400), st, [])
            else afterBroadcast
                   (broadcastMessage now (messageEvent id messageData userId now) st)
        end
    end.

(** [handleTypingRequest]. *)
Definition handleTypingRequest (request : Request TypingData) (now : Z)
  (st : State) : Result :=
  if negb (String.eqb (method request) "POST")
  then Some (Returned (textResponse "Method not allowed" 405), st, [])
  else
    match json request with
    | None => Some (Returned (textResponse "Internal server error" 500), st, [])
    | Some typingData =>
        match getUserIdFromRequest request with
        | None => Some (Returned (textResponse "Internal server error" 500), st, [])
        | Some userId =>
            let st1 := with_typingUsers st
                         (if isTyping typingData
                          then JsSet.add userId (typingUsers st)
                          else JsSet.delete userId (typingUsers st)) in
            afterBroadcast
              (broadcastMessage now (typingEvent userId (isTyping typingData) now) st1)
        end
    end.

(** [handlePresenceRequest]. *)
Definition handlePresenceRequest (request : Request PresenceData) (now : Z)
  (st : State) : Result :=
  if negb (String.eqb (method request) "POST")
  then Some (Returned (textResponse "Method not allowed" 405), st, [])
  else
    match json request with
    | None => Some (Returned (textResponse "Internal server error" 500), st, [])
    | Some presenceData =>
        match getUserIdFromRequest request with
        | None => Some (Returned (textResponse "Internal server error" 500), st, [])
        | Some userId =>
            afterBroadcast
              (broadcastMessage now
                 (presenceEvent userId (presenceStatus presenceData) now) st)
        end
    end.


End ChatRoom.

(* ================================================================== *)
(** ** PresenceDurableObject                                           *)
(* ================================================================== *)

Module Presence.

Inductive Status : Type := online | away | offline.

Definition statusName (s : Status) : string :=
  match s with
  | online => "online"
  | away => "away"
  | offline => "offline"
  end.

Definition is_online (s : Status) : bool :=
  match s with
  | online => true
  | _ => false
  end.

(** [interface UserPresence]; [None] is an absent or [undefined] field. *)
Record UserPresence : Type := mkUserPresence {
  userId : string;
  status : Status;
  lastSeenAt : Z;
  deviceInfo : option string;
  currentChatId : option string;
  isTyping : option bool;
  typingInChatId : option string
}.

(** [interface TypingIndicator]. *)
Record TypingIndicator : Type := mkTypingIndicator {
  typingUserId : string;
  chatId : string;
  timestamp : Z
}.

(** The four private fields of the object. *)
Record State : Type := mkState {
  userPresence : JsMap.t UserPresence;
  typingIndicators : JsMap.t TypingIndicator;
  presenceSubscribers : JsMap.t WebSocket;
  heartbeatIntervals : JsMap.t Z
}.

Definition initial : State := mkState [] [] [] [].

Definition with_userPresence (st : State) (p : JsMap.t UserPresence) : State :=
  mkState p (typingIndicators st) (presenceSubscribers st) (heartbeatIntervals st).
Definition with_typingIndicators (st : State) (t : JsMap.t TypingIndicator) : State :=
  mkState (userPresence st) t (presenceSubscribers st) (heartbeatIntervals st).
Definition with_presenceSubscribers (st : State) (s : JsMap.t WebSocket) : State :=
  mkState (userPresence st) (typingIndicators st) s (heartbeatIntervals st).
Definition with_heartbeatIntervals (st : State) (h : JsMap.t Z) : State :=
  mkState (userPresence st) (typingIndicators st) (presenceSubscribers st) h.

(** Request bodies, as the handlers cast them. *)
Record PresenceData : Type := mkPresenceData {
  reqStatus : Status;
  reqDeviceInfo : option string;
  reqCurrentChatId : option string
}.
Record TypingData : Type := mkTypingData {
  reqChatId : string;
  reqIsTyping : bool
}.

(** JSON images of the records, fields in the order they are created. *)
Definition presenceJson (p : UserPresence) : value :=
  JObj ([("userId", JStr (userId p));
         ("status", JStr (statusName (status p)));
         ("lastSeenAt", JNum (lastSeenAt p))]
        ++ opt_field "deviceInfo" (option_map JStr (deviceInfo p))
        ++ opt_field "currentChatId" (option_map JStr (currentChatId p))
        ++ opt_field "isTyping" (option_map JBool (isTyping p))
        ++ opt_field "typingInChatId" (option_map JStr (typingInChatId p)))%list.

Definition typingJson (i : TypingIndicator) : value :=
  JObj [("userId", JStr (typingUserId i));
        ("chatId", JStr (chatId i));
        ("timestamp", JNum (timestamp i))].

Definition presenceUpdateEvent (p : UserPresence) : value :=
  JObj [("type", JStr "presence_update"); ("data", presenceJson p)].

Definition typingStartEvent (i : TypingIndicator) : value :=
  JObj [("type", JStr "typing_start"); ("data", typingJson i)].

Definition typingStopEvent (user chat : string) (now : Z) : value :=
  JObj [("type", JStr "typing_stop");
        ("data", JObj [("userId", JStr user);
                       ("chatId", JStr chat);
                       ("timestamp", JNum now)])].

Definition presenceStateMessage (users : list UserPresence)
  (typing : list TypingIndicator) (now : Z) : value :=
  JObj [("type", JStr "presence_state");
        ("data", JObj [("users", JArr (map presenceJson users));
                       ("typing", JArr (map typingJson typing));
                       ("timestamp", JNum now)])].

Definition pingFrame : string := stringify (JObj [("type", JStr "ping")]).

(** The key of the typing map, [`${userId}:${chatId}`]. *)
Definition typingKey (user chat : string) : string := user ++ ":" ++ chat.

(** [removePresenceSubscriber]. *)
Definition removePresenceSubscriber (connectionId : string) (st : State)
  : State * list Effect :=
  let '(st1, closed) :=
    match JsMap.get connectionId (presenceSubscribers st) with
    | Some ws =>
        (with_presenceSubscribers st
           (JsMap.delete connectionId (presenceSubscribers st)),
         [WsClose connectionId])
    | None => (st, [])
    end in
  match JsMap.get connectionId (heartbeatIntervals st1) with
  | Some interval =>
      if interval =? 0 then (st1, closed)
      else (with_heartbeatIntervals st1
              (JsMap.delete connectionId (heartbeatIntervals st1)),
            (closed ++ [ClearInterval interval])%list)
  | None => (st1, closed)
  end.

(** The second loop of [broadcastPresenceUpdate]. *)
Fixpoint removeAll (deadConnections : list string) (st : State)
  : State * list Effect :=
  match deadConnections with
  | [] => (st, [])
  | connectionId :: rest =>
      let '(st1, t1) := removePresenceSubscriber connectionId st in
      let '(st2, t2) := removeAll rest st1 in
      (st2, (t1 ++ t2)%list)
  end.

(** [broadcastPresenceUpdate]. *)
Definition broadcastPresenceUpdate (update : value) (st : State)
  : State * list Effect :=
  let messageStr := stringify update in
  let '(sent, deadConnections) := sendToAll messageStr (presenceSubscribers st) in
  let '(st', cleanup) := removeAll deadConnections st in
  (st', (Bcast update :: sent ++ cleanup)%list).

(** [sendCurrentPresenceState]; [connectionId] names the socket [ws] in
    the effect it records.  The boolean tells whether [ws.send] threw. *)
Definition sendCurrentPresenceState (connectionId : string) (ws : WebSocket)
  (now : Z) (st : State) : list Effect * bool :=
  let presenceArray := JsMap.values (userPresence st) in
  let typingArray := JsMap.values (typingIndicators st) in
  let stateMessage := presenceStateMessage presenceArray typingArray now in
  if is_open ws
  then ([WsSend connectionId (stringify stateMessage) (negb (sendThrows ws))],
        sendThrows ws)
  else ([], false).

Definition setupHeartbeat (connectionId : string) (interval : Z) (st : State) : State :=
  with_heartbeatIntervals st
    (JsMap.set connectionId interval (heartbeatIntervals st)).

(** One tick of the heartbeat timer [interval] of [connectionId].  The
    timer holds the socket it was set up for; a socket that is no longer
    in [presenceSubscribers] was closed when it was removed. *)
Definition heartbeatTick (connectionId : string) (interval : Z) (st : State)
  : State * list Effect :=
  let expire :=
    let '(st', t) := removePresenceSubscriber connectionId st in
    (st', (t ++ [ClearInterval interval])%list) in
  match JsMap.get connectionId (presenceSubscribers st) with
  | Some ws =>
      if is_open ws
      then (st, [WsSend connectionId pingFrame (negb (sendThrows ws))])
      else expire
  | None => expire
  end.

(** [handleWebSocketUpgrade]; [server] is the server end of the new
    pair after [accept()]. *)
Definition handleWebSocketUpgrade {B} (request : Request B)
  (connectionId : string) (server : WebSocket) (interval : Z) (now : Z)
  (st : State) : Outcome * State * list Effect :=
  if negb (is_websocket (upgradeHeader request))
  then (Returned (textResponse "Expected websocket" 400), st, [])
  else
    let st1 := with_presenceSubscribers st
                 (JsMap.set connectionId server (presenceSubscribers st)) in
    let st2 := setupHeartbeat connectionId interval st1 in
    let '(sent, threw) := sendCurrentPresenceState connectionId server now st2 in
    if threw
    then (Threw, st2, sent)
    else (Returned (mkResponse 101 None None (Some connectionId)), st2, sent).

(** The answer of a [catch] block. *)
Definition serverError : Outcome :=
  Returned (textResponse "Internal server error" 500).

(** [handlePresenceRequest]; [putThrows] tells whether the storage write
    rejects. *)
Definition handlePresenceRequest (request : Request PresenceData) (now : Z)
  (putThrows : bool) (st : State) : Outcome * State * list Effect :=
  if negb (String.eqb (method request) "POST")
  then (Returned (textResponse "Method not allowed" 405), st, [])
  else
    match json request with
    | None => (serverError, st, [])
    | Some presenceData =>
        match getUserIdFromRequest request with
        | None => (serverError, st, [])
        | Some user =>
            let updatedPresence :=
              mkUserPresence user (reqStatus presenceData) now
                (reqDeviceInfo presenceData) (reqCurrentChatId presenceData)
                None None in
            let st1 := with_userPresence st
                         (JsMap.set user updatedPresence (userPresence st)) in
            let '(st2, sent) :=
              broadcastPresenceUpdate (presenceUpdateEvent updatedPresence) st1 in
            let put := StoragePut ("presence:" ++ user) (presenceJson updatedPresence) in
            (if putThrows then serverError else Returned successResponse,
             st2, (sent ++ [put])%list)
        end
    end.

(** The update of the user's presence record in [handleTypingRequest]
    and in the expiry sweep. *)
Definition markTyping (user : string) (typing : bool) (chat : option string)
  (st : State) : State :=
  match JsMap.get user (userPresence st) with
  | Some currentPresence =>
      let p := mkUserPresence (userId currentPresence) (status currentPresence)
                 (lastSeenAt currentPresence) (deviceInfo currentPresence)
                 (currentChatId currentPresence) (Some typing) chat in
      with_userPresence st (JsMap.set user p (userPresence st))
  | None => st
  end.

(** [handleTypingRequest]. *)
Definition handleTypingRequest (request : Request TypingData) (now : Z)
  (st : State) : Outcome * State * list Effect :=
  if negb (String.eqb (method request) "POST")
  then (Returned (textResponse "Method not allowed" 405), st, [])
  else
    match json request with
    | None => (serverError, st, [])
    | Some typingData =>
        match getUserIdFromRequest request with
        | None => (serverError, st, [])
        | Some user =>
            let chat := reqChatId typingData in
            if reqIsTyping typingData then
              let typingIndicator := mkTypingIndicator user chat now in
              let st1 := with_typingIndicators st
                           (JsMap.set (typingKey user chat) typingIndicator
                              (typingIndicators st)) in
              let st2 := markTyping user true (Some chat) st1 in
              let '(st3, sent) :=
                broadcastPresenceUpdate (typingStartEvent typingIndicator) st2 in
              (Returned successResponse, st3, sent)
            else
              let st1 := with_typingIndicators st
                           (JsMap.delete (typingKey user chat)
                              (typingIndicators st)) in
              let st2 := markTyping user false None st1 in
              let '(st3, sent) :=
                broadcastPresenceUpdate (typingStopEvent user chat now) st2 in
              (Returned successResponse, st3, sent)
        end
    end.

(** [handleStatusRequest]. *)
Definition handleStatusRequest {B} (request : Request B) (st : State)
  : Outcome * State * list Effect :=
  match getUserIdFromRequest request with
  | None => (serverError, st, [])
  | Some user =>
      match JsMap.get user (userPresence st) with
      | None =>
          (Returned (jsonResponse (JObj [("status", JStr "offline")])), st, [])
      | Some presence =>
          (Returned (jsonResponse (presenceJson presence)), st, [])
      end
  end.

Definition getAllPresence (st : State) : list UserPresence :=
  JsMap.values (userPresence st).

Definition getUserPresence (user : string) (st : State) : option UserPresence :=
  JsMap.get user (userPresence st).

Definition getTypingIndicators (chat : string) (st : State) : list TypingIndicator :=
  filter (fun indicator => String.eqb (chatId indicator) chat)
         (JsMap.values (typingIndicators st)).

(** First loop of [cleanupExpiredTypingIndicators]. *)
Definition expired (now : Z) (e : string * TypingIndicator) : bool :=
  10000 <? now - timestamp (snd e).

Definition expiredKeys (now : Z) (st : State) : list string :=
  map fst (filter (expired now) (typingIndicators st)).

(** One round of its second loop. *)
Definition expireKey (now : Z) (key : string) (st : State)
  : State * list Effect :=
  match JsMap.get key (typingIndicators st) with
  | Some indicator =>
      let st1 := with_typingIndicators st
                   (JsMap.delete key (typingIndicators st)) in
      let st2 := markTyping (typingUserId indicator) false None st1 in
      broadcastPresenceUpdate
        (typingStopEvent (typingUserId indicator) (chatId indicator) now) st2
  | None => (st, [])
  end.

Fixpoint expireAll (now : Z) (keys : list string) (st : State)
  : State * list Effect :=
  match keys with
  | [] => (st, [])
  | key :: rest =>
      let '(st1, t1) := expireKey now key st in
      let '(st2, t2) := expireAll now rest st1 in
      (st2, (t1 ++ t2)%list)
  end.

(** [cleanupExpiredTypingIndicators]. *)
Definition cleanupExpiredTypingIndicators (now : Z) (st : State)
  : State * list Effect :=
  expireAll now (expiredKeys now st) st.

(** The presence loop of [alarm], over the entries of [userPresence]. *)
Fixpoint demoteStale (fiveMinutesAgo : Z)
  (entries : list (string * UserPresence)) (st : State)
  : State * list Effect :=
  match entries with
  | [] => (st, [])
  | (user, presence) :: rest =>
      if (lastSeenAt presence <? fiveMinutesAgo) && is_online (status presence)
      then
        let presence' :=
          mkUserPresence (userId presence) offline (lastSeenAt presence)
            (deviceInfo presence) (currentChatId presence)
            (isTyping presence) (typingInChatId presence) in
        let st1 := with_userPresence st
                     (JsMap.set user presence' (userPresence st)) in
        let '(st2, t1) :=
          broadcastPresenceUpdate (presenceUpdateEvent presence') st1 in
        let '(st3, t2) := demoteStale fiveMinutesAgo rest st2 in
        (st3, (t1 ++ t2)%list)
      else demoteStale fiveMinutesAgo rest st
  end.

(** [alarm]; [now] is read by the typing sweep, [now'] afterwards for
    the presence sweep. *)
Definition alarm (now now' : Z) (st : State) : State * list Effect :=
  let '(st1, t1) := cleanupExpiredTypingIndicators now st in
  let fiveMinutesAgo := now' - 300000 in
  let '(st2, t2) := demoteStale fiveMinutesAgo (userPresence st1) st1 in
  (st2, (t1 ++ t2)%list).

End Presence.

(* ================================================================== *)
(** ** The message route of the HTTP entry point                       *)
(* ================================================================== *)

Module Router.










End Router.

(* ================================================================== *)
(** ** Reading an effect list                                          *)
(* ================================================================== *)

(** Frames handed over to the socket of [connectionId]. *)
Fixpoint received (connectionId : string) (t : list Effect) : list string :=
  match t with
  | [] => []
  | WsSend c payload true :: rest =>
      if String.eqb c connectionId
      then payload :: received connectionId rest
      else received connectionId rest
  | _ :: rest => received connectionId rest
  end.

(** Connections on which a [send] was called, in order. *)
Fixpoint sendTargets (t : list Effect) : list string :=
  match t with
  | [] => []
  | WsSend c _ _ :: rest => c :: sendTargets rest
  | _ :: rest => sendTargets rest
  end.

(** The events given to the broadcast method, in order. *)
Fixpoint broadcasts (t : list Effect) : list value :=
  match t with
  | [] => []
  | Bcast ev :: rest => ev :: broadcasts rest
  | _ :: rest => broadcasts rest
  end.

(** The rows handed to the database. *)
Fixpoint storedRows (t : list Effect) : list MessageRow :=
  match t with
  | [] => []
  | DbInsertMessage row :: rest => row :: storedRows rest
  | _ :: rest => storedRows rest
  end.

(** The [type] tag and the [data] fields of an event. *)
Definition eventType (ev : value) : option value := prop "type" ev.

Definition eventField (k : string) (ev : value) : option value :=
  match prop "data" ev with
  | Some d => prop k d
  | None => None
  end.

Definition hasType (name : string) (ev : value) : bool :=
  match eventType ev with
  | Some (JStr s) => String.eqb s name
  | _ => false
  end.

Definition fieldIs (k v : string) (ev : value) : bool :=
  match eventField k ev with
  | Some (JStr s) => String.eqb s v
  | _ => false
  end.

(** A [typing_stop] event for the pair (user, chat). *)
Definition isTypingStopFor (user chat : string) (ev : value) : bool :=
  hasType "typing_stop" ev && fieldIs "userId" user ev && fieldIs "chatId" chat ev.

(** A [presence_update] event for [user]. *)
Definition isPresenceUpdateFor (user : string) (ev : value) : bool :=
  hasType "presence_update" ev && fieldIs "userId" user ev.

(** Number of elements that pass a test. *)
Definition count {A} (p : A -> bool) (l : list A) : nat := length (filter p l).

(** Ids of the registry entries that a broadcast records as dead. *)
Definition deadIds (registry : list (string * WebSocket)) : list string :=
  map fst (filter (fun e => negb (deliverable (snd e))) registry).

(** The frames a broadcast writes, one per entry that reports open. *)
Definition sendsTo (messageStr : string) (registry : list (string * WebSocket))
  : list Effect :=
  map (fun e => WsSend (fst e) messageStr (negb (sendThrows (snd e))))
      (filter (fun e => is_open (snd e)) registry).

(* ================================================================== *)
(** ** Vocabulary of the properties                                    *)
(* ================================================================== *)

(** A registry entry whose socket takes a frame. *)
Definition live (e : string * WebSocket) : bool := deliverable (snd e).

(** The key of an entry is none of [ids]. *)
Definition notIn {V} (ids : list string) (e : string * V) : bool :=
  negb (existsb (String.eqb (fst e)) ids).

(** The typing map is keyed by the pair it describes. *)
Definition wfTyping (st : Presence.State) : Prop :=
  NoDup (JsMap.keys (Presence.typingIndicators st))
  /\ forall k i, In (k, i) (Presence.typingIndicators st) ->
                 k = Presence.typingKey (Presence.typingUserId i) (Presence.chatId i).

(** The presence map is keyed by the user it describes. *)
Definition wfPresence (up : list (string * Presence.UserPresence)) : Prop :=
  NoDup (JsMap.keys up)
  /\ forall k p, In (k, p) up -> Presence.userId p = k.

(** The record after the typing sweep cleared its typing fields. *)
Definition clearTyping (p : Presence.UserPresence) : Presence.UserPresence :=
  Presence.mkUserPresence (Presence.userId p) (Presence.status p)
    (Presence.lastSeenAt p) (Presence.deviceInfo p) (Presence.currentChatId p)
    (Some false) None.

(** The record after a typing request set its typing fields. *)
Definition withTyping (typing : bool) (chat : option string)
  (p : Presence.UserPresence) : Presence.UserPresence :=
  Presence.mkUserPresence (Presence.userId p) (Presence.status p)
    (Presence.lastSeenAt p) (Presence.deviceInfo p) (Presence.currentChatId p)
    (Some typing) chat.

(** The status the presence object holds for a user, if any. *)
Definition statusOf (user : string) (st : Presence.State) : option Presence.Status :=
  option_map Presence.status (JsMap.get user (Presence.userPresence st)).

(** The record of an entry, cleared when its key is one of [users]. *)
Definition clearIf (users : list string) (e : string * Presence.UserPresence)
  : string * Presence.UserPresence :=
  if existsb (String.eqb (fst e)) users then (fst e, clearTyping (snd e)) else e.

(** The test and the update of the presence loop of [alarm]. *)
Definition stale (fiveMinutesAgo : Z) (e : string * Presence.UserPresence) : bool :=
  (Presence.lastSeenAt (snd e) <? fiveMinutesAgo) && Presence.is_online (Presence.status (snd e)).

(** The record with its status set to offline. *)
Definition demote (p : Presence.UserPresence) : Presence.UserPresence :=
  Presence.mkUserPresence (Presence.userId p) Presence.offline
    (Presence.lastSeenAt p) (Presence.deviceInfo p) (Presence.currentChatId p)
    (Presence.isTyping p) (Presence.typingInChatId p).

(** The presence map after the presence loop ran over [entries]. *)
Definition demoteMap (fiveMinutesAgo : Z) (entries : list (string * Presence.UserPresence))
  (up : list (string * Presence.UserPresence)) : list (string * Presence.UserPresence) :=
  fold_left (fun m e => if stale fiveMinutesAgo e
                        then JsMap.set (fst e) (demote (snd e)) m else m)
            entries up.

(** The [typing_stop] event the sweep broadcasts for an entry. *)
Definition stopOf (now : Z) (e : string * Presence.TypingIndicator) : value :=
  Presence.typingStopEvent (Presence.typingUserId (snd e)) (Presence.chatId (snd e)) now.

(* ================================================================== *)
(** ** ChatRoomDurableObject as a transition system                    *)
(* ================================================================== *)

Module RoomSystem.
Import ChatRoom.

(** [l'] is [l] with some entries dropped, none of them live. *)
Definition keepsLive (l l' : list (string * WebSocket)) : Prop :=
  exists q, l' = filter q l /\ forall e, In e l -> live e = true -> q e = true.

(** No user and no timer is added. *)
Definition shrinks (st st' : State) : Prop :=
  incl (JsMap.keys (userConnections st')) (JsMap.keys (userConnections st))
  /\ incl (JsMap.keys (heartbeatIntervals st')) (JsMap.keys (heartbeatIntervals st)).

(** What a broadcast guarantees, for states with at most [n] users. *)
Definition broadcastOk (n : nat)
  (bc : value -> State -> option (State * list Effect)) : Prop :=
  forall message st,
    (length (userConnections st) < n)%nat ->
    NoDup (JsMap.keys (connections st)) ->
    exists st' t,
      bc message st = Some (st', t)
      /\ connections st' = filter live (connections st)
      /\ (length (userConnections st') <= length (userConnections st))%nat
      /\ typingUsers st' = typingUsers st
      /\ shrinks st st' /\ storedRows t = [].

(** The two maps of the registry agree: the users are distinct, the ids
    of [connections] are the ids held in the users' sets, and no id is
    held by two users. *)
Definition agree (conns : list (string * WebSocket))
  (uc : list (string * JsSet.t)) : Prop :=
  NoDup (JsMap.keys uc)
  /\ (forall c, In c (JsMap.keys conns) <->
                exists u ids, In (u, ids) uc /\ In c ids)
  /\ (forall c u1 ids1 u2 ids2,
        In (u1, ids1) uc -> In (u2, ids2) uc ->
        In c ids1 -> In c ids2 -> u1 = u2).

(** The registry invariant of a room. *)
Definition registryInv (st : State) : Prop :=
  agree (connections st) (userConnections st).

(** Everything that can happen to a room: a subscription with a newly
    generated id, a close or error event of a socket, a heartbeat tick,
    a frame from a client, a broadcast, the three request handlers, and
    the transport of a registered socket changing state behind the
    object's back. *)
Inductive step : State -> State -> Prop :=
| step_subscribe B (request : Request B) connectionId server interval st r st' :
    ~ In connectionId (JsMap.keys (connections st)) ->
    handleWebSocketUpgrade request connectionId server interval st = (r, st') ->
    step st st'
| step_unregister now connectionId st st' t :
    removeConnection now connectionId st = Some (st', t) ->
    step st st'
| step_heartbeat now connectionId interval st st' t :
    heartbeatTick now connectionId interval st = Some (st', t) ->
    step st st'
| step_frame frame userId id now st st' t :
    onSocketMessage frame userId id now st = Some (st', t) ->
    step st st'
| step_broadcast now message st st' t :
    broadcastMessage now message st = Some (st', t) ->
    step st st'
| step_message request id now st r st' t :
    handleMessageRequest request id now st = Some (r, st', t) ->
    step st st'
| step_typing request now st r st' t :
    handleTypingRequest request now st = Some (r, st', t) ->
    step st st'
| step_presence request now st r st' t :
    handlePresenceRequest request now st = Some (r, st', t) ->
    step st st'
| step_transport connectionId ws st :
    In connectionId (JsMap.keys (connections st)) ->
    step st (with_connections st (JsMap.set connectionId ws (connections st))).

(** The states a room can be in. *)
Inductive reachable : State -> Prop :=
| reach_initial : reachable initial
| reach_step st st' : reachable st -> step st st' -> reachable st'.

End RoomSystem.

(** The events a room handles, each with the inputs its handler reads:
    an upgrade request, a close or error event of a socket, a heartbeat
    tick, a frame from a client, and the three requests. *)
Module RoomEvents.
Import ChatRoom.

Inductive Event : Type :=
| Subscribe (request : Request unit) (connectionId : string) (server : WebSocket)
    (interval : Z)
| SocketClosed (now : Z) (connectionId : string)
| HeartbeatTick (now : Z) (connectionId : string) (interval : Z)
| SocketFrame (frame : ClientFrame) (userId id : string) (now : Z)
| MessageRequest (request : Request MessageData) (id : string) (now : Z)
| TypingRequest (request : Request TypingData) (now : Z)
| PresenceRequest (request : Request PresenceData) (now : Z).

(** The state a room is in after its handler for the event has run. *)
Definition handle (e : Event) (st : State) : option State :=
  match e with
  | Subscribe request connectionId server interval =>
      Some (snd (handleWebSocketUpgrade request connectionId server interval st))
  | SocketClosed now connectionId =>
      option_map fst (removeConnection now connectionId st)
  | HeartbeatTick now connectionId interval =>
      option_map fst (heartbeatTick now connectionId interval st)
  | SocketFrame frame userId id now =>
      option_map fst (onSocketMessage frame userId id now st)
  | MessageRequest request id now =>
      option_map (fun x => snd (fst x)) (handleMessageRequest request id now st)
  | TypingRequest request now =>
      option_map (fun x => snd (fst x)) (handleTypingRequest request now st)
  | PresenceRequest request now =>
      option_map (fun x => snd (fst x)) (handlePresenceRequest request now st)
  end.

(** The typing signal an event carries, as the user and the flag: a
    typing frame, or a typing request that passes the handler's checks. *)
Definition typingSignal (e : Event) : option (string * bool) :=
  match e with
  | SocketFrame (TypingFrame data) userId _ _ => Some (userId, isTyping data)
  | TypingRequest request _ =>
      if String.eqb (method request) "POST"
      then match json request, getUserIdFromRequest request with
           | Some data, Some userId => Some (userId, isTyping data)
           | _, _ => None
           end
      else None
  | _ => None
  end.

(** The typing set after an event that carries [signal]. *)
Definition afterSignal (signal : option (string * bool)) (typing : list string)
  : list string :=
  match signal with
  | Some (userId, true) => JsSet.add userId typing
  | Some (userId, false) => JsSet.delete userId typing
  | None => typing
  end.

End RoomEvents.

(* ================================================================== *)
(** ** PresenceDurableObject as a transition system                    *)
(* ================================================================== *)

Module PresenceSystem.
Import Presence.

(** Everything that can happen to the presence object: a subscription,
    a close or error event of a socket, a heartbeat tick, a presence or
    typing request, a run of the alarm, and the transport of a
    registered socket changing state behind the object's back. *)
Inductive step : State -> State -> Prop :=
| step_subscribe B (request : Request B) connectionId server interval now st :
    step st (snd (fst (handleWebSocketUpgrade request connectionId server
                         interval now st)))
| step_unregister connectionId st :
    step st (fst (removePresenceSubscriber connectionId st))
| step_heartbeat connectionId interval st :
    step st (fst (heartbeatTick connectionId interval st))
| step_presence request now putThrows st :
    step st (snd (fst (handlePresenceRequest request now putThrows st)))
| step_typing request now st :
    step st (snd (fst (handleTypingRequest request now st)))
| step_alarm now now' st :
    step st (fst (alarm now now' st))
| step_transport connectionId ws st :
    In connectionId (JsMap.keys (presenceSubscribers st)) ->
    step st (with_presenceSubscribers st
               (JsMap.set connectionId ws (presenceSubscribers st))).

(** The states the presence object can be in. *)
Inductive reachable : State -> Prop :=
| reach_initial : reachable initial
| reach_step st st' : reachable st -> step st st' -> reachable st'.

(** The three maps are keyed as the handlers key them. *)
Definition wellKeyed (st : State) : Prop :=
  wfPresence (userPresence st) /\ wfTyping st
  /\ NoDup (JsMap.keys (presenceSubscribers st)).

End PresenceSystem.

(* ================================================================== *)
(** ** Sample states and requests                                      *)
(* ================================================================== *)

(** Three sockets: open, closed, and open with a failing [send]; a
    registry and two coordinators that hold them. *)
Definition openSocket : WebSocket := mkWebSocket OPEN false.

Definition closedSocket : WebSocket := mkWebSocket CLOSED false.

Definition brokenSocket : WebSocket := mkWebSocket OPEN true.

Definition sampleRegistry : list (string * WebSocket) :=
  [("c1", openSocket); ("c2", closedSocket); ("c3", brokenSocket); ("c4", openSocket)].

Definition samplePresence : Presence.State :=
  Presence.mkState [] [] sampleRegistry [("c1", 11); ("c2", 12); ("c3", 13); ("c4", 14)].

Definition sampleRoom : ChatRoom.State :=
  ChatRoom.mkState sampleRegistry
    [("alice", ["c1"; "c2"]); ("bob", ["c3"]); ("carol", ["c4"])]
    [] [("c1", 11); ("c2", 12); ("c3", 13); ("c4", 14)].

Definition sampleEvent : value := ChatRoom.typingEvent "alice" true 1000.

(** Requests of [user], identified by the X-User-ID header. *)
Definition upgradeRequest (user : string) : Request unit :=
  mkRequest "GET" (Some "websocket") (Some user) None None None.

Definition presenceRequest (user : string) (s : Presence.Status)
  : Request Presence.PresenceData :=
  mkRequest "POST" None (Some user) None None
    (Some (Presence.mkPresenceData s None None)).

Definition typingRequest (user chat : string) (typing : bool)
  : Request Presence.TypingData :=
  mkRequest "POST" None (Some user) None None
    (Some (Presence.mkTypingData chat typing)).

Definition messageRequest (user text kind : string) : Request ChatRoom.MessageData :=
  mkRequest "POST" None (Some user) None None
    (Some (ChatRoom.mkMessageData text kind None)).

(** Projections of a handler result. *)
Definition stateOf {R S T} (x : R * S * T) : S := snd (fst x).

Definition effectsOf {R S T} (x : R * S * T) : T := snd x.

(** alice announces herself online at 1000 and subscribes at 1001 over
    the connection c1. *)
Definition aliceOnline : Presence.State :=
  stateOf (Presence.handlePresenceRequest (presenceRequest "alice" Presence.online)
             1000 false Presence.initial).

Definition aliceSubscribed : Presence.State :=
  stateOf (Presence.handleWebSocketUpgrade (upgradeRequest "alice") "c1"
             openSocket 7 1001 aliceOnline).

(** alice starts typing in room-1 at 1000; nothing else happens until
    bob subscribes at 60000. *)
Definition aliceTyping : Presence.State :=
  stateOf (Presence.handleTypingRequest (typingRequest "alice" "room-1" true)
             1000 Presence.initial).

(** alice is online since 1000 and typing in room-1 since 2000. *)
Definition aliceOnlineTyping : Presence.State :=
  stateOf (Presence.handleTypingRequest (typingRequest "alice" "room-1" true)
             2000 aliceOnline).


Definition aliceIndicator : Presence.TypingIndicator :=
  Presence.mkTypingIndicator "alice" "room-1" 1000.

(** alice on c1 and bob on c2 in one room. *)
Definition twoUserRoom : ChatRoom.State :=
  snd (ChatRoom.handleWebSocketUpgrade (upgradeRequest "bob") "c2" openSocket 8
         (snd (ChatRoom.handleWebSocketUpgrade (upgradeRequest "alice") "c1"
                 openSocket 7 ChatRoom.initial))).






(* ================================================================== *)
(** ** The claims that fail, as the specification words them           *)
(* ================================================================== *)

(** C3 as the specification words it: unregistering [connectionId], the
    last connection of [user], leaves [user] offline and emits one
    [presence_update] for them. *)
Definition disconnectDemotes (user connectionId : string) (st : Presence.State) : Prop :=
  let '(st', t) := Presence.removePresenceSubscriber connectionId st in
  option_map Presence.status (JsMap.get user (Presence.userPresence st'))
    = Some Presence.offline
  /\ count (isPresenceUpdateFor user) (broadcasts t) = 1%nat.

(** C4 as the specification words it: unregistering a connection of the
    room sends nothing and broadcasts nothing. *)
Definition removalIsSilent (now : Z) (connectionId : string) (st : ChatRoom.State) : Prop :=
  match ChatRoom.removeConnection now connectionId st with
  | Some (st', t) => broadcasts t = [] /\ sendTargets t = []
  | None => False
  end.

(** The snapshot as the specification words it: the typing list holds
    the indicators younger than ten seconds. *)
Definition unexpiredTyping (now : Z) (st : Presence.State) : list Presence.TypingIndicator :=
  filter (fun i => now - Presence.timestamp i <? 10000)
         (JsMap.values (Presence.typingIndicators st)).

Definition specifiedSnapshot (now : Z) (st : Presence.State) : value :=
  Presence.presenceStateMessage (JsMap.values (Presence.userPresence st))
    (unexpiredTyping now st) now.


(** C6 as the specification words it: a sweep run while an online
    user's last activity is within the five minutes leaves the user's
    record as it was. *)
Definition sweepKeepsFreshRecord (user : string) (now now' : Z)
  (st : Presence.State) : Prop :=
  forall p,
    JsMap.get user (Presence.userPresence st) = Some p ->
    Presence.status p = Presence.online ->
    now' - 300000 <= Presence.lastSeenAt p ->
    JsMap.get user (Presence.userPresence (fst (Presence.alarm now now' st))) = Some p.




(* ================================================================== *)
(** ** Queries and vocabulary of the further properties               *)
(* ================================================================== *)

Module ChatRoomQueries.
Import ChatRoom.

(** The answer of [getState]. *)
Record Summary : Type := mkSummary {
  connectionCount : nat;
  userCount : nat;
  typingUserList : list string
}.

(** [getState]. *)
Definition getState (st : State) : Summary :=
  mkSummary (JsMap.size (connections st)) (JsMap.size (userConnections st))
    (typingUsers st).

End ChatRoomQueries.

(** A header or query value that is missing or empty. *)
Definition blank (o : option string) : Prop := o = None \/ o = Some "".

(** A request that carries no caller identity. *)
Definition anonymous {B} (request : Request B) : Prop :=
  blank (xUserId request) /\ blank (cfAccessJwtClaims request)
  /\ blank (queryUserId request).

(** No user of the room is left with an empty set. *)
Definition populated (uc : list (string * list string)) : Prop :=
  forall u ids, In (u, ids) uc -> ids <> [].

(** Every entry of a registry takes a frame. *)
Definition allLive (registry : list (string * WebSocket)) : Prop :=
  forall e, In e registry -> live e = true.

(** Sample requests without identity. *)
Definition anonymousRequest {B} (m : string) (b : option B) : Request B :=
  mkRequest m (Some "websocket") (Some "") None (Some "") b.

(** alice tells the room she shares with bob that she is typing. *)
Definition roomTypingRequest (user : string) (typing : bool)
  : Request ChatRoom.TypingData :=
  mkRequest "POST" None (Some user) None None (Some (ChatRoom.mkTypingData typing)).

Definition aliceTypingInRoom : ChatRoom.State :=
  match ChatRoom.handleTypingRequest (roomTypingRequest "alice" true) 1000 twoUserRoom with
  | Some (_, st, _) => st
  | None => twoUserRoom
  end.

(** Every key of a registry has a heartbeat timer. *)
Definition timersCover {V} (registry : list (string * V)) (timers : list (string * Z))
  : Prop :=
  incl (JsMap.keys registry) (JsMap.keys timers).

Definition roomTimersCover (st : ChatRoom.State) : Prop :=
  timersCover (ChatRoom.connections st) (ChatRoom.heartbeatIntervals st).

Definition presenceTimersCover (st : Presence.State) : Prop :=
  timersCover (Presence.presenceSubscribers st) (Presence.heartbeatIntervals st).

(** Distinctness of a list of string literals. *)
Ltac distinct_strings :=
  repeat constructor; simpl; intuition discriminate.

(* ================================================================== *)
(** ** Facts about the containers                                      *)
(* ================================================================== *)

Section MapFacts.
Context {V : Type}.
Implicit Types (m : list (string * V)) (k : string) (v : V).

Lemma is_key_true k (e : string * V) : JsMap.is_key k e = true <-> fst e = k.
Proof. unfold JsMap.is_key. apply String.eqb_eq. Qed.

Lemma is_key_false k (e : string * V) : JsMap.is_key k e = false <-> fst e <> k.
Proof. unfold JsMap.is_key. apply String.eqb_neq. Qed.

Lemma has_in_keys k m : JsMap.has k m = true <-> In k (JsMap.keys m).
Proof.
  unfold JsMap.has, JsMap.keys. rewrite existsb_exists, in_map_iff.
  split; intros [e [H1 H2]]; exists e.
  - apply is_key_true in H2. auto.
  - split; [assumption | now apply is_key_true].
Qed.

Lemma has_false_keys k m : JsMap.has k m = false <-> ~ In k (JsMap.keys m).
Proof.
  rewrite <- has_in_keys. destruct (JsMap.has k m); split; congruence.
Qed.

Lemma get_in k v m : JsMap.get k m = Some v -> In (k, v) m.
Proof.
  unfold JsMap.get. destruct (find (JsMap.is_key k) m) as [e|] eqn:F; [|discriminate].
  intros E. injection E as <-. apply find_some in F. destruct F as [F1 F2].
  apply is_key_true in F2. destruct e as [k' v']. simpl in *. now subst.
Qed.

Lemma get_none k m : JsMap.get k m = None <-> ~ In k (JsMap.keys m).
Proof.
  unfold JsMap.get, JsMap.keys. split.
  - destruct (find (JsMap.is_key k) m) as [e|] eqn:F; [discriminate|].
    intros _ HIn. apply in_map_iff in HIn. destruct HIn as [e [E1 E2]].
    pose proof (find_none _ _ F e E2) as N. apply is_key_false in N. auto.
  - intros N. destruct (find (JsMap.is_key k) m) as [e|] eqn:F; [|reflexivity].
    apply find_some in F. destruct F as [F1 F2]. apply is_key_true in F2.
    exfalso. apply N. apply in_map_iff. exists e. auto.
Qed.

Lemma in_keys k v m : In (k, v) m -> In k (JsMap.keys m).
Proof. intros H. apply in_map_iff. exists (k, v). auto. Qed.

Lemma nodup_keys_same k v v' m :
  NoDup (JsMap.keys m) -> In (k, v) m -> In (k, v') m -> v = v'.
Proof.
  unfold JsMap.keys. induction m as [|[k0 v0] m IH]; simpl; [tauto|].
  intros ND H1 H2. inversion ND as [|? ? N ND']; subst.
  destruct H1 as [H1|H1], H2 as [H2|H2].
  - congruence.
  - injection H1 as -> ->. exfalso. apply N. eapply in_keys; eauto.
  - injection H2 as -> ->. exfalso. apply N. eapply in_keys; eauto.
  - auto.
Qed.

Lemma in_get k v m : NoDup (JsMap.keys m) -> In (k, v) m -> JsMap.get k m = Some v.
Proof.
  intros ND H. destruct (JsMap.get k m) as [v'|] eqn:G.
  - apply get_in in G. f_equal. eapply nodup_keys_same; eauto.
  - apply get_none in G. exfalso. apply G. eapply in_keys; eauto.
Qed.

Lemma in_delete k m (e : string * V) :
  In e (JsMap.delete k m) <-> In e m /\ fst e <> k.
Proof.
  unfold JsMap.delete. rewrite filter_In, negb_true_iff, is_key_false. tauto.
Qed.

Lemma keys_delete k m k' :
  In k' (JsMap.keys (JsMap.delete k m)) <-> In k' (JsMap.keys m) /\ k' <> k.
Proof.
  unfold JsMap.keys. rewrite !in_map_iff. split.
  - intros [e [E1 E2]]. apply in_delete in E2. destruct E2. subst.
    split; [exists e|]; auto.
  - intros [[e [E1 E2]] N]. exists e. split; [auto|]. apply in_delete.
    subst. auto.
Qed.

Lemma nodup_keys_filter (p : string * V -> bool) m :
  NoDup (JsMap.keys m) -> NoDup (JsMap.keys (filter p m)).
Proof.
  unfold JsMap.keys. induction m as [|e m IH]; simpl; intros ND; [constructor|].
  inversion ND as [|? ? N ND']; subst. destruct (p e); simpl; auto.
  constructor; auto. intros HIn. apply N.
  apply in_map_iff in HIn. destruct HIn as [e' [E1 E2]].
  apply filter_In in E2. apply in_map_iff. exists e'. tauto.
Qed.

Lemma nodup_keys_delete k m :
  NoDup (JsMap.keys m) -> NoDup (JsMap.keys (JsMap.delete k m)).
Proof. apply nodup_keys_filter. Qed.

Lemma delete_absent k m : ~ In k (JsMap.keys m) -> JsMap.delete k m = m.
Proof.
  unfold JsMap.delete, JsMap.keys. induction m as [|e m IH]; simpl; intros N; [reflexivity|].
  destruct (JsMap.is_key k e) eqn:K; simpl.
  - apply is_key_true in K. tauto.
  - f_equal. apply IH. tauto.
Qed.

Lemma delete_get_none k m : JsMap.get k m = None -> JsMap.delete k m = m.
Proof. intros G. apply delete_absent. now apply get_none. Qed.

Lemma length_delete_le k m : (length (JsMap.delete k m) <= length m)%nat.
Proof. apply filter_length_le. Qed.

Lemma length_delete_lt k v m :
  In (k, v) m -> (length (JsMap.delete k m) < length m)%nat.
Proof.
  unfold JsMap.delete. induction m as [|e m IH]; simpl; [tauto|].
  intros [ -> | H].
  - unfold JsMap.is_key at 1. simpl. rewrite String.eqb_refl. simpl.
    pose proof (filter_length_le (fun e => negb (JsMap.is_key k e)) m). lia.
  - specialize (IH H). destruct (negb (JsMap.is_key k e)); simpl; lia.
Qed.

(** [set] on a key that is present replaces its value in place. *)
Lemma set_present k v m :
  JsMap.has k m = true ->
  JsMap.set k v m = map (fun e => if JsMap.is_key k e then (k, v) else e) m.
Proof. unfold JsMap.set. now intros ->. Qed.

Lemma set_absent k v m :
  JsMap.has k m = false -> JsMap.set k v m = (m ++ [(k, v)])%list.
Proof. unfold JsMap.set. now intros ->. Qed.

Lemma keys_set_present k v m :
  JsMap.has k m = true -> JsMap.keys (JsMap.set k v m) = JsMap.keys m.
Proof.
  intros H. rewrite set_present by assumption. unfold JsMap.keys.
  rewrite map_map. apply map_ext_in. intros e _.
  destruct (JsMap.is_key k e) eqn:K; [|reflexivity].
  apply is_key_true in K. now subst.
Qed.

Lemma length_set_present k v m :
  JsMap.has k m = true -> length (JsMap.set k v m) = length m.
Proof. intros H. rewrite set_present by assumption. apply length_map. Qed.

Lemma in_set_present k v m (e : string * V) :
  JsMap.has k m = true ->
  (In e (JsMap.set k v m) <-> (In e m /\ fst e <> k) \/ e = (k, v)).
Proof.
  intros H. rewrite set_present by assumption. rewrite in_map_iff. split.
  - intros [e' [E1 E2]]. destruct (JsMap.is_key k e') eqn:K.
    + right. congruence.
    + left. apply is_key_false in K. subst. auto.
  - intros [[E1 E2]|E].
    + exists e. apply is_key_false in E2. rewrite E2. auto.
    + apply has_in_keys in H. apply in_map_iff in H.
      destruct H as [e' [K1 K2]]. exists e'. split; [|assumption].
      apply is_key_true in K1. rewrite K1. auto.
Qed.

Lemma get_set_same k v m : NoDup (JsMap.keys m) -> JsMap.get k (JsMap.set k v m) = Some v.
Proof.
  intros ND. destruct (JsMap.has k m) eqn:H.
  - apply in_get.
    + now rewrite keys_set_present.
    + apply in_set_present; auto.
  - rewrite set_absent by assumption. apply has_false_keys in H.
    apply in_get.
    + unfold JsMap.keys. rewrite map_app. simpl.
      apply NoDup_app; [assumption|repeat constructor; auto| ].
      intros x Hx [ <- | [] ]. auto.
    + apply in_or_app. right. now left.
Qed.

End MapFacts.

Lemma set_has_iff (x : string) (s : JsSet.t) : JsSet.has x s = true <-> In x s.
Proof.
  unfold JsSet.has. rewrite existsb_exists. split.
  - intros [y [H1 H2]]. apply String.eqb_eq in H2. now subst.
  - intros H. exists x. split; [assumption|apply String.eqb_refl].
Qed.

Lemma set_in_delete (x y : string) (s : JsSet.t) :
  In y (JsSet.delete x s) <-> In y s /\ y <> x.
Proof.
  unfold JsSet.delete. rewrite filter_In, negb_true_iff, String.eqb_neq.
  split; intros [H1 H2]; split; auto.
Qed.

Lemma set_in_add (x y : string) (s : JsSet.t) :
  In y (JsSet.add x s) <-> In y s \/ y = x.
Proof.
  unfold JsSet.add. destruct (JsSet.has x s) eqn:H.
  - apply set_has_iff in H. split; [auto|]. intros [ ? | -> ]; auto.
  - rewrite in_app_iff. simpl. intuition.
Qed.

(* ================================================================== *)
(** ** The send loop                                                   *)
(* ================================================================== *)

Lemma sendToAll_spec messageStr registry :
  sendToAll messageStr registry = (sendsTo messageStr registry, deadIds registry).
Proof.
  unfold sendsTo, deadIds.
  induction registry as [|[c ws] r IH]; [reflexivity|].
  cbn [sendToAll]. rewrite IH. unfold deliverable, is_open.
  destruct ws as [[] []]; reflexivity.
Qed.

Lemma sendTargets_sendsTo messageStr registry :
  sendTargets (sendsTo messageStr registry)
  = JsMap.keys (filter (fun e => is_open (snd e)) registry).
Proof.
  unfold sendsTo, JsMap.keys.
  induction (filter (fun e => is_open (snd e)) registry) as [|e l IH]; simpl; congruence.
Qed.

Lemma length_sendsTo messageStr registry :
  length (sendsTo messageStr registry) = count (fun e => is_open (snd e)) registry.
Proof. unfold sendsTo, count. apply length_map. Qed.

Lemma notIn_true {V} ids (e : string * V) : notIn ids e = true <-> ~ In (fst e) ids.
Proof.
  unfold notIn. rewrite negb_true_iff. split.
  - intros H HIn. assert (existsb (String.eqb (fst e)) ids = true) as E.
    { apply existsb_exists. exists (fst e). split; [assumption|apply String.eqb_refl]. }
    congruence.
  - intros N. destruct (existsb (String.eqb (fst e)) ids) eqn:E; [|reflexivity].
    apply existsb_exists in E. destruct E as [x [E1 E2]].
    apply String.eqb_eq in E2. subst. tauto.
Qed.

Lemma in_deadIds c registry :
  In c (deadIds registry) <-> exists ws, In (c, ws) registry /\ deliverable ws = false.
Proof.
  unfold deadIds. rewrite in_map_iff. split.
  - intros [[c' ws] [E H]]. simpl in E. subst. apply filter_In in H.
    destruct H as [H1 H2]. exists ws. simpl in H2.
    apply negb_true_iff in H2. auto.
  - intros [ws [H1 H2]]. exists (c, ws). split; [reflexivity|].
    apply filter_In. simpl. rewrite H2. auto.
Qed.

(** With distinct keys, dropping the recorded ids leaves exactly the
    entries that took the frame. *)
Lemma drop_dead_is_live registry :
  NoDup (JsMap.keys registry) ->
  filter (notIn (deadIds registry)) registry = filter live registry.
Proof.
  intros ND. apply filter_ext_in. intros [c ws] HIn. unfold live. simpl.
  destruct (deliverable ws) eqn:D.
  - apply notIn_true. simpl. intros HD. apply in_deadIds in HD.
    destruct HD as [ws' [H1 H2]].
    assert (ws = ws') by (eapply nodup_keys_same; eauto). congruence.
  - destruct (notIn (deadIds registry) (c, ws)) eqn:E; [|reflexivity].
    apply notIn_true in E. exfalso. apply E. apply in_deadIds. eauto.
Qed.

Lemma filter_filter {A} (p q : A -> bool) (l : list A) :
  filter p (filter q l) = filter (fun x => q x && p x) l.
Proof.
  induction l as [|x l IH]; simpl; [reflexivity|].
  destruct (q x); simpl; [destruct (p x)|]; now rewrite IH.
Qed.

Lemma filter_comm {A} (p q : A -> bool) (l : list A) :
  filter p (filter q l) = filter q (filter p l).
Proof.
  rewrite !filter_filter. apply filter_ext. intros x. apply andb_comm.
Qed.

Lemma delete_is_notIn {V} (c : string) (registry : list (string * V)) :
  JsMap.delete c registry = filter (notIn [c]) registry.
Proof.
  apply filter_ext. intros e. unfold notIn, JsMap.is_key. simpl.
  now rewrite orb_false_r.
Qed.

Lemma notIn_cons {V} c ids (e : string * V) :
  notIn (c :: ids) e = notIn [c] e && notIn ids e.
Proof. unfold notIn. simpl. rewrite orb_false_r. apply negb_orb. Qed.

(* ================================================================== *)
(** ** PresenceDurableObject: broadcast and pruning                    *)
(* ================================================================== *)

Module PresenceFacts.
Import Presence.

Lemma remove_subscribers connectionId st :
  presenceSubscribers (fst (removePresenceSubscriber connectionId st))
  = JsMap.delete connectionId (presenceSubscribers st).
Proof.
  unfold removePresenceSubscriber.
  destruct (JsMap.get connectionId (presenceSubscribers st)) eqn:G.
  - destruct (JsMap.get connectionId (heartbeatIntervals _)) as [i|];
      [destruct (i =? 0)|]; reflexivity.
  - apply delete_get_none in G. rewrite G.
    destruct (JsMap.get connectionId (heartbeatIntervals st)) as [i|];
      [destruct (i =? 0)|]; reflexivity.
Qed.

Lemma remove_frame connectionId st :
  userPresence (fst (removePresenceSubscriber connectionId st)) = userPresence st
  /\ typingIndicators (fst (removePresenceSubscriber connectionId st))
     = typingIndicators st.
Proof.
  unfold removePresenceSubscriber.
  destruct (JsMap.get connectionId (presenceSubscribers st));
    destruct (JsMap.get connectionId (heartbeatIntervals _)) as [i|];
    try destruct (i =? 0); split; reflexivity.
Qed.

Lemma remove_silent connectionId st :
  sendTargets (snd (removePresenceSubscriber connectionId st)) = []
  /\ broadcasts (snd (removePresenceSubscriber connectionId st)) = [].
Proof.
  unfold removePresenceSubscriber.
  destruct (JsMap.get connectionId (presenceSubscribers st));
    destruct (JsMap.get connectionId (heartbeatIntervals _)) as [i|];
    try destruct (i =? 0); split; reflexivity.
Qed.

Lemma sendTargets_app t1 t2 :
  sendTargets (t1 ++ t2) = (sendTargets t1 ++ sendTargets t2)%list.
Proof.
  induction t1 as [|e t1 IH]; simpl; [reflexivity|].
  destruct e; simpl; congruence.
Qed.

Lemma broadcasts_app t1 t2 :
  broadcasts (t1 ++ t2) = (broadcasts t1 ++ broadcasts t2)%list.
Proof.
  induction t1 as [|e t1 IH]; simpl; [reflexivity|].
  destruct e; simpl; congruence.
Qed.

Lemma removeAll_spec ids st :
  presenceSubscribers (fst (removeAll ids st))
    = filter (notIn ids) (presenceSubscribers st)
  /\ userPresence (fst (removeAll ids st)) = userPresence st
  /\ typingIndicators (fst (removeAll ids st)) = typingIndicators st
  /\ sendTargets (snd (removeAll ids st)) = []
  /\ broadcasts (snd (removeAll ids st)) = [].
Proof.
  revert st. induction ids as [|c ids IH]; intros st; simpl.
  - repeat split; try reflexivity.
    symmetry. apply forallb_filter_id. apply forallb_forall. reflexivity.
  - pose proof (remove_subscribers c st) as R1.
    pose proof (remove_frame c st) as [R2 R3].
    pose proof (remove_silent c st) as [R4 R5].
    destruct (removePresenceSubscriber c st) as [st1 t1]. simpl in *.
    specialize (IH st1). destruct (removeAll ids st1) as [st2 t2]. simpl in *.
    destruct IH as (I1 & I2 & I3 & I4 & I5).
    repeat split.
    + rewrite I1, R1, delete_is_notIn, filter_filter.
      apply filter_ext. intros e. symmetry. apply notIn_cons.
    + congruence.
    + congruence.
    + rewrite sendTargets_app, R4, I4. reflexivity.
    + rewrite broadcasts_app, R5, I5. reflexivity.
Qed.

(** [broadcastPresenceUpdate] in closed form. *)
Lemma broadcast_spec update st :
  NoDup (JsMap.keys (presenceSubscribers st)) ->
  exists st' cleanup,
    broadcastPresenceUpdate update st
      = (st', (Bcast update
               :: sendsTo (stringify update) (presenceSubscribers st) ++ cleanup)%list)
    /\ removeAll (deadIds (presenceSubscribers st)) st = (st', cleanup)
    /\ sendTargets cleanup = []
    /\ broadcasts cleanup = []
    /\ presenceSubscribers st' = filter live (presenceSubscribers st)
    /\ userPresence st' = userPresence st
    /\ typingIndicators st' = typingIndicators st.
Proof.
  intros ND. unfold broadcastPresenceUpdate. rewrite sendToAll_spec.
  pose proof (removeAll_spec (deadIds (presenceSubscribers st)) st) as H.
  destruct (removeAll (deadIds (presenceSubscribers st)) st) as [st' cleanup].
  simpl in H. destruct H as (H1 & H2 & H3 & H4 & H5).
  exists st', cleanup. repeat split; auto.
  rewrite H1. now apply drop_dead_is_live.
Qed.

End PresenceFacts.

(* ================================================================== *)
(** ** ChatRoomDurableObject: broadcast and pruning                    *)
(* ================================================================== *)

Module RoomFacts.
Import ChatRoom RoomSystem.

Lemma keepsLive_refl l : keepsLive l l.
Proof.
  exists (fun _ => true). split; [|reflexivity].
  symmetry. apply forallb_filter_id. apply forallb_forall. reflexivity.
Qed.

Lemma keepsLive_trans l1 l2 l3 :
  keepsLive l1 l2 -> keepsLive l2 l3 -> keepsLive l1 l3.
Proof.
  intros [q1 [E1 K1]] [q2 [E2 K2]]. exists (fun e => q1 e && q2 e). split.
  - rewrite E2, E1. apply filter_filter.
  - intros e HIn L. rewrite (K1 e HIn L). simpl. apply K2; [|assumption].
    rewrite E1. apply filter_In. auto.
Qed.

Lemma keepsLive_filter p l l' :
  keepsLive l l' -> keepsLive (filter p l) (filter p l').
Proof.
  intros [q [E K]]. exists q. split.
  - rewrite E. apply filter_comm.
  - intros e HIn. apply filter_In in HIn. apply K. tauto.
Qed.

Lemma keepsLive_live l : keepsLive l (filter live l).
Proof. exists live. auto. Qed.

Lemma keepsLive_nodup l l' :
  keepsLive l l' -> NoDup (JsMap.keys l) -> NoDup (JsMap.keys l').
Proof. intros [q [-> _]]. apply nodup_keys_filter. Qed.

Lemma closeSocket_spec connectionId st :
  connections (fst (closeSocket connectionId st))
    = JsMap.delete connectionId (connections st)
  /\ userConnections (fst (closeSocket connectionId st)) = userConnections st
  /\ typingUsers (fst (closeSocket connectionId st)) = typingUsers st
  /\ heartbeatIntervals (fst (closeSocket connectionId st)) = heartbeatIntervals st.
Proof.
  unfold closeSocket. destruct (JsMap.get connectionId (connections st)) eqn:G; simpl.
  - auto.
  - apply delete_get_none in G. rewrite G. auto.
Qed.

Lemma clearHeartbeat_spec connectionId st :
  connections (fst (clearHeartbeat connectionId st)) = connections st
  /\ userConnections (fst (clearHeartbeat connectionId st)) = userConnections st
  /\ typingUsers (fst (clearHeartbeat connectionId st)) = typingUsers st.
Proof.
  unfold clearHeartbeat.
  destruct (JsMap.get connectionId (heartbeatIntervals st)) as [i|];
    [destruct (i =? 0)|]; simpl; auto.
Qed.

Lemma find_owner connectionId uc userId ids :
  find (owns connectionId) uc = Some (userId, ids) ->
  In (userId, ids) uc /\ In connectionId ids.
Proof.
  intros F. apply find_some in F. destruct F as [F1 F2].
  split; [assumption|]. now apply set_has_iff in F2.
Qed.

Lemma find_no_owner connectionId uc :
  find (owns connectionId) uc = None ->
  forall userId ids, In (userId, ids) uc -> ~ In connectionId ids.
Proof.
  intros F userId ids HIn HC. pose proof (find_none _ _ F _ HIn) as N.
  unfold owns in N. simpl in N. apply set_has_iff in HC. congruence.
Qed.

Lemma shrinks_refl st : shrinks st st.
Proof. split; apply incl_refl. Qed.

Lemma shrinks_trans st1 st2 st3 : shrinks st1 st2 -> shrinks st2 st3 -> shrinks st1 st3.
Proof. intros [A B] [C D]. split; eapply incl_tran; eauto. Qed.

Lemma incl_keys_delete {V} k (m : list (string * V)) :
  incl (JsMap.keys (JsMap.delete k m)) (JsMap.keys m).
Proof. intros x H. apply keys_delete in H. tauto. Qed.

Lemma storedRows_app t1 t2 :
  storedRows (t1 ++ t2) = (storedRows t1 ++ storedRows t2)%list.
Proof.
  induction t1 as [|e t1 IH]; simpl; [reflexivity|].
  destruct e; simpl; congruence.
Qed.

Lemma storedRows_sendsTo messageStr registry :
  storedRows (sendsTo messageStr registry) = [].
Proof.
  unfold sendsTo.
  induction (filter (fun e => is_open (snd e)) registry); simpl; auto.
Qed.

Lemma closeSocket_trace connectionId st :
  storedRows (snd (closeSocket connectionId st)) = []
  /\ broadcasts (snd (closeSocket connectionId st)) = []
  /\ sendTargets (snd (closeSocket connectionId st)) = [].
Proof.
  unfold closeSocket. destruct (JsMap.get connectionId (connections st)); simpl; auto.
Qed.

Lemma clearHeartbeat_trace connectionId st :
  storedRows (snd (clearHeartbeat connectionId st)) = []
  /\ broadcasts (snd (clearHeartbeat connectionId st)) = []
  /\ sendTargets (snd (clearHeartbeat connectionId st)) = [].
Proof.
  unfold clearHeartbeat.
  destruct (JsMap.get connectionId (heartbeatIntervals st)) as [i|];
    [destruct (i =? 0)|]; simpl; auto.
Qed.

Lemma clearHeartbeat_timers connectionId st :
  incl (JsMap.keys (heartbeatIntervals (fst (clearHeartbeat connectionId st))))
       (JsMap.keys (heartbeatIntervals st))
  /\ (forall i, JsMap.get connectionId (heartbeatIntervals st) = Some i -> i <> 0 ->
       ~ In connectionId
           (JsMap.keys (heartbeatIntervals (fst (clearHeartbeat connectionId st))))).
Proof.
  unfold clearHeartbeat.
  destruct (JsMap.get connectionId (heartbeatIntervals st)) as [i|] eqn:G.
  - destruct (i =? 0) eqn:Z0; simpl.
    + split; [apply incl_refl|]. intros j E N. injection E as <-.
      apply Z.eqb_eq in Z0. tauto.
    + split; [apply incl_keys_delete|]. intros j _ _ H.
      apply keys_delete in H. tauto.
  - simpl. split; [apply incl_refl|]. discriminate.
Qed.

Section Nested.
Variable bc : value -> State -> option (State * list Effect).
Variable n : nat.
Variable now : Z.
Hypothesis bc_ok : broadcastOk n bc.

Lemma removeConnectionWith_ok connectionId st :
  (length (userConnections st) <= n)%nat ->
  NoDup (JsMap.keys (connections st)) ->
  exists st' t,
    removeConnectionWith bc now connectionId st = Some (st', t)
    /\ keepsLive (JsMap.delete connectionId (connections st)) (connections st')
    /\ (length (userConnections st') <= length (userConnections st))%nat
    /\ typingUsers st' = typingUsers st
    /\ shrinks st st' /\ storedRows t = [].
Proof.
  intros Hn ND. unfold removeConnectionWith.
  pose proof (closeSocket_spec connectionId st) as (C1 & C2 & C3 & C4).
  pose proof (closeSocket_trace connectionId st) as (T1 & _).
  destruct (closeSocket connectionId st) as [st1 closed]. simpl in *.
  pose proof (clearHeartbeat_spec connectionId st1) as (H1 & H2 & H3).
  pose proof (clearHeartbeat_trace connectionId st1) as (T2 & _).
  pose proof (clearHeartbeat_timers connectionId st1) as (H4 & _).
  destruct (clearHeartbeat connectionId st1) as [st2 cleared]. simpl in *.
  assert (connections st2 = JsMap.delete connectionId (connections st)) as EC
    by congruence.
  assert (userConnections st2 = userConnections st) as EU by congruence.
  assert (typingUsers st2 = typingUsers st) as ET by congruence.
  rewrite C4 in H4.
  assert (shrinks st st2) as S2 by (split; [rewrite EU; apply incl_refl|exact H4]).
  destruct (find (owns connectionId) (userConnections st2)) as [[userId ids]|] eqn:F.
  - apply find_owner in F. destruct F as [F1 F2].
    destruct (JsSet.size (JsSet.delete connectionId ids)) eqn:Sz.
    + set (st3 := with_userConnections st2
                    (JsMap.delete userId (userConnections st2))).
      assert (length (userConnections st3) < length (userConnections st))%nat as L3.
      { unfold st3. simpl. rewrite <- EU. eapply length_delete_lt; eauto. }
      destruct (bc_ok (presenceEvent userId "offline" now) st3)
        as (st4 & t & B1 & B2 & B3 & B4 & B5 & B6).
      * lia.
      * unfold st3. simpl. rewrite EC. now apply nodup_keys_delete.
      * rewrite B1. exists st4, (closed ++ cleared ++ t)%list.
        split; [reflexivity|]. split; [|split; [|split; [|split]]].
        -- rewrite B2. unfold st3. simpl. rewrite EC. apply keepsLive_live.
        -- lia.
        -- rewrite B4. unfold st3. simpl. assumption.
        -- eapply shrinks_trans; [exact S2|]. eapply shrinks_trans; [|exact B5].
           unfold st3. split; simpl; [apply incl_keys_delete|apply incl_refl].
        -- rewrite !storedRows_app, T1, T2, B6. reflexivity.
    + eexists _, _. split; [reflexivity|]. simpl. split; [|split; [|split; [|split]]].
      * rewrite EC. apply keepsLive_refl.
      * rewrite length_set_present; [rewrite EU; lia|].
        apply has_in_keys. eapply in_keys; eauto.
      * assumption.
      * eapply shrinks_trans; [exact S2|]. split; simpl; [|apply incl_refl].
        rewrite keys_set_present; [apply incl_refl|].
        apply has_in_keys. eapply in_keys; eauto.
      * rewrite storedRows_app, T1, T2. reflexivity.
  - eexists _, _. split; [reflexivity|]. split; [|split; [|split; [|split]]].
    + rewrite EC. apply keepsLive_refl.
    + rewrite EU. lia.
    + assumption.
    + assumption.
    + rewrite storedRows_app, T1, T2. reflexivity.
Qed.

Lemma removeAll_ok ids : forall st,
  (length (userConnections st) <= n)%nat ->
  NoDup (JsMap.keys (connections st)) ->
  exists st' t,
    removeAll (removeConnectionWith bc now) ids st = Some (st', t)
    /\ keepsLive (filter (notIn ids) (connections st)) (connections st')
    /\ (length (userConnections st') <= length (userConnections st))%nat
    /\ typingUsers st' = typingUsers st
    /\ shrinks st st' /\ storedRows t = [].
Proof.
  induction ids as [|c ids IH]; intros st Hn ND; simpl.
  - eexists _, _. split; [reflexivity|].
    split; [|split; [|split; [|split]]]; auto using shrinks_refl.
    replace (filter (notIn []) (connections st)) with (connections st).
    + apply keepsLive_refl.
    + symmetry. apply forallb_filter_id. apply forallb_forall. reflexivity.
  - destruct (removeConnectionWith_ok c st Hn ND)
      as (st1 & t1 & R1 & R2 & R3 & R4 & R5 & R6).
    rewrite R1.
    assert (NoDup (JsMap.keys (connections st1))) as ND1.
    { eapply keepsLive_nodup; [exact R2|]. now apply nodup_keys_delete. }
    destruct (IH st1) as (st2 & t2 & A1 & A2 & A3 & A4 & A5 & A6); [lia|assumption|].
    rewrite A1. eexists _, _. split; [reflexivity|].
    split; [|split; [|split; [|split]]].
    + eapply keepsLive_trans; [|exact A2].
      apply (keepsLive_filter (notIn ids)) in R2.
      rewrite delete_is_notIn, filter_filter in R2.
      erewrite filter_ext; [exact R2|].
      intros e. apply notIn_cons.
    + lia.
    + congruence.
    + eapply shrinks_trans; eauto.
    + rewrite storedRows_app, R6, A6. reflexivity.
Qed.

End Nested.

(** Enough fuel gives a result, and the result is the registry cut down
    to its live entries. *)
Lemma broadcastMessageFuel_ok fuel now : broadcastOk fuel (broadcastMessageFuel fuel now).
Proof.
  induction fuel as [|fuel IH]; intros message st Hn ND; [lia|].
  cbn [broadcastMessageFuel]. rewrite sendToAll_spec.
  destruct (removeAll_ok _ fuel now IH (deadIds (connections st)) st)
    as (st' & t & R1 & R2 & R3 & R4 & R5 & R6); [lia|assumption|].
  rewrite R1. eexists _, _. split; [reflexivity|].
  split; [|split; [|split; [|split]]]; auto.
  2:{ simpl. rewrite storedRows_app, storedRows_sendsTo, R6. reflexivity. }
  destruct R2 as [q [E K]]. rewrite E, filter_filter.
  apply filter_ext_in. intros e HIn.
  pose proof (drop_dead_is_live _ ND) as D.
  assert (forall x, In x (connections st) ->
                    notIn (deadIds (connections st)) x = live x) as P.
  { intros x Hx. destruct (live x) eqn:L.
    - assert (In x (filter live (connections st))) as HL
        by (apply filter_In; auto).
      rewrite <- D in HL. apply filter_In in HL. tauto.
    - destruct (notIn (deadIds (connections st)) x) eqn:N; [|reflexivity].
      assert (In x (filter (notIn (deadIds (connections st))) (connections st))) as HL
        by (apply filter_In; auto).
      rewrite D in HL. apply filter_In in HL. destruct HL. congruence. }
  rewrite (P e HIn). destruct (live e) eqn:L; [|reflexivity].
  simpl. apply K; [|assumption]. apply filter_In. rewrite (P e HIn). auto.
Qed.

End RoomFacts.

(* ================================================================== *)
(** ** ChatRoomDurableObject: the registry invariant                   *)
(* ================================================================== *)

Module RegistryFacts.
Import ChatRoom RoomSystem.

Lemma in_keys_set {V} (k k' : string) (v : V) (m : list (string * V)) :
  In k' (JsMap.keys (JsMap.set k v m)) <-> In k' (JsMap.keys m) \/ k' = k.
Proof.
  destruct (JsMap.has k m) eqn:H.
  - rewrite keys_set_present by assumption. apply has_in_keys in H.
    split; [auto|]. intros [?| ->]; auto.
  - rewrite set_absent by assumption. unfold JsMap.keys.
    rewrite map_app, in_app_iff. simpl. intuition.
Qed.

Lemma agree_no_owner conns uc connectionId :
  agree conns uc ->
  (forall u ids, In (u, ids) uc -> ~ In connectionId ids) ->
  agree (JsMap.delete connectionId conns) uc.
Proof.
  intros (J1 & J2 & J3) N. split; [assumption|]. split; [|assumption].
  intros c. rewrite keys_delete, J2. split.
  - tauto.
  - intros (u & ids & H1 & H2). split; [eauto|].
    intros ->. eapply N; eauto.
Qed.

Lemma agree_last conns uc connectionId u ids :
  agree conns uc ->
  In (u, ids) uc -> In connectionId ids ->
  JsSet.delete connectionId ids = [] ->
  agree (JsMap.delete connectionId conns) (JsMap.delete u uc).
Proof.
  intros (J1 & J2 & J3) Hu Hc E. split; [|split].
  - now apply nodup_keys_delete.
  - intros c. rewrite keys_delete, J2. split.
    + intros [(u' & s & H1 & H2) Hne]. exists u', s. split; [|assumption].
      apply in_delete. split; [assumption|]. simpl. intros ->.
      assert (s = ids) by (eapply nodup_keys_same; eauto). subst s.
      assert (In c (JsSet.delete connectionId ids)) as X
        by (apply set_in_delete; auto).
      rewrite E in X. destruct X.
    + intros (u' & s & H1 & H2). apply in_delete in H1. simpl in H1.
      destruct H1 as [H1 Hne]. split; [eauto|].
      intros ->. apply Hne. eapply J3; eauto.
  - intros c u1 ids1 u2 ids2 H1 H2. apply in_delete in H1, H2.
    destruct H1, H2. eapply J3; eauto.
Qed.

Lemma agree_more conns uc connectionId u ids :
  agree conns uc ->
  In (u, ids) uc -> In connectionId ids ->
  agree (JsMap.delete connectionId conns)
        (JsMap.set u (JsSet.delete connectionId ids) uc).
Proof.
  intros (J1 & J2 & J3) Hu Hc.
  assert (JsMap.has u uc = true) as Has
    by (apply has_in_keys; eapply in_keys; eauto).
  split; [|split].
  - now rewrite keys_set_present.
  - intros c. rewrite keys_delete, J2. split.
    + intros [(u' & s & H1 & H2) Hne]. destruct (string_dec u' u) as [->|Hu'].
      * assert (s = ids) by (eapply nodup_keys_same; eauto). subst s.
        exists u, (JsSet.delete connectionId ids). split.
        -- apply in_set_present; auto.
        -- apply set_in_delete. auto.
      * exists u', s. split; [|assumption]. apply in_set_present; auto.
    + intros (u' & s & H1 & H2). apply in_set_present in H1; [|assumption].
      destruct H1 as [[H1 Hne]|H1]; simpl in *.
      * split; [eauto|]. intros ->. apply Hne. eapply J3; eauto.
      * injection H1 as -> ->. apply set_in_delete in H2. destruct H2.
        split; [eauto|assumption].
  - intros c u1 ids1 u2 ids2 H1 H2 C1 C2.
    apply in_set_present in H1, H2; try assumption.
    destruct H1 as [[H1 N1]|H1], H2 as [[H2 N2]|H2]; simpl in *.
    + eapply J3; eauto.
    + injection H2 as -> ->. apply set_in_delete in C2. destruct C2.
      eapply J3; eauto.
    + injection H1 as -> ->. apply set_in_delete in C1. destruct C1.
      eapply J3; eauto.
    + congruence.
Qed.

(** A user with an empty set may be added without harm. *)
Lemma agree_new_user conns uc u :
  agree conns uc -> ~ In u (JsMap.keys uc) ->
  agree conns (uc ++ [(u, [])]).
Proof.
  intros (J1 & J2 & J3) N. split; [|split].
  - unfold JsMap.keys. rewrite map_app. simpl.
    apply NoDup_app; [assumption|repeat constructor; auto|].
    intros x Hx [ <- | [] ]. auto.
  - intros c. rewrite J2. split.
    + intros (u' & s & H1 & H2). exists u', s. split; [|assumption].
      apply in_or_app. auto.
    + intros (u' & s & H1 & H2). apply in_app_or in H1.
      destruct H1 as [H1|[H1|[]]]; [eauto|]. injection H1 as <- <-. destruct H2.
  - intros c u1 ids1 u2 ids2 H1 H2 C1 C2.
    apply in_app_or in H1, H2.
    destruct H1 as [H1|[H1|[]]], H2 as [H2|[H2|[]]].
    + eapply J3; eauto.
    + injection H2 as <- <-. destruct C2.
    + injection H1 as <- <-. destruct C1.
    + congruence.
Qed.

Lemma agree_register conns uc connectionId server u ids :
  agree conns uc ->
  In (u, ids) uc -> ~ In connectionId (JsMap.keys conns) ->
  agree (JsMap.set connectionId server conns)
        (JsMap.set u (JsSet.add connectionId ids) uc).
Proof.
  intros (J1 & J2 & J3) Hu Fresh.
  assert (JsMap.has u uc = true) as Has
    by (apply has_in_keys; eapply in_keys; eauto).
  split; [|split].
  - now rewrite keys_set_present.
  - intros c. rewrite in_keys_set, J2. split.
    + intros [(u' & s & H1 & H2)| ->].
      * destruct (string_dec u' u) as [->|Hu'].
        -- assert (s = ids) by (eapply nodup_keys_same; eauto). subst s.
           exists u, (JsSet.add connectionId ids). split.
           ++ apply in_set_present; auto.
           ++ apply set_in_add. auto.
        -- exists u', s. split; [|assumption]. apply in_set_present; auto.
      * exists u, (JsSet.add connectionId ids). split.
        -- apply in_set_present; auto.
        -- apply set_in_add. auto.
    + intros (u' & s & H1 & H2). apply in_set_present in H1; [|assumption].
      destruct H1 as [[H1 Hne]|H1]; simpl in *.
      * left. eauto.
      * injection H1 as -> ->. apply set_in_add in H2.
        destruct H2 as [H2|H2]; [left; eauto|right; assumption].
  - assert (forall c u' s, In (u', s) uc -> u' <> u -> In c s ->
                           In c (JsSet.add connectionId ids) -> False) as X.
    { intros c u' s H1 Hne C1 C2. apply set_in_add in C2.
      destruct C2 as [C2| ->].
      - apply Hne. eapply J3; eauto.
      - apply Fresh. apply J2. eauto. }
    intros c u1 ids1 u2 ids2 H1 H2 C1 C2.
    apply in_set_present in H1, H2; try assumption.
    destruct H1 as [[H1 N1]|H1], H2 as [[H2 N2]|H2]; simpl in *.
    + eapply J3; eauto.
    + injection H2 as -> ->. exfalso. eapply X; eauto.
    + injection H1 as -> ->. exfalso. eapply X; eauto.
    + congruence.
Qed.

Section Nested.
Variable bc : value -> State -> option (State * list Effect).
Variable now : Z.
Hypothesis bc_inv :
  forall message st st' t,
    registryInv st -> bc message st = Some (st', t) -> registryInv st'.

Lemma removeConnectionWith_inv connectionId st st' t :
  registryInv st ->
  removeConnectionWith bc now connectionId st = Some (st', t) ->
  registryInv st'.
Proof.
  unfold registryInv. intros I. unfold removeConnectionWith.
  pose proof (RoomFacts.closeSocket_spec connectionId st) as (C1 & C2 & _).
  destruct (closeSocket connectionId st) as [st1 closed]. simpl in *.
  pose proof (RoomFacts.clearHeartbeat_spec connectionId st1) as (H1 & H2 & _).
  destruct (clearHeartbeat connectionId st1) as [st2 cleared]. simpl in *.
  assert (connections st2 = JsMap.delete connectionId (connections st)) as EC
    by congruence.
  assert (userConnections st2 = userConnections st) as EU by congruence.
  destruct (find (owns connectionId) (userConnections st2)) as [[userId ids]|] eqn:F.
  - apply RoomFacts.find_owner in F. rewrite EU in F. destruct F as [F1 F2].
    destruct (JsSet.size (JsSet.delete connectionId ids)) eqn:Sz.
    + destruct (bc _ _) as [[st4 sent]|] eqn:B; [|discriminate].
      intros E. injection E as <- _. eapply bc_inv; [|exact B].
      unfold registryInv. simpl. rewrite EC, EU.
      eapply agree_last; eauto.
      unfold JsSet.size in Sz. now apply length_zero_iff_nil.
    + intros E. injection E as <- _. simpl. rewrite EC, EU.
      eapply agree_more; eauto.
  - intros E. injection E as <- _. rewrite EC, EU.
    apply agree_no_owner; [assumption|].
    rewrite EU in F. now apply RoomFacts.find_no_owner.
Qed.

Lemma removeAll_inv ids : forall st st' t,
  registryInv st ->
  removeAll (removeConnectionWith bc now) ids st = Some (st', t) ->
  registryInv st'.
Proof.
  induction ids as [|c ids IH]; intros st st' t I; simpl.
  - intros E. now injection E as <- _.
  - destruct (removeConnectionWith bc now c st) as [[st1 t1]|] eqn:R; [|discriminate].
    destruct (removeAll _ ids st1) as [[st2 t2]|] eqn:A; [|discriminate].
    intros E. injection E as <- _.
    eapply IH; [|exact A]. eapply removeConnectionWith_inv; eauto.
Qed.

End Nested.

Lemma broadcastMessageFuel_inv fuel now : forall message st st' t,
  registryInv st ->
  broadcastMessageFuel fuel now message st = Some (st', t) ->
  registryInv st'.
Proof.
  induction fuel as [|fuel IH]; intros message st st' t I; [discriminate|].
  cbn [broadcastMessageFuel].
  destruct (sendToAll _ _) as [sent dead].
  destruct (removeAll _ dead st) as [[st2 cleanup]|] eqn:A; [|discriminate].
  intros E. injection E as <- _.
  eapply removeAll_inv; [exact IH|exact I|exact A].
Qed.

End RegistryFacts.

Module RoomSystemFacts.
Import ChatRoom RoomSystem RegistryFacts.

Lemma initial_inv : registryInv initial.
Proof.
  unfold registryInv, agree. simpl. split; [constructor|]. split.
  - intros c. split; [intros []|]. intros (u & ids & [] & _).
  - intros c u1 ids1 u2 ids2 [].
Qed.

Lemma subscribe_inv B (request : Request B) connectionId server interval st r st' :
  registryInv st ->
  ~ In connectionId (JsMap.keys (connections st)) ->
  handleWebSocketUpgrade request connectionId server interval st = (r, st') ->
  registryInv st'.
Proof.
  unfold registryInv, handleWebSocketUpgrade. intros I Fresh.
  destruct (negb (is_websocket (upgradeHeader request))).
  { intros E. now injection E as _ <-. }
  destruct (getUserIdFromRequest request) as [u|].
  2:{ intros E. now injection E as _ <-. }
  intros E. injection E as _ <-. simpl.
  destruct (JsMap.has u (userConnections st)) eqn:Has.
  - destruct (JsMap.get u (userConnections st)) as [ids|] eqn:G.
    + apply get_in in G. now apply agree_register.
    + apply get_none in G. apply has_in_keys in Has. tauto.
  - apply has_false_keys in Has. pose proof Has as Has'.
    apply has_false_keys in Has'. rewrite (set_absent _ _ _ Has').
    pose proof (agree_new_user _ _ u I Has) as I1.
    assert (In (u, @nil string) (userConnections st ++ [(u, [])])) as HIn
      by (apply in_or_app; right; now left).
    rewrite (in_get _ _ _ (proj1 I1) HIn).
    now apply agree_register.
Qed.

Lemma broadcastMessage_inv now message st st' t :
  registryInv st -> broadcastMessage now message st = Some (st', t) ->
  registryInv st'.
Proof. apply broadcastMessageFuel_inv. Qed.

Lemma removeConnection_inv now connectionId st st' t :
  registryInv st -> removeConnection now connectionId st = Some (st', t) ->
  registryInv st'.
Proof.
  apply removeConnectionWith_inv. apply broadcastMessageFuel_inv.
Qed.

Lemma afterBroadcast_inv st0 b r st' t :
  (forall st1 t1, b = Some (st1, t1) -> registryInv st1) ->
  afterBroadcast b = Some (r, st', t) -> registryInv st0 -> registryInv st'.
Proof.
  intros H. unfold afterBroadcast. destruct b as [[st1 t1]|]; [|discriminate].
  intros E _. injection E as _ <- _. eapply H; eauto.
Qed.

Lemma step_inv st st' : step st st' -> registryInv st -> registryInv st'.
Proof.
  intros S I. destruct S.
  - eapply subscribe_inv; eauto.
  - eapply removeConnection_inv; eauto.
  - unfold heartbeatTick in H.
    assert (forall x, match removeConnection now connectionId st with
                      | Some (st0, t0) => Some (st0, (t0 ++ [ClearInterval interval])%list)
                      | None => None
                      end = Some x -> registryInv (fst x)) as Expire.
    { intros x E.
      destruct (removeConnection now connectionId st) as [[st0 t0]|] eqn:R;
        [|discriminate].
      injection E as <-. eapply removeConnection_inv; eauto. }
    destruct (JsMap.get connectionId (connections st)) as [ws|].
    + destruct (is_open ws).
      * now injection H as <- _.
      * exact (Expire _ H).
    + exact (Expire _ H).
  - destruct frame; simpl in H.
    + now injection H as <- _.
    + eapply broadcastMessage_inv; eauto.
    + unfold handleTypingIndicator in H.
      eapply broadcastMessage_inv; [|exact H]. exact I.
    + now injection H as <- _.
  - eapply broadcastMessage_inv; eauto.
  - unfold handleMessageRequest in H.
    destruct (negb _); [now injection H as _ <- _|].
    destruct (json request); [|now injection H as _ <- _].
    destruct (getUserIdFromRequest request); [|now injection H as _ <- _].
    destruct (_ || _); [now injection H as _ <- _|].
    eapply afterBroadcast_inv; [|exact H|exact I].
    intros st1 t1 E. eapply broadcastMessage_inv; eauto.
  - unfold handleTypingRequest in H.
    destruct (negb _); [now injection H as _ <- _|].
    destruct (json request); [|now injection H as _ <- _].
    destruct (getUserIdFromRequest request); [|now injection H as _ <- _].
    eapply afterBroadcast_inv; [|exact H|exact I].
    intros st1 t1 E. eapply broadcastMessage_inv; [|exact E]. exact I.
  - unfold handlePresenceRequest in H.
    destruct (negb _); [now injection H as _ <- _|].
    destruct (json request); [|now injection H as _ <- _].
    destruct (getUserIdFromRequest request); [|now injection H as _ <- _].
    eapply afterBroadcast_inv; [|exact H|exact I].
    intros st1 t1 E. eapply broadcastMessage_inv; eauto.
  - unfold registryInv, agree in *. simpl.
    destruct I as (J1 & J2 & J3). split; [assumption|]. split; [|assumption].
    intros c. rewrite keys_set_present; [apply J2|]. now apply has_in_keys.
Qed.

Lemma reachable_inv st : reachable st -> registryInv st.
Proof.
  induction 1 as [|st st' R IH S]; [apply initial_inv|].
  eapply step_inv; eauto.
Qed.

End RoomSystemFacts.

Lemma broadcastMessageFuel_shape fuel now message st st' t :
  ChatRoom.broadcastMessageFuel (S fuel) now message st = Some (st', t) ->
  exists cleanup,
    t = (Bcast message
         :: sendsTo (stringify message) (ChatRoom.connections st) ++ cleanup)%list
    /\ ChatRoom.removeAll
         (ChatRoom.removeConnectionWith (ChatRoom.broadcastMessageFuel fuel now) now)
         (deadIds (ChatRoom.connections st)) st = Some (st', cleanup).
Proof.
  cbn [ChatRoom.broadcastMessageFuel]. rewrite sendToAll_spec.
  destruct (ChatRoom.removeAll _ _ st) as [[st2 cleanup]|]; [|discriminate].
  intros E. injection E as <- <-. eauto.
Qed.

Section MoreMapFacts.
Context {V : Type}.
Implicit Types (m : list (string * V)) (k : string) (v : V).

Lemma get_set_eq k v m : JsMap.get k (JsMap.set k v m) = Some v.
Proof.
  unfold JsMap.set, JsMap.get. destruct (JsMap.has k m) eqn:H.
  - unfold JsMap.has in H. induction m as [|e m IH]; simpl in *; [discriminate|].
    destruct (JsMap.is_key k e) eqn:K; simpl.
    + unfold JsMap.is_key at 1. simpl. now rewrite String.eqb_refl.
    + rewrite K. apply IH. assumption.
  - unfold JsMap.has in H. induction m as [|e m IH]; simpl in *.
    + unfold JsMap.is_key. simpl. now rewrite String.eqb_refl.
    + apply orb_false_iff in H. destruct H as [K H]. rewrite K. now apply IH.
Qed.

Lemma get_set_other k k' v m : k' <> k -> JsMap.get k' (JsMap.set k v m) = JsMap.get k' m.
Proof.
  intros N. unfold JsMap.set, JsMap.get. destruct (JsMap.has k m).
  - induction m as [|e m IH]; simpl; [reflexivity|].
    destruct (JsMap.is_key k e) eqn:K.
    + apply is_key_true in K.
      assert (JsMap.is_key k' e = false) as K1 by (apply is_key_false; congruence).
      assert (JsMap.is_key k' (k, v) = false) as K2 by (apply is_key_false; simpl; congruence).
      rewrite K1, K2. exact IH.
    + destruct (JsMap.is_key k' e); [reflexivity|exact IH].
  - induction m as [|e m IH]; simpl.
    + assert (JsMap.is_key k' (k, v) = false) as K2 by (apply is_key_false; simpl; congruence).
      now rewrite K2.
    + destruct (JsMap.is_key k' e); [reflexivity|exact IH].
Qed.

Lemma has_set k v m : JsMap.has k (JsMap.set k v m) = true.
Proof. apply has_in_keys. apply RegistryFacts.in_keys_set. now right. Qed.

Lemma set_set k v v' m : JsMap.set k v' (JsMap.set k v m) = JsMap.set k v' m.
Proof.
  rewrite (set_present k v' (JsMap.set k v m)) by apply has_set.
  unfold JsMap.set. destruct (JsMap.has k m) eqn:H.
  - rewrite map_map. apply map_ext. intros e.
    destruct (JsMap.is_key k e) eqn:K; [|now rewrite K].
    unfold JsMap.is_key at 1. simpl. now rewrite String.eqb_refl.
  - rewrite map_app. simpl. unfold JsMap.is_key at 2. simpl.
    rewrite String.eqb_refl. f_equal.
    unfold JsMap.has in H. induction m as [|e m IH]; simpl in *; [reflexivity|].
    apply orb_false_iff in H. destruct H as [K H]. rewrite K. f_equal. now apply IH.
Qed.

Lemma nodup_keys_set k v m : NoDup (JsMap.keys m) -> NoDup (JsMap.keys (JsMap.set k v m)).
Proof.
  intros ND. destruct (JsMap.has k m) eqn:H.
  - now rewrite keys_set_present.
  - rewrite set_absent by assumption. apply has_false_keys in H.
    unfold JsMap.keys. rewrite map_app. simpl.
    apply NoDup_app; [assumption|repeat constructor; auto|].
    intros x Hx [ <- | [] ]. auto.
Qed.

End MoreMapFacts.

Lemma broadcasts_sendsTo messageStr registry : broadcasts (sendsTo messageStr registry) = [].
Proof.
  unfold sendsTo.
  induction (filter (fun e => is_open (snd e)) registry); simpl; auto.
Qed.

(** A presence broadcast touches neither map of presence data and is
    recorded once. *)
Lemma presence_broadcast_frame update st :
  Presence.userPresence (fst (Presence.broadcastPresenceUpdate update st))
    = Presence.userPresence st
  /\ Presence.typingIndicators (fst (Presence.broadcastPresenceUpdate update st))
     = Presence.typingIndicators st
  /\ broadcasts (snd (Presence.broadcastPresenceUpdate update st)) = [update].
Proof.
  unfold Presence.broadcastPresenceUpdate. rewrite sendToAll_spec.
  pose proof (PresenceFacts.removeAll_spec
                (deadIds (Presence.presenceSubscribers st)) st) as (_ & A & B & _ & C).
  destruct (Presence.removeAll _ st) as [st' cleanup]. simpl in *.
  split; [assumption|]. split; [assumption|].
  now rewrite PresenceFacts.broadcasts_app, broadcasts_sendsTo, C.
Qed.

Lemma markTyping_typing user typing chat st :
  Presence.typingIndicators (Presence.markTyping user typing chat st)
  = Presence.typingIndicators st.
Proof.
  unfold Presence.markTyping.
  destruct (JsMap.get user (Presence.userPresence st)); reflexivity.
Qed.



Lemma markTyping_ignores_typing user typing chat st ti :
  Presence.userPresence
    (Presence.markTyping user typing chat (Presence.with_typingIndicators st ti))
  = Presence.userPresence (Presence.markTyping user typing chat st).
Proof.
  unfold Presence.markTyping. simpl.
  destruct (JsMap.get user (Presence.userPresence st)); reflexivity.
Qed.

Lemma set_delete_absent (x : string) (s : list string) :
  JsSet.has x s = false -> JsSet.delete x s = s.
Proof.
  unfold JsSet.has, JsSet.delete. induction s as [|y s IH]; simpl; [reflexivity|].
  intros H. apply orb_false_iff in H. destruct H as [H1 H2].
  rewrite H1. simpl. f_equal. now apply IH.
Qed.


(* ================================================================== *)
(** ** PresenceDurableObject: the periodic sweep                      *)
(* ================================================================== *)

Module SweepFacts.
Import Presence.

Lemma count_app {A} (p : A -> bool) l1 l2 : count p (l1 ++ l2) = (count p l1 + count p l2)%nat.
Proof. unfold count. now rewrite filter_app, length_app. Qed.

Lemma count_none {A} (p : A -> bool) l :
  (forall x, In x l -> p x = false) -> count p l = 0%nat.
Proof.
  unfold count. induction l as [|x l IH]; simpl; intros H; [reflexivity|].
  rewrite (H x) by auto. apply IH. auto.
Qed.

Lemma count_map {A B} (f : A -> B) (p : B -> bool) l :
  count p (map f l) = count (fun x => p (f x)) l.
Proof.
  unfold count. induction l as [|x l IH]; simpl; [reflexivity|].
  destruct (p (f x)); simpl; congruence.
Qed.

Lemma count_filter {A} (p q : A -> bool) l :
  count p (filter q l) = count (fun x => q x && p x) l.
Proof. unfold count. now rewrite filter_filter. Qed.

(** Among entries with distinct keys, a test that only the entry of [k]
    can pass is passed once or never. *)
Lemma count_unique {V} (p : string * V -> bool) k v (m : list (string * V)) :
  NoDup (JsMap.keys m) -> In (k, v) m ->
  (forall e, In e m -> p e = true -> fst e = k) ->
  count p m = if p (k, v) then 1%nat else 0%nat.
Proof.
  unfold count, JsMap.keys.
  induction m as [|e m IH]; simpl; [tauto|]. intros ND HIn U.
  inversion ND as [|? ? N ND']; subst. destruct HIn as [->|HIn].
  - assert (length (filter p m) = 0%nat) as Z0.
    { apply (count_none p). intros x Hx. destruct (p x) eqn:P; [|reflexivity].
      exfalso. apply N. apply in_map_iff. exists x. split; [|assumption].
      apply U; auto. }
    destruct (p (k, v)); simpl; rewrite Z0; reflexivity.
  - destruct (p e) eqn:P.
    + exfalso. apply N. rewrite (U e (or_introl eq_refl) P).
      apply in_map_iff. exists (k, v). auto.
    + apply IH; auto.
Qed.

Lemma get_delete_other {V} k k' (m : list (string * V)) :
  k' <> k -> JsMap.get k' (JsMap.delete k m) = JsMap.get k' m.
Proof.
  intros N. unfold JsMap.get, JsMap.delete.
  induction m as [|e m IH]; simpl; [reflexivity|].
  destruct (JsMap.is_key k e) eqn:K; simpl.
  - apply is_key_true in K.
    assert (JsMap.is_key k' e = false) as K' by (apply is_key_false; congruence).
    rewrite K'. exact IH.
  - destruct (JsMap.is_key k' e); [reflexivity|exact IH].
Qed.

Lemma flat_map_agree {A B} (f g : A -> list B) (l : list A) :
  (forall x, In x l -> f x = g x) -> flat_map f l = flat_map g l.
Proof.
  induction l as [|x l IH]; simpl; intros H; [reflexivity|].
  rewrite (H x) by auto. f_equal. apply IH. auto.
Qed.

Lemma isTypingStopFor_stop user chat u c now :
  isTypingStopFor user chat (typingStopEvent u c now)
  = String.eqb u user && String.eqb c chat.
Proof. reflexivity. Qed.

Lemma isPresenceUpdateFor_stop user u c now :
  isPresenceUpdateFor user (typingStopEvent u c now) = false.
Proof. reflexivity. Qed.

Lemma isPresenceUpdateFor_update user p :
  isPresenceUpdateFor user (presenceUpdateEvent p) = String.eqb (userId p) user.
Proof. reflexivity. Qed.

Lemma isTypingStopFor_update user chat p :
  isTypingStopFor user chat (presenceUpdateEvent p) = false.
Proof. reflexivity. Qed.

(** One round of the typing sweep. *)
Lemma expireKey_spec now key st :
  typingIndicators (fst (expireKey now key st))
    = JsMap.delete key (typingIndicators st)
  /\ broadcasts (snd (expireKey now key st))
     = match JsMap.get key (typingIndicators st) with
       | Some i => [typingStopEvent (typingUserId i) (chatId i) now]
       | None => []
       end
  /\ userPresence (fst (expireKey now key st))
     = match JsMap.get key (typingIndicators st) with
       | Some i => userPresence (markTyping (typingUserId i) false None st)
       | None => userPresence st
       end.
Proof.
  unfold expireKey. destruct (JsMap.get key (typingIndicators st)) as [i|] eqn:G.
  - match goal with |- context [broadcastPresenceUpdate ?e ?s] =>
      pose proof (presence_broadcast_frame e s) as (F1 & F2 & F3) end.
    rewrite F1, F2, F3, markTyping_typing, markTyping_ignores_typing. auto.
  - simpl. rewrite (delete_get_none _ _ G). auto.
Qed.

Lemma expireAll_typing now keys : forall st,
  typingIndicators (fst (expireAll now keys st))
  = filter (notIn keys) (typingIndicators st).
Proof.
  induction keys as [|k keys IH]; intros st; simpl.
  - symmetry. apply forallb_filter_id. apply forallb_forall. reflexivity.
  - pose proof (expireKey_spec now k st) as (E1 & _).
    destruct (expireKey now k st) as [st1 t1]. simpl in E1.
    specialize (IH st1). destruct (expireAll now keys st1) as [st2 t2].
    simpl in *. rewrite IH, E1, delete_is_notIn, filter_filter.
    apply filter_ext. intros e. symmetry. apply notIn_cons.
Qed.

Lemma expireAll_broadcasts now keys : forall st,
  NoDup keys ->
  broadcasts (snd (expireAll now keys st))
  = flat_map (fun k => match JsMap.get k (typingIndicators st) with
                       | Some i => [typingStopEvent (typingUserId i) (chatId i) now]
                       | None => []
                       end) keys.
Proof.
  induction keys as [|k keys IH]; intros st ND; simpl; [reflexivity|].
  inversion ND as [|? ? N ND']; subst.
  pose proof (expireKey_spec now k st) as (E1 & E2 & _).
  destruct (expireKey now k st) as [st1 t1]. simpl in E1, E2.
  specialize (IH st1 ND'). destruct (expireAll now keys st1) as [st2 t2].
  simpl in *. rewrite PresenceFacts.broadcasts_app, E2, IH. f_equal.
  apply flat_map_agree. intros k' Hk'. rewrite E1.
  rewrite get_delete_other; [reflexivity|]. congruence.
Qed.

Lemma nodup_map_fst_filter {V} (p : string * V -> bool) (m : list (string * V)) :
  NoDup (JsMap.keys m) -> NoDup (map fst (filter p m)).
Proof. apply nodup_keys_filter. Qed.

(** The events of the typing sweep: one [typing_stop] per expired
    entry. *)
Lemma cleanup_broadcasts now st :
  NoDup (JsMap.keys (typingIndicators st)) ->
  broadcasts (snd (cleanupExpiredTypingIndicators now st))
  = map (stopOf now) (filter (expired now) (typingIndicators st)).
Proof.
  intros ND. unfold cleanupExpiredTypingIndicators, expiredKeys.
  rewrite expireAll_broadcasts by now apply nodup_map_fst_filter.
  assert (forall l, (forall e, In e l -> In e (typingIndicators st)) ->
            flat_map (fun k => match JsMap.get k (typingIndicators st) with
                               | Some i => [typingStopEvent (typingUserId i) (chatId i) now]
                               | None => []
                               end) (map fst l)
            = map (stopOf now) l) as X.
  { induction l as [|[k i] l IH]; simpl; intros H; [reflexivity|].
    rewrite (in_get k i _ ND) by auto. simpl. f_equal. apply IH. auto. }
  apply X. intros e He. apply filter_In in He. tauto.
Qed.

Lemma in_expiredKeys now st k i :
  NoDup (JsMap.keys (typingIndicators st)) -> In (k, i) (typingIndicators st) ->
  (In k (expiredKeys now st) <-> expired now (k, i) = true).
Proof.
  intros ND HIn. unfold expiredKeys. rewrite in_map_iff. split.
  - intros [[k' i'] [E H]]. simpl in E. subst k'. apply filter_In in H.
    destruct H as [H1 H2]. assert (i' = i) by (eapply nodup_keys_same; eauto).
    now subst.
  - intros E. exists (k, i). split; [reflexivity|]. apply filter_In. auto.
Qed.

End SweepFacts.

Module AlarmFacts.
Import Presence.

Lemma keys_clearIf us up : JsMap.keys (map (clearIf us) up) = JsMap.keys up.
Proof.
  unfold JsMap.keys. rewrite map_map. apply map_ext. intros e.
  unfold clearIf. destruct (existsb _ us); reflexivity.
Qed.

Lemma clearTyping_twice p : clearTyping (clearTyping p) = clearTyping p.
Proof. reflexivity. Qed.

Lemma clearIf_cons x us e : clearIf us (clearIf [x] e) = clearIf (x :: us) e.
Proof.
  unfold clearIf. simpl. rewrite orb_false_r.
  destruct (String.eqb (fst e) x); simpl.
  - destruct (existsb _ us); reflexivity.
  - reflexivity.
Qed.

Lemma markTyping_clear u st :
  NoDup (JsMap.keys (userPresence st)) ->
  userPresence (markTyping u false None st) = map (clearIf [u]) (userPresence st).
Proof.
  intros ND. unfold markTyping.
  destruct (JsMap.get u (userPresence st)) as [p|] eqn:G.
  - cbn [userPresence with_userPresence]. pose proof (get_in _ _ _ G) as HIn.
    rewrite set_present by (apply has_in_keys; eapply in_keys; eauto).
    apply map_ext_in. intros [k q] He. unfold clearIf, JsMap.is_key. simpl.
    rewrite orb_false_r. destruct (String.eqb k u) eqn:K; [|reflexivity].
    apply String.eqb_eq in K. subst k.
    assert (q = p) by (eapply nodup_keys_same; eauto). now subst.
  - apply get_none in G. rewrite <- (map_id (userPresence st)) at 1.
    apply map_ext_in. intros [k q] He. unfold clearIf. simpl.
    rewrite orb_false_r. destruct (String.eqb k u) eqn:K; [|reflexivity].
    apply String.eqb_eq in K. subst k. exfalso. apply G. eapply in_keys; eauto.
Qed.

(** The typing sweep clears the typing fields of some users, each of
    them the user of an indicator it was asked to expire. *)
Lemma expireAll_presence now keys : forall st,
  NoDup (JsMap.keys (userPresence st)) ->
  exists us,
    userPresence (fst (expireAll now keys st)) = map (clearIf us) (userPresence st)
    /\ forall u, In u us ->
         exists k i, In k keys /\ In (k, i) (typingIndicators st)
                     /\ typingUserId i = u.
Proof.
  induction keys as [|k keys IH]; intros st ND; simpl.
  - exists []. split; [|intros u []].
    rewrite <- (map_id (userPresence st)) at 1. apply map_ext. now intros [a b].
  - pose proof (SweepFacts.expireKey_spec now k st) as (E1 & _ & E3).
    destruct (expireKey now k st) as [st1 t1]. simpl in E1, E3.
    destruct (JsMap.get k (typingIndicators st)) as [i|] eqn:G.
    + rewrite markTyping_clear in E3 by assumption.
      destruct (IH st1) as (us & U1 & U2).
      { rewrite E3, keys_clearIf. assumption. }
      destruct (expireAll now keys st1) as [st2 t2]. simpl in *.
      exists (typingUserId i :: us). split.
      * rewrite U1, E3, map_map. apply map_ext. intros e. apply clearIf_cons.
      * intros u [<-|Hu].
        -- exists k, i. split; [now left|]. split; [now apply get_in|reflexivity].
        -- destruct (U2 u Hu) as (k' & i' & A & B & C). exists k', i'.
           split; [now right|]. split; [|assumption].
           rewrite E1 in B. apply in_delete in B. tauto.
    + destruct (IH st1) as (us & U1 & U2); [now rewrite E3|].
      destruct (expireAll now keys st1) as [st2 t2]. simpl in *.
      exists us. split; [now rewrite U1, E3|].
      intros u Hu. destruct (U2 u Hu) as (k' & i' & A & B & C). exists k', i'.
      split; [now right|]. split; [|assumption].
      rewrite E1 in B. apply in_delete in B. tauto.
Qed.

Lemma expireAll_no_update user now keys : forall st,
  count (isPresenceUpdateFor user) (broadcasts (snd (expireAll now keys st))) = 0%nat.
Proof.
  induction keys as [|k keys IH]; intros st; simpl; [reflexivity|].
  pose proof (SweepFacts.expireKey_spec now k st) as (_ & E2 & _).
  destruct (expireKey now k st) as [st1 t1]. simpl in E2.
  specialize (IH st1). destruct (expireAll now keys st1) as [st2 t2]. simpl in *.
  rewrite PresenceFacts.broadcasts_app, SweepFacts.count_app, IH, E2.
  destruct (JsMap.get k (typingIndicators st)); reflexivity.
Qed.

(** The presence loop of [alarm]. *)
Lemma demoteStale_spec f entries : forall st,
  userPresence (fst (demoteStale f entries st)) = demoteMap f entries (userPresence st)
  /\ broadcasts (snd (demoteStale f entries st))
     = map (fun e => presenceUpdateEvent (demote (snd e))) (filter (stale f) entries)
  /\ typingIndicators (fst (demoteStale f entries st)) = typingIndicators st.
Proof.
  induction entries as [|[u p] entries IH]; intros st; [simpl; auto|].
  assert (stale f (u, p) = (lastSeenAt p <? f) && is_online (status p)) as SE
    by reflexivity.
  cbn [demoteStale demoteMap fold_left filter]. rewrite !SE.
  destruct ((lastSeenAt p <? f) && is_online (status p)) eqn:S.
  - match goal with |- context [broadcastPresenceUpdate ?e ?s] =>
      pose proof (presence_broadcast_frame e s) as (F1 & F2 & F3);
      destruct (broadcastPresenceUpdate e s) as [st2 t1] end.
    cbn [fst snd] in *. specialize (IH st2).
    destruct (demoteStale f entries st2) as [st3 t2]. cbn [fst snd] in *.
    destruct IH as (I1 & I2 & I3). split; [|split].
    + rewrite I1, F1. reflexivity.
    + rewrite PresenceFacts.broadcasts_app, F3, I2. reflexivity.
    + rewrite I3, F2. reflexivity.
  - apply IH.
Qed.

Lemma get_demoteMap_other f u entries : forall m,
  ~ In u (JsMap.keys entries) ->
  JsMap.get u (demoteMap f entries m) = JsMap.get u m.
Proof.
  unfold demoteMap. induction entries as [|[k p] entries IH]; intros m N; [reflexivity|].
  simpl in *. rewrite IH by tauto.
  destruct (stale f (k, p)); [|reflexivity].
  apply get_set_other. intros ->. tauto.
Qed.

Lemma get_demoteMap f u q entries : forall m,
  NoDup (JsMap.keys entries) -> In (u, q) entries -> JsMap.get u m = Some q ->
  JsMap.get u (demoteMap f entries m)
  = Some (if stale f (u, q) then demote q else q).
Proof.
  induction entries as [|[k p] entries IH]; intros m ND HIn G; [destruct HIn|].
  simpl in ND. inversion ND as [|? ? N ND']; subst.
  destruct HIn as [E|HIn].
  - injection E as -> ->. unfold demoteMap. simpl.
    fold (demoteMap f entries
            (if stale f (u, q) then JsMap.set u (demote q) m else m)).
    rewrite get_demoteMap_other by assumption.
    destruct (stale f (u, q)); [apply get_set_eq|assumption].
  - assert (k <> u) as Ne.
    { intros ->. apply N. eapply in_keys; eauto. }
    unfold demoteMap. simpl.
    fold (demoteMap f entries
            (if stale f (k, p) then JsMap.set k (demote p) m else m)).
    apply IH; auto.
    destruct (stale f (k, p)); [|assumption].
    rewrite get_set_other; auto.
Qed.

End AlarmFacts.

Lemma received_in c payload t : In (WsSend c payload true) t -> In payload (received c t).
Proof.
  induction t as [|e t IH]; simpl; [tauto|]. intros [->|H].
  - rewrite String.eqb_refl. now left.
  - destruct e as [c' s' [] | | | | | | ]; auto.
    destruct (String.eqb c' c); [right|]; auto.
Qed.

(* ================================================================== *)
(** ** The hypotheses of the properties hold in every reachable state  *)
(* ================================================================== *)

Lemma in_set_cases {V} k (v : V) m e :
  In e (JsMap.set k v m) -> (In e m /\ fst e <> k) \/ e = (k, v).
Proof.
  destruct (JsMap.has k m) eqn:H.
  - intros HIn. now apply in_set_present in HIn.
  - rewrite set_absent by assumption. intros HIn. apply in_app_or in HIn.
    destruct HIn as [HIn|[<-|[]]]; [left|now right].
    split; [assumption|]. apply has_false_keys in H. intros <-. apply H.
    destruct e. eapply in_keys; eauto.
Qed.

Lemma wfPresence_set k p up :
  wfPresence up -> Presence.userId p = k -> wfPresence (JsMap.set k p up).
Proof.
  intros [ND Keyed] E. split; [now apply nodup_keys_set|].
  intros k' q HIn. apply in_set_cases in HIn. destruct HIn as [[HIn _]|HIn].
  - now apply Keyed.
  - now injection HIn as -> ->.
Qed.

Lemma wfPresence_markTyping user typing chat st :
  wfPresence (Presence.userPresence st) ->
  wfPresence (Presence.userPresence (Presence.markTyping user typing chat st)).
Proof.
  intros WF. unfold Presence.markTyping.
  destruct (JsMap.get user (Presence.userPresence st)) as [p|] eqn:G; [|assumption].
  simpl. apply wfPresence_set; [assumption|]. simpl.
  apply (proj2 WF). now apply get_in.
Qed.

Lemma wfPresence_demoteMap f entries : forall up,
  wfPresence up -> (forall k p, In (k, p) entries -> Presence.userId p = k) ->
  wfPresence (demoteMap f entries up).
Proof.
  unfold demoteMap. induction entries as [|[k p] entries IH]; intros up WF K; [assumption|].
  simpl. apply IH; [|intros; apply K; now right].
  destruct (stale f (k, p)); [|assumption].
  apply wfPresence_set; [assumption|]. simpl. apply K. now left.
Qed.

Lemma presence_broadcast_subscribers update st :
  Presence.presenceSubscribers (fst (Presence.broadcastPresenceUpdate update st))
  = filter (notIn (deadIds (Presence.presenceSubscribers st)))
           (Presence.presenceSubscribers st).
Proof.
  unfold Presence.broadcastPresenceUpdate. rewrite sendToAll_spec.
  pose proof (PresenceFacts.removeAll_spec
                (deadIds (Presence.presenceSubscribers st)) st) as (A & _).
  destruct (Presence.removeAll _ st) as [st' cleanup]. exact A.
Qed.

Module PresenceSystemFacts.
Import Presence PresenceSystem.

Lemma broadcast_wellKeyed update st :
  wellKeyed st -> wellKeyed (fst (broadcastPresenceUpdate update st)).
Proof.
  intros (W1 & [W2 W3] & W4).
  pose proof (presence_broadcast_frame update st) as (F1 & F2 & _).
  pose proof (presence_broadcast_subscribers update st) as F3.
  unfold wellKeyed, wfTyping. rewrite F1, F2, F3.
  split; [assumption|]. split; [split; assumption|]. now apply nodup_keys_filter.
Qed.

Lemma remove_wellKeyed connectionId st :
  wellKeyed st -> wellKeyed (fst (removePresenceSubscriber connectionId st)).
Proof.
  intros (W1 & [W2 W3] & W4).
  pose proof (PresenceFacts.remove_frame connectionId st) as (F1 & F2).
  pose proof (PresenceFacts.remove_subscribers connectionId st) as F3.
  unfold wellKeyed, wfTyping. rewrite F1, F2, F3.
  split; [assumption|]. split; [split; assumption|]. now apply nodup_keys_delete.
Qed.

Lemma markTyping_wellKeyed user typing chat st :
  wellKeyed st -> wellKeyed (markTyping user typing chat st).
Proof.
  intros (W1 & W2 & W4). split; [now apply wfPresence_markTyping|].
  unfold wfTyping. rewrite markTyping_typing.
  split; [exact W2|].
  unfold markTyping. destruct (JsMap.get user (userPresence st)); exact W4.
Qed.

Lemma expireAll_wellKeyed now keys : forall st,
  wellKeyed st -> wellKeyed (fst (expireAll now keys st)).
Proof.
  induction keys as [|k keys IH]; intros st W; [exact W|]. simpl.
  assert (wellKeyed (fst (expireKey now k st))) as W1.
  { unfold expireKey. destruct (JsMap.get k (typingIndicators st)); [|exact W].
    apply broadcast_wellKeyed, markTyping_wellKeyed.
    destruct W as (W1 & [W2 W3] & W4). split; [exact W1|]. split; [|exact W4].
    split; simpl.
    - now apply nodup_keys_delete.
    - intros k' i HIn. apply in_delete in HIn. apply W3. tauto. }
  destruct (expireKey now k st) as [st1 t1]. simpl in W1.
  specialize (IH st1 W1). destruct (expireAll now keys st1) as [st2 t2]. exact IH.
Qed.

Lemma alarm_wellKeyed now now' st : wellKeyed st -> wellKeyed (fst (alarm now now' st)).
Proof.
  intros W. unfold alarm, cleanupExpiredTypingIndicators.
  pose proof (expireAll_wellKeyed now (expiredKeys now st) st W) as W1.
  destruct (expireAll now (expiredKeys now st) st) as [st1 t1]. simpl in W1.
  pose proof (AlarmFacts.demoteStale_spec (now' - 300000) (userPresence st1) st1)
    as (D1 & _ & D3).
  assert (forall entries st0, NoDup (JsMap.keys (presenceSubscribers st0)) ->
            NoDup (JsMap.keys (presenceSubscribers
                                 (fst (demoteStale (now' - 300000) entries st0))))) as S.
  { induction entries as [|[u p] entries IH]; intros st0 ND; [exact ND|].
    cbn [demoteStale].
    destruct ((lastSeenAt p <? now' - 300000) && is_online (status p)); [|now apply IH].
    match goal with |- context [broadcastPresenceUpdate ?e ?s] =>
      pose proof (presence_broadcast_subscribers e s) as F;
      destruct (broadcastPresenceUpdate e s) as [st2 t2] end.
    simpl in F. specialize (IH st2).
    destruct (demoteStale (now' - 300000) entries st2) as [st3 t3]. simpl in *.
    apply IH. rewrite F. now apply nodup_keys_filter. }
  specialize (S (userPresence st1) st1 (proj2 (proj2 W1))).
  destruct (demoteStale (now' - 300000) (userPresence st1) st1) as [st2 t2].
  simpl in *. destruct W1 as (W1 & W2 & W3).
  split; [|split; [|exact S]].
  - rewrite D1. apply wfPresence_demoteMap; [exact W1|exact (proj2 W1)].
  - unfold wfTyping. rewrite D3. exact W2.
Qed.

Lemma step_wellKeyed st st' : step st st' -> wellKeyed st -> wellKeyed st'.
Proof.
  intros S W. destruct S.
  - unfold handleWebSocketUpgrade.
    destruct (negb (is_websocket (upgradeHeader request))); [exact W|].
    assert (wellKeyed (setupHeartbeat connectionId interval
                         (with_presenceSubscribers st
                            (JsMap.set connectionId server (presenceSubscribers st)))))
      as W'.
    { destruct W as (W1 & W2 & W3). split; [exact W1|]. split; [exact W2|].
      simpl. now apply nodup_keys_set. }
    destruct (sendCurrentPresenceState _ _ _ _) as [sent []]; exact W'.
  - now apply remove_wellKeyed.
  - unfold heartbeatTick.
    pose proof (remove_wellKeyed connectionId st W) as R.
    destruct (removePresenceSubscriber connectionId st) as [st1 t1]. simpl in R.
    destruct (JsMap.get connectionId (presenceSubscribers st)) as [ws|]; [|exact R].
    destruct (is_open ws); [exact W|exact R].
  - unfold handlePresenceRequest.
    destruct (negb _); [exact W|].
    destruct (json request) as [d|]; [|exact W].
    destruct (getUserIdFromRequest request) as [user|]; [|exact W].
    match goal with |- context [broadcastPresenceUpdate ?e ?s] =>
      pose proof (broadcast_wellKeyed e s) as B;
      destruct (broadcastPresenceUpdate e s) as [st2 t2] end.
    simpl in *. apply B. destruct W as (W1 & W2 & W3).
    split; [|split; assumption]. simpl. now apply wfPresence_set.
  - unfold handleTypingRequest.
    destruct (negb _); [exact W|].
    destruct (json request) as [d|]; [|exact W].
    destruct (getUserIdFromRequest request) as [user|]; [|exact W].
    destruct W as (W1 & [W2 W3] & W4).
    destruct (reqIsTyping d).
    + match goal with |- context [broadcastPresenceUpdate ?e ?s] =>
        pose proof (broadcast_wellKeyed e s) as B;
        destruct (broadcastPresenceUpdate e s) as [st2 t2] end.
      simpl in *. apply B. apply markTyping_wellKeyed.
      split; [exact W1|]. split; [|exact W4]. split; simpl.
      * now apply nodup_keys_set.
      * intros k i HIn. apply in_set_cases in HIn.
        destruct HIn as [[HIn _]|HIn]; [now apply W3|].
        injection HIn as -> ->. reflexivity.
    + match goal with |- context [broadcastPresenceUpdate ?e ?s] =>
        pose proof (broadcast_wellKeyed e s) as B;
        destruct (broadcastPresenceUpdate e s) as [st2 t2] end.
      simpl in *. apply B. apply markTyping_wellKeyed.
      split; [exact W1|]. split; [|exact W4]. split; simpl.
      * now apply nodup_keys_delete.
      * intros k i HIn. apply in_delete in HIn. apply W3. tauto.
  - now apply alarm_wellKeyed.
  - destruct W as (W1 & W2 & W3). split; [exact W1|]. split; [exact W2|].
    simpl. now apply nodup_keys_set.
Qed.

(** The hypotheses of the sweep properties are invariants of the
    presence object. *)
Lemma reachable_wellKeyed st : reachable st -> wellKeyed st.
Proof.
  induction 1 as [|st st' R IH S].
  - repeat split; try constructor; intros ? ? [].
  - eapply step_wellKeyed; eauto.
Qed.

End PresenceSystemFacts.

Module RoomProgress.
Import ChatRoom RoomSystem.

(** A broadcast and a removal always return. *)
Lemma broadcastMessage_total now message st :
  NoDup (JsMap.keys (connections st)) ->
  exists st' t, broadcastMessage now message st = Some (st', t)
                /\ connections st' = filter live (connections st).
Proof.
  intros ND.
  destruct (RoomFacts.broadcastMessageFuel_ok (enoughFuel st) now message st)
    as (st' & t & B1 & B2 & _); [unfold enoughFuel; lia|assumption|].
  exists st', t. auto.
Qed.

Lemma removeConnection_total now connectionId st :
  NoDup (JsMap.keys (connections st)) ->
  exists st' t, removeConnection now connectionId st = Some (st', t)
                /\ keepsLive (JsMap.delete connectionId (connections st))
                             (connections st').
Proof.
  intros ND.
  destruct (RoomFacts.removeConnectionWith_ok
              (broadcastMessageFuel (enoughFuel st) now) (enoughFuel st) now
              (RoomFacts.broadcastMessageFuel_ok (enoughFuel st) now)
              connectionId st)
    as (st' & t & R1 & R2 & _); [unfold enoughFuel; lia|assumption|].
  exists st', t. auto.
Qed.

Lemma afterBroadcast_keys b r st' t :
  afterBroadcast b = Some (r, st', t) -> b = Some (st', t).
Proof.
  unfold afterBroadcast. destruct b as [[st1 t1]|]; [|discriminate].
  intros E. now injection E as _ <- <-.
Qed.

Lemma step_distinct_keys st st' :
  step st st' -> NoDup (JsMap.keys (connections st)) ->
  NoDup (JsMap.keys (connections st')).
Proof.
  assert (forall now message s s' t,
            NoDup (JsMap.keys (connections s)) ->
            broadcastMessage now message s = Some (s', t) ->
            NoDup (JsMap.keys (connections s'))) as B.
  { intros now message s s' t ND E.
    destruct (broadcastMessage_total now message s ND) as (s2 & t2 & E2 & C).
    rewrite E in E2. injection E2 as <- <-. rewrite C. now apply nodup_keys_filter. }
  assert (forall now c s s' t,
            NoDup (JsMap.keys (connections s)) ->
            removeConnection now c s = Some (s', t) ->
            NoDup (JsMap.keys (connections s'))) as R.
  { intros now c s s' t ND E.
    destruct (removeConnection_total now c s ND) as (s2 & t2 & E2 & K).
    rewrite E in E2. injection E2 as <- <-.
    eapply RoomFacts.keepsLive_nodup; [exact K|]. now apply nodup_keys_delete. }
  intros S ND. destruct S.
  - unfold handleWebSocketUpgrade in H0.
    destruct (negb (is_websocket (upgradeHeader request))).
    { now injection H0 as _ <-. }
    destruct (getUserIdFromRequest request); [|now injection H0 as _ <-].
    injection H0 as _ <-. simpl. now apply nodup_keys_set.
  - eapply R; eauto.
  - unfold heartbeatTick in H.
    assert (forall x, match removeConnection now connectionId st with
                      | Some (st0, t0) => Some (st0, (t0 ++ [ClearInterval interval])%list)
                      | None => None
                      end = Some x -> NoDup (JsMap.keys (connections (fst x)))) as Expire.
    { intros x E.
      destruct (removeConnection now connectionId st) as [[st0 t0]|] eqn:Rm;
        [|discriminate].
      injection E as <-. eapply R; eauto. }
    destruct (JsMap.get connectionId (connections st)) as [ws|].
    + destruct (is_open ws); [now injection H as <- _|exact (Expire _ H)].
    + exact (Expire _ H).
  - destruct frame; simpl in H.
    + now injection H as <- _.
    + eapply B; eauto.
    + unfold handleTypingIndicator in H. eapply B; [|exact H]. exact ND.
    + now injection H as <- _.
  - eapply B; eauto.
  - unfold handleMessageRequest in H.
    destruct (negb _); [now injection H as _ <- _|].
    destruct (json request); [|now injection H as _ <- _].
    destruct (getUserIdFromRequest request); [|now injection H as _ <- _].
    destruct (_ || _); [now injection H as _ <- _|].
    apply afterBroadcast_keys in H. eapply B; eauto.
  - unfold handleTypingRequest in H.
    destruct (negb _); [now injection H as _ <- _|].
    destruct (json request); [|now injection H as _ <- _].
    destruct (getUserIdFromRequest request); [|now injection H as _ <- _].
    apply afterBroadcast_keys in H. eapply B; [|exact H]. exact ND.
  - unfold handlePresenceRequest in H.
    destruct (negb _); [now injection H as _ <- _|].
    destruct (json request); [|now injection H as _ <- _].
    destruct (getUserIdFromRequest request); [|now injection H as _ <- _].
    apply afterBroadcast_keys in H. eapply B; eauto.
  - simpl. now apply nodup_keys_set.
Qed.

(** The hypothesis of the broadcast properties is an invariant of a
    room. *)
Lemma reachable_distinct_keys st :
  reachable st -> NoDup (JsMap.keys (connections st)).
Proof.
  induction 1 as [|st st' R IH S]; [constructor|].
  eapply step_distinct_keys; eauto.
Qed.

End RoomProgress.

(* ================================================================== *)
(** ** Removals, typing signals and the message route                  *)
(* ================================================================== *)

Lemma get_delete_same {V} k (m : list (string * V)) :
  JsMap.get k (JsMap.delete k m) = None.
Proof. apply get_none. rewrite keys_delete. tauto. Qed.

Lemma deadIds_allLive registry : allLive registry -> deadIds registry = [].
Proof.
  intros L. unfold deadIds.
  induction registry as [|e l IH]; [reflexivity|]. simpl.
  assert (live e = true) as Le by (apply L; now left).
  unfold live in Le. rewrite Le. simpl. apply IH.
  intros x Hx. apply L. now right.
Qed.

Lemma allLive_filter registry : allLive (filter live registry).
Proof. intros e H. apply filter_In in H. tauto. Qed.

Lemma broadcast_allLive fuel now message st :
  allLive (ChatRoom.connections st) ->
  ChatRoom.broadcastMessageFuel (S fuel) now message st
  = Some (st, (Bcast message
               :: sendsTo (stringify message) (ChatRoom.connections st))%list).
Proof.
  intros L. cbn [ChatRoom.broadcastMessageFuel].
  rewrite sendToAll_spec, (deadIds_allLive _ L). cbn [ChatRoom.removeAll].
  now rewrite app_nil_r.
Qed.

Lemma removeConnectionWith_registered bc now connectionId st ws i u ids :
  JsMap.get connectionId (ChatRoom.connections st) = Some ws ->
  JsMap.get connectionId (ChatRoom.heartbeatIntervals st) = Some i -> i <> 0 ->
  find (ChatRoom.owns connectionId) (ChatRoom.userConnections st) = Some (u, ids) ->
  let st2 := ChatRoom.mkState
               (JsMap.delete connectionId (ChatRoom.connections st))
               (ChatRoom.userConnections st) (ChatRoom.typingUsers st)
               (JsMap.delete connectionId (ChatRoom.heartbeatIntervals st)) in
  ChatRoom.removeConnectionWith bc now connectionId st
  = match JsSet.size (JsSet.delete connectionId ids) with
    | O =>
        match bc (ChatRoom.presenceEvent u "offline" now)
                 (ChatRoom.with_userConnections st2
                    (JsMap.delete u (ChatRoom.userConnections st))) with
        | Some (st4, sent) =>
            Some (st4, (WsClose connectionId :: ClearInterval i :: sent)%list)
        | None => None
        end
    | S _ =>
        Some (ChatRoom.with_userConnections st2
                (JsMap.set u (JsSet.delete connectionId ids)
                   (ChatRoom.userConnections st)),
              [WsClose connectionId; ClearInterval i])
    end.
Proof.
  intros G H NZ F st2. unfold ChatRoom.removeConnectionWith, ChatRoom.closeSocket.
  rewrite G. unfold ChatRoom.clearHeartbeat.
  cbn [ChatRoom.with_connections ChatRoom.heartbeatIntervals]. rewrite H.
  destruct (i =? 0) eqn:Z; [apply Z.eqb_eq in Z; contradiction|].
  cbn [ChatRoom.with_connections ChatRoom.with_heartbeatIntervals
       ChatRoom.heartbeatIntervals ChatRoom.userConnections ChatRoom.connections
       ChatRoom.typingUsers].
  rewrite F. reflexivity.
Qed.

Lemma broadcastMessage_typing now message st st' t :
  NoDup (JsMap.keys (ChatRoom.connections st)) ->
  ChatRoom.broadcastMessage now message st = Some (st', t) ->
  ChatRoom.typingUsers st' = ChatRoom.typingUsers st.
Proof.
  intros ND E.
  destruct (RoomFacts.broadcastMessageFuel_ok (ChatRoom.enoughFuel st) now message st)
    as (s & t0 & B1 & _ & _ & B4 & _); [unfold ChatRoom.enoughFuel; lia|assumption|].
  unfold ChatRoom.broadcastMessage in E. rewrite E in B1. now injection B1 as <- _.
Qed.

Lemma removeConnection_typing now connectionId st st' t :
  NoDup (JsMap.keys (ChatRoom.connections st)) ->
  ChatRoom.removeConnection now connectionId st = Some (st', t) ->
  ChatRoom.typingUsers st' = ChatRoom.typingUsers st.
Proof.
  intros ND E.
  destruct (RoomFacts.removeConnectionWith_ok
              (ChatRoom.broadcastMessageFuel (ChatRoom.enoughFuel st) now)
              (ChatRoom.enoughFuel st) now
              (RoomFacts.broadcastMessageFuel_ok (ChatRoom.enoughFuel st) now)
              connectionId st)
    as (s & t0 & R1 & _ & _ & R4 & _); [unfold ChatRoom.enoughFuel; lia|assumption|].
  unfold ChatRoom.removeConnection in E. rewrite E in R1. now injection R1 as <- _.
Qed.

Lemma in_set_new {V} k (v : V) (m : list (string * V)) : In (k, v) (JsMap.set k v m).
Proof. apply get_in. apply get_set_eq. Qed.

Lemma typing_start_spec request user chat now st :
  method request = "POST" ->
  json request = Some (Presence.mkTypingData chat true) ->
  getUserIdFromRequest request = Some user ->
  let r := Presence.handleTypingRequest request now st in
  fst (fst r) = Returned successResponse
  /\ Presence.typingIndicators (stateOf r)
     = JsMap.set (Presence.typingKey user chat)
         (Presence.mkTypingIndicator user chat now) (Presence.typingIndicators st)
  /\ Presence.userPresence (stateOf r)
     = Presence.userPresence (Presence.markTyping user true (Some chat) st).
Proof.
  intros Post Body Caller r. unfold r, Presence.handleTypingRequest.
  rewrite Post, String.eqb_refl, Body, Caller.
  cbn [negb Presence.reqIsTyping Presence.reqChatId].
  set (st2 := Presence.markTyping user true _ _).
  pose proof (presence_broadcast_frame
                (Presence.typingStartEvent (Presence.mkTypingIndicator user chat now)) st2)
    as (F1 & F2 & _).
  destruct (Presence.broadcastPresenceUpdate _ st2) as [st3 sent].
  unfold stateOf. cbn [fst snd] in *. split; [reflexivity|]. split.
  - rewrite F2. unfold st2. rewrite markTyping_typing. reflexivity.
  - rewrite F1. unfold st2. apply markTyping_ignores_typing.
Qed.

Lemma listed_indicator key i (st : Presence.State) :
  In (key, i) (Presence.typingIndicators st) ->
  In i (Presence.getTypingIndicators (Presence.chatId i) st).
Proof.
  intros H. unfold Presence.getTypingIndicators. apply filter_In. split.
  - unfold JsMap.values. apply in_map_iff. exists (key, i). auto.
  - apply String.eqb_refl.
Qed.


Lemma twoUserRoom_reachable : RoomSystem.reachable twoUserRoom.
Proof.
  eapply RoomSystem.reach_step.
  - eapply RoomSystem.reach_step; [apply RoomSystem.reach_initial|].
    eapply (RoomSystem.step_subscribe unit (upgradeRequest "alice") "c1" openSocket 7);
      [|reflexivity].
    simpl. tauto.
  - eapply (RoomSystem.step_subscribe unit (upgradeRequest "bob") "c2" openSocket 8);
      [|reflexivity].
    simpl. intuition discriminate.
Qed.

Lemma event_typing e st st' :
  NoDup (JsMap.keys (ChatRoom.connections st)) ->
  RoomEvents.handle e st = Some st' ->
  ChatRoom.typingUsers st'
  = RoomEvents.afterSignal (RoomEvents.typingSignal e) (ChatRoom.typingUsers st).
Proof.
  intros ND H.
  assert (forall now message s x,
            NoDup (JsMap.keys (ChatRoom.connections s)) ->
            option_map fst (ChatRoom.broadcastMessage now message s) = Some x ->
            ChatRoom.typingUsers x = ChatRoom.typingUsers s) as Bc.
  { intros now message s x N E.
    destruct (ChatRoom.broadcastMessage now message s) as [[s' t]|] eqn:B; [|discriminate].
    injection E as <-. eapply broadcastMessage_typing; eauto. }
  assert (forall now message s x,
            NoDup (JsMap.keys (ChatRoom.connections s)) ->
            option_map (fun r => snd (fst r))
              (ChatRoom.afterBroadcast (ChatRoom.broadcastMessage now message s)) = Some x ->
            ChatRoom.typingUsers x = ChatRoom.typingUsers s) as Ab.
  { intros now message s x N E.
    destruct (ChatRoom.broadcastMessage now message s) as [[s' t]|] eqn:B; [|discriminate].
    injection E as <-. eapply broadcastMessage_typing; eauto. }
  assert (forall now c x,
            option_map fst (ChatRoom.removeConnection now c st) = Some x ->
            ChatRoom.typingUsers x = ChatRoom.typingUsers st) as Rm.
  { intros now c x E.
    destruct (ChatRoom.removeConnection now c st) as [[s' t]|] eqn:R; [|discriminate].
    injection E as <-. eapply removeConnection_typing; eauto. }
  destruct e; cbn [RoomEvents.handle RoomEvents.typingSignal RoomEvents.afterSignal] in *.
  - injection H as <-. unfold ChatRoom.handleWebSocketUpgrade.
    destruct (negb (is_websocket (upgradeHeader request))); [reflexivity|].
    destruct (getUserIdFromRequest request); reflexivity.
  - eapply Rm; eauto.
  - unfold ChatRoom.heartbeatTick in H.
    assert (forall x, option_map fst
                        match ChatRoom.removeConnection now connectionId st with
                        | Some (st0, t0) => Some (st0, (t0 ++ [ClearInterval interval])%list)
                        | None => None
                        end = Some x ->
                      ChatRoom.typingUsers x = ChatRoom.typingUsers st) as Expire.
    { intros x E. apply (Rm now connectionId).
      destruct (ChatRoom.removeConnection now connectionId st) as [[st0 t0]|];
        [exact E|discriminate]. }
    destruct (JsMap.get connectionId (ChatRoom.connections st)) as [ws|].
    + destruct (is_open ws); [now injection H as <-|exact (Expire _ H)].
    + exact (Expire _ H).
  - destruct frame; cbn [ChatRoom.onSocketMessage] in H.
    + now injection H as <-.
    + unfold ChatRoom.handleClientMessage in H. eapply Bc; eauto.
    + unfold ChatRoom.handleTypingIndicator in H.
      apply Bc in H; [|exact ND]. rewrite H. cbn.
      destruct (ChatRoom.isTyping data); reflexivity.
    + now injection H as <-.
  - unfold ChatRoom.handleMessageRequest in H.
    destruct (negb _); [now injection H as <-|].
    destruct (json request); [|now injection H as <-].
    destruct (getUserIdFromRequest request); [|now injection H as <-].
    destruct (_ || _); [now injection H as <-|].
    eapply Ab; eauto.
  - unfold ChatRoom.handleTypingRequest in H.
    destruct (String.eqb (method request) "POST"); cbn [negb] in H;
      [|now injection H as <-].
    destruct (json request) as [d|]; [|now injection H as <-].
    destruct (getUserIdFromRequest request) as [u|]; [|now injection H as <-].
    apply Ab in H; [|exact ND]. rewrite H. cbn.
    destruct (ChatRoom.isTyping d); reflexivity.
  - unfold ChatRoom.handlePresenceRequest in H.
    destruct (negb _); [now injection H as <-|].
    destruct (json request); [|now injection H as <-].
    destruct (getUserIdFromRequest request); [|now injection H as <-].
    eapply Ab; eauto.
Qed.

(** Every handler of a room returns. *)
Lemma event_handled e st :
  NoDup (JsMap.keys (ChatRoom.connections st)) ->
  exists st', RoomEvents.handle e st = Some st'.
Proof.
  intros ND.
  assert (forall now message s,
            NoDup (JsMap.keys (ChatRoom.connections s)) ->
            exists x, option_map fst (ChatRoom.broadcastMessage now message s) = Some x) as Bc.
  { intros now message s N.
    destruct (RoomProgress.broadcastMessage_total now message s N) as (x & t & E & _).
    exists x. now rewrite E. }
  assert (forall now message s,
            NoDup (JsMap.keys (ChatRoom.connections s)) ->
            exists x, option_map (fun r => snd (fst r))
                        (ChatRoom.afterBroadcast (ChatRoom.broadcastMessage now message s))
                      = Some x) as Ab.
  { intros now message s N.
    destruct (RoomProgress.broadcastMessage_total now message s N) as (x & t & E & _).
    exists x. now rewrite E. }
  assert (forall now c,
            exists x, option_map fst (ChatRoom.removeConnection now c st) = Some x) as Rm.
  { intros now c.
    destruct (RoomProgress.removeConnection_total now c st ND) as (x & t & E & _).
    exists x. now rewrite E. }
  destruct e; cbn [RoomEvents.handle].
  - eauto.
  - apply Rm.
  - unfold ChatRoom.heartbeatTick.
    assert (exists x, option_map fst
                        match ChatRoom.removeConnection now connectionId st with
                        | Some (st0, t0) => Some (st0, (t0 ++ [ClearInterval interval])%list)
                        | None => None
                        end = Some x) as Expire.
    { destruct (RoomProgress.removeConnection_total now connectionId st ND)
        as (x & t & E & _). exists x. now rewrite E. }
    destruct (JsMap.get connectionId (ChatRoom.connections st)) as [ws|];
      [destruct (is_open ws); [cbn; eauto|exact Expire]|exact Expire].
  - destruct frame; cbn [ChatRoom.onSocketMessage].
    + cbn; eauto.
    + unfold ChatRoom.handleClientMessage. now apply Bc.
    + unfold ChatRoom.handleTypingIndicator. apply Bc.
      destruct (ChatRoom.isTyping data); exact ND.
    + cbn; eauto.
  - unfold ChatRoom.handleMessageRequest.
    destruct (negb _); [cbn; eauto|].
    destruct (json request); [|cbn; eauto].
    destruct (getUserIdFromRequest request); [|cbn; eauto].
    destruct (_ || _); [cbn; eauto|].
    now apply Ab.
  - unfold ChatRoom.handleTypingRequest.
    destruct (negb _); [cbn; eauto|].
    destruct (json request) as [d|]; [|cbn; eauto].
    destruct (getUserIdFromRequest request) as [u|]; [|cbn; eauto].
    apply Ab. destruct (ChatRoom.isTyping d); exact ND.
  - unfold ChatRoom.handlePresenceRequest.
    destruct (negb _); [cbn; eauto|].
    destruct (json request); [|cbn; eauto].
    destruct (getUserIdFromRequest request); [|cbn; eauto].
    now apply Ab.
Qed.

Lemma get_markTyping user typing chat st u :
  JsMap.get u (Presence.userPresence (Presence.markTyping user typing chat st))
  = if String.eqb u user
    then option_map (withTyping typing chat) (JsMap.get user (Presence.userPresence st))
    else JsMap.get u (Presence.userPresence st).
Proof.
  unfold Presence.markTyping.
  destruct (JsMap.get user (Presence.userPresence st)) as [p|] eqn:G.
  - cbn [Presence.with_userPresence Presence.userPresence option_map].
    destruct (String.eqb u user) eqn:E.
    + apply String.eqb_eq in E. subst u. now rewrite get_set_eq.
    + apply String.eqb_neq in E. now apply get_set_other.
  - destruct (String.eqb u user) eqn:E; [|reflexivity].
    apply String.eqb_eq in E. subst u. exact G.
Qed.

Lemma statusOf_markTyping user typing chat st u :
  statusOf u (Presence.markTyping user typing chat st) = statusOf u st.
Proof.
  unfold statusOf. rewrite get_markTyping.
  destruct (String.eqb u user) eqn:E; [|reflexivity].
  apply String.eqb_eq in E. subst u.
  destruct (JsMap.get user (Presence.userPresence st)); reflexivity.
Qed.

Lemma statusOf_ext u sa sb :
  Presence.userPresence sa = Presence.userPresence sb -> statusOf u sa = statusOf u sb.
Proof. unfold statusOf. now intros ->. Qed.


(* ================================================================== *)
(** ** The properties                                                  *)
(* ================================================================== *)

(** C1.  One broadcast, on either coordinator, writes the serialized
    event to exactly the registry entries that report open, once each
    and before anything is removed; the ids recorded meanwhile are
    removed afterwards, in a second pass that starts from the untouched
    registry; and when the call returns the registry holds exactly the
    entries that were open and whose send did not throw, so every closed
    entry and every entry whose send threw has been unregistered. *)
Theorem broadcast_reaches_open_and_prunes_dead
  (event : value) (now : Z) (pst : Presence.State) (rst : ChatRoom.State)
  (HP : NoDup (JsMap.keys (Presence.presenceSubscribers pst)))
  (HR : NoDup (JsMap.keys (ChatRoom.connections rst))) :
  (exists pst' cleanup,
      Presence.broadcastPresenceUpdate event pst
        = (pst', (Bcast event
                  :: sendsTo (stringify event) (Presence.presenceSubscribers pst)
                  ++ cleanup)%list)
      /\ Presence.removeAll (deadIds (Presence.presenceSubscribers pst)) pst
         = (pst', cleanup)
      /\ sendTargets cleanup = []
      /\ sendTargets (sendsTo (stringify event) (Presence.presenceSubscribers pst))
         = JsMap.keys (filter (fun e => is_open (snd e))
                              (Presence.presenceSubscribers pst))
      /\ Presence.presenceSubscribers pst'
         = filter live (Presence.presenceSubscribers pst)
      /\ forall c, In c (deadIds (Presence.presenceSubscribers pst)) ->
                   ~ In c (JsMap.keys (Presence.presenceSubscribers pst')))
  /\
  (exists rst' cleanup,
      ChatRoom.broadcastMessage now event rst
        = Some (rst', (Bcast event
                       :: sendsTo (stringify event) (ChatRoom.connections rst)
                       ++ cleanup)%list)
      /\ ChatRoom.removeAll
           (ChatRoom.removeConnectionWith
              (ChatRoom.broadcastMessageFuel
                 (length (ChatRoom.userConnections rst)) now) now)
           (deadIds (ChatRoom.connections rst)) rst
         = Some (rst', cleanup)
      /\ sendTargets (sendsTo (stringify event) (ChatRoom.connections rst))
         = JsMap.keys (filter (fun e => is_open (snd e)) (ChatRoom.connections rst))
      /\ ChatRoom.connections rst' = filter live (ChatRoom.connections rst)
      /\ (forall c, In c (deadIds (ChatRoom.connections rst)) ->
                    ~ In c (JsMap.keys (ChatRoom.connections rst')))
      /\ (RoomSystem.registryInv rst ->
          forall c u ids, In c (deadIds (ChatRoom.connections rst)) ->
                          In (u, ids) (ChatRoom.userConnections rst') ->
                          ~ In c ids)).
Proof.
  assert (forall registry c, NoDup (JsMap.keys registry) ->
            In c (deadIds registry) ->
            ~ In c (JsMap.keys (filter live registry))) as Gone.
  { intros registry c ND D HIn. apply in_deadIds in D. destruct D as [ws [D1 D2]].
    apply in_map_iff in HIn. destruct HIn as [[c' ws'] [E HIn]]. simpl in E. subst c'.
    apply filter_In in HIn. destruct HIn as [HIn L]. unfold live in L. simpl in L.
    assert (ws = ws') by (eapply nodup_keys_same; eauto). congruence. }
  split.
  - destruct (PresenceFacts.broadcast_spec event pst HP)
      as (pst' & cleanup & B1 & B2 & B3 & _ & B5 & _).
    exists pst', cleanup.
    split; [exact B1|]. split; [exact B2|]. split; [exact B3|].
    split; [apply sendTargets_sendsTo|]. split; [exact B5|].
    intros c. rewrite B5. now apply Gone.
  - destruct (RoomFacts.broadcastMessageFuel_ok (ChatRoom.enoughFuel rst) now event rst)
      as (rst' & t & B1 & B2 & _); [unfold ChatRoom.enoughFuel; lia|assumption|].
    unfold ChatRoom.broadcastMessage. pose proof B1 as B1'. revert B1.
    unfold ChatRoom.enoughFuel. cbn [ChatRoom.broadcastMessageFuel].
    rewrite sendToAll_spec.
    destruct (ChatRoom.removeAll _ _ rst) as [[rst2 cleanup]|]; [|discriminate].
    intros E. injection E as -> <-.
    exists rst', cleanup.
    split; [reflexivity|]. split; [reflexivity|].
    split; [apply sendTargets_sendsTo|]. split; [exact B2|].
    split; [intros c; rewrite B2; now apply Gone|].
    intros Inv c u ids D HIn Hc.
    assert (RoomSystem.registryInv rst') as Inv'.
    { eapply RoomSystemFacts.broadcastMessage_inv; [exact Inv|].
      exact B1'. }
    destruct Inv' as (_ & J2 & _).
    apply (Gone _ c HR D). rewrite <- B2. apply J2. eauto.
Qed.

Lemma broadcast_reaches_open_and_prunes_dead_witness :
  Presence.presenceSubscribers (fst (Presence.broadcastPresenceUpdate sampleEvent samplePresence))
    = [("c1", openSocket); ("c4", openSocket)]
  /\ option_map (fun r => ChatRoom.connections (fst r))
                (ChatRoom.broadcastMessage 1000 sampleEvent sampleRoom)
     = Some [("c1", openSocket); ("c4", openSocket)].
Proof.
  destruct (broadcast_reaches_open_and_prunes_dead sampleEvent 1000
              samplePresence sampleRoom) as [P R].
  - distinct_strings.
  - distinct_strings.
  - destruct P as (pst' & cleanup & P1 & _ & _ & _ & P5 & _).
    destruct R as (rst' & cleanup' & R1 & _ & _ & R4 & _ & _).
    rewrite P1, R1. simpl. rewrite P5, R4. split; reflexivity.
Defined.

(** C2.  In every state the room can reach by subscriptions with newly
    generated ids, close and error events, heartbeat ticks, broadcasts
    and requests, an id is a key of [connections] exactly when some
    user's set in [userConnections] holds it, and the entry holding it
    is unique. *)
Theorem registry_invariant (st : ChatRoom.State)
  (HR : RoomSystem.reachable st) :
  (forall c, In c (JsMap.keys (ChatRoom.connections st)) <->
             exists u ids, In (u, ids) (ChatRoom.userConnections st) /\ In c ids)
  /\ (forall c u1 ids1 u2 ids2,
        In (u1, ids1) (ChatRoom.userConnections st) ->
        In (u2, ids2) (ChatRoom.userConnections st) ->
        In c ids1 -> In c ids2 -> u1 = u2 /\ ids1 = ids2).
Proof.
  destruct (RoomSystemFacts.reachable_inv st HR) as (J1 & J2 & J3).
  split; [exact J2|].
  intros c u1 ids1 u2 ids2 H1 H2 C1 C2.
  assert (u1 = u2) by (eapply J3; eauto). subst u2.
  split; [reflexivity|]. eapply nodup_keys_same; eauto.
Qed.

Lemma registry_invariant_witness :
  let st :=
    snd (ChatRoom.handleWebSocketUpgrade (upgradeRequest "bob") "c2" openSocket 8
           (snd (ChatRoom.handleWebSocketUpgrade (upgradeRequest "alice") "c1"
                   openSocket 7 ChatRoom.initial))) in
  RoomSystem.reachable st
  /\ (forall c, In c (JsMap.keys (ChatRoom.connections st)) <->
                exists u ids, In (u, ids) (ChatRoom.userConnections st) /\ In c ids).
Proof.
  intros st.
  assert (RoomSystem.reachable st) as R.
  { eapply RoomSystem.reach_step.
    - eapply RoomSystem.reach_step; [apply RoomSystem.reach_initial|].
      eapply (RoomSystem.step_subscribe unit (upgradeRequest "alice") "c1" openSocket 7);
        [|reflexivity].
      simpl. tauto.
    - eapply (RoomSystem.step_subscribe unit (upgradeRequest "bob") "c2" openSocket 8);
        [|reflexivity].
      simpl. intuition discriminate. }
  split; [exact R|]. exact (proj1 (registry_invariant st R)).
Defined.

(** C3, counterexample.  alice is online and c1 is the only connection;
    unregistering c1 leaves her online and broadcasts nothing. *)
Lemma disconnect_does_not_demote :
  ~ disconnectDemotes "alice" "c1" aliceSubscribed
  /\ Presence.presenceSubscribers aliceSubscribed = [("c1", openSocket)]
  /\ (let '(st', t) := Presence.removePresenceSubscriber "c1" aliceSubscribed in
      Presence.presenceSubscribers st' = []
      /\ option_map Presence.status (JsMap.get "alice" (Presence.userPresence st'))
         = Some Presence.online
      /\ broadcasts t = []).
Proof.
  split; [|split; [reflexivity|repeat split]].
  unfold disconnectDemotes. vm_compute. intros [H _]. discriminate.
Qed.

(** C3, amended.  Unregistering a subscriber of the presence object, a
    user's last one included, is bookkeeping only: the stream is closed
    when the connection is subscribed, the connection leaves the
    subscriber map, and its heartbeat timer, when one is stored with a
    non-zero id, is cleared and leaves the timer map; no presence record
    and no typing indicator changes, and nothing is sent or broadcast.
    Subscribing, unregistering, a heartbeat tick and a typing request
    leave the status of every user as it was, and a step of the presence
    object that changes the status of a user is a presence update or a
    run of the alarm, which holds the staleness sweep. *)
Theorem unregister_subscriber_only_bookkeeping
  (connectionId : string) (st : Presence.State) :
  let timer := match JsMap.get connectionId (Presence.heartbeatIntervals st) with
               | Some i => if i =? 0 then None else Some i
               | None => None
               end in
  let r := Presence.removePresenceSubscriber connectionId st in
  r = (Presence.mkState (Presence.userPresence st) (Presence.typingIndicators st)
         (JsMap.delete connectionId (Presence.presenceSubscribers st))
         (match timer with
          | Some _ => JsMap.delete connectionId (Presence.heartbeatIntervals st)
          | None => Presence.heartbeatIntervals st
          end),
       (match JsMap.get connectionId (Presence.presenceSubscribers st) with
        | Some _ => [WsClose connectionId]
        | None => []
        end
        ++ match timer with
           | Some i => [ClearInterval i]
           | None => []
           end)%list)
  /\ broadcasts (snd r) = []
  /\ sendTargets (snd r) = []
  /\ forall user,
       statusOf user (fst r) = statusOf user st
       /\ (forall B (request : Request B) c server interval now,
             statusOf user
               (stateOf (Presence.handleWebSocketUpgrade request c server interval now st))
             = statusOf user st)
       /\ (forall c interval,
             statusOf user (fst (Presence.heartbeatTick c interval st))
             = statusOf user st)
       /\ (forall request now,
             statusOf user (stateOf (Presence.handleTypingRequest request now st))
             = statusOf user st)
       /\ (forall st',
             PresenceSystem.step st st' ->
             statusOf user st' <> statusOf user st ->
             (exists request now putThrows,
                 st' = stateOf (Presence.handlePresenceRequest request now putThrows st))
             \/ (exists now now', st' = fst (Presence.alarm now now' st))).
Proof.
  intros timer r.
  pose proof (PresenceFacts.remove_silent connectionId st) as [D E].
  assert (forall c u, statusOf u (fst (Presence.removePresenceSubscriber c st))
                      = statusOf u st) as Rm.
  { intros c u. apply statusOf_ext. apply PresenceFacts.remove_frame. }
  split; [|split; [exact E|split; [exact D|]]].
  - unfold r, timer, Presence.removePresenceSubscriber.
    destruct (JsMap.get connectionId (Presence.presenceSubscribers st)) as [ws|] eqn:G;
      cbn [Presence.with_presenceSubscribers Presence.heartbeatIntervals
           Presence.presenceSubscribers];
      (destruct (JsMap.get connectionId (Presence.heartbeatIntervals st)) as [i|];
       [destruct (i =? 0)|]);
      cbn [Presence.with_presenceSubscribers Presence.with_heartbeatIntervals
           Presence.heartbeatIntervals Presence.presenceSubscribers
           Presence.userPresence Presence.typingIndicators app];
      rewrite ?(delete_get_none _ _ G); destruct st; reflexivity.
  - intros user.
    assert ((forall B (request : Request B) c server interval now,
               statusOf user
                 (stateOf (Presence.handleWebSocketUpgrade request c server interval now st))
               = statusOf user st)
            /\ (forall c interval,
                  statusOf user (fst (Presence.heartbeatTick c interval st))
                  = statusOf user st)
            /\ (forall request now,
                  statusOf user (stateOf (Presence.handleTypingRequest request now st))
                  = statusOf user st)) as (Sub & Tick & Typing);
      [|split; [apply Rm|]; split; [exact Sub|]; split; [exact Tick|];
        split; [exact Typing|];
        intros st' Step Changed; inversion Step; subst;
        try (exfalso; apply Changed;
             first [apply Sub | apply Rm | apply Tick | apply Typing | reflexivity]);
        [left; do 3 eexists; reflexivity | right; do 2 eexists; reflexivity]].
    split; [|split].
    + intros B request c server interval now. apply statusOf_ext.
      unfold Presence.handleWebSocketUpgrade.
      destruct (negb (is_websocket (upgradeHeader request))); [reflexivity|].
      destruct (Presence.sendCurrentPresenceState _ _ _ _) as [sent []]; reflexivity.
    + intros c interval. unfold Presence.heartbeatTick.
      pose proof (Rm c user) as F.
      destruct (Presence.removePresenceSubscriber c st) as [s t]. cbn [fst] in *.
      destruct (JsMap.get c (Presence.presenceSubscribers st)) as [ws|];
        [destruct (is_open ws)|]; cbn [fst]; auto.
    + intros request now. unfold Presence.handleTypingRequest.
      destruct (negb _); [reflexivity|].
      destruct (json request) as [d|]; [|reflexivity].
      destruct (getUserIdFromRequest request) as [u|]; [|reflexivity].
      destruct (Presence.reqIsTyping d);
        match goal with |- context [Presence.broadcastPresenceUpdate ?e ?s] =>
          pose proof (presence_broadcast_frame e s) as (F1 & _);
          destruct (Presence.broadcastPresenceUpdate e s) as [st2 sent] end;
        unfold stateOf; cbn [fst snd] in *;
        rewrite (statusOf_ext user _ _ F1), statusOf_markTyping;
        apply statusOf_ext; reflexivity.
Qed.

(** C4, counterexample.  alice and bob hold one connection each;
    unregistering bob's sends alice a presence event that reports bob
    offline. *)
Lemma last_connection_removal_is_not_silent :
  ~ removalIsSilent 5000 "c2" twoUserRoom
  /\ option_map (fun r => received "c1" (snd r))
                (ChatRoom.removeConnection 5000 "c2" twoUserRoom)
     = Some [stringify (ChatRoom.presenceEvent "bob" "offline" 5000)].
Proof.
  split; [|reflexivity].
  unfold removalIsSilent. vm_compute. intros [H _]. discriminate.
Qed.

(** C4, amended.  Unregistering a user's last connection of a room
    closes the stream, clears the heartbeat timer, forgets the
    connection, the timer and the user, leaves the typing set alone, and
    then broadcasts a presence event reporting the user offline to the
    connections that remain: the frame goes to each of them that reports
    open, and those found dead by that broadcast are pruned in turn.
    When all that remain take frames, nothing else changes. *)
Theorem last_connection_removal_broadcasts_offline
  (now : Z) (connectionId : string) (st : ChatRoom.State)
  (user : string) (ids : list string) (interval : Z)
  (Reach : RoomSystem.reachable st)
  (Owner : find (ChatRoom.owns connectionId) (ChatRoom.userConnections st)
           = Some (user, ids))
  (Last : JsSet.delete connectionId ids = [])
  (Timer : JsMap.get connectionId (ChatRoom.heartbeatIntervals st) = Some interval)
  (Running : interval <> 0) :
  let gone := ChatRoom.presenceEvent user "offline" now in
  let rest := JsMap.delete connectionId (ChatRoom.connections st) in
  let forgotten :=
    ChatRoom.mkState rest
      (JsMap.delete user (ChatRoom.userConnections st))
      (ChatRoom.typingUsers st)
      (JsMap.delete connectionId (ChatRoom.heartbeatIntervals st)) in
  exists ws st' cleanup,
    JsMap.get connectionId (ChatRoom.connections st) = Some ws
    /\ ChatRoom.removeConnection now connectionId st
       = Some (st', (WsClose connectionId :: ClearInterval interval
                     :: Bcast gone :: sendsTo (stringify gone) rest ++ cleanup)%list)
    /\ ChatRoom.removeAll
         (ChatRoom.removeConnectionWith
            (ChatRoom.broadcastMessageFuel
               (length (ChatRoom.userConnections st)) now) now)
         (deadIds rest) forgotten
       = Some (st', cleanup)
    /\ ChatRoom.connections st' = filter live rest
    /\ ChatRoom.typingUsers st' = ChatRoom.typingUsers st
    /\ ~ In connectionId (JsMap.keys (ChatRoom.connections st'))
    /\ ~ In user (JsMap.keys (ChatRoom.userConnections st'))
    /\ ~ In connectionId (JsMap.keys (ChatRoom.heartbeatIntervals st'))
    /\ (allLive rest -> st' = forgotten /\ cleanup = []).
Proof.
  intros gone rest forgotten.
  pose proof (RoomProgress.reachable_distinct_keys st Reach) as ND.
  pose proof (RoomSystemFacts.reachable_inv st Reach) as (_ & J2 & _).
  pose proof (RoomFacts.find_owner _ _ _ _ Owner) as [O1 O2].
  assert (exists ws, JsMap.get connectionId (ChatRoom.connections st) = Some ws)
    as [ws G].
  { destruct (JsMap.get connectionId (ChatRoom.connections st)) as [ws|] eqn:G; [eauto|].
    apply get_none in G. exfalso. apply G. apply J2. eauto. }
  unfold ChatRoom.removeConnection.
  rewrite (removeConnectionWith_registered _ now connectionId st ws interval user ids
             G Timer Running Owner).
  unfold JsSet.size. rewrite Last. cbn [Datatypes.length ChatRoom.with_userConnections
    ChatRoom.connections ChatRoom.userConnections ChatRoom.typingUsers
    ChatRoom.heartbeatIntervals].
  fold rest gone.
  match goal with |- context [ChatRoom.broadcastMessageFuel _ now gone ?s] =>
    change s with forgotten end.
  destruct (RoomFacts.broadcastMessageFuel_ok (ChatRoom.enoughFuel st) now gone forgotten)
    as (st4 & t & B1 & B2 & B3 & B4 & [B5 B6] & _).
  { unfold ChatRoom.enoughFuel, forgotten. simpl.
    pose proof (length_delete_le user (ChatRoom.userConnections st)). lia. }
  { unfold forgotten, rest. simpl. now apply nodup_keys_delete. }
  rewrite B1. unfold ChatRoom.enoughFuel in B1.
  apply broadcastMessageFuel_shape in B1. destruct B1 as (cleanup & -> & RA).
  exists ws, st4, cleanup.
  split; [exact G|]. split; [reflexivity|]. split; [exact RA|].
  split; [exact B2|]. split; [exact B4|].
  split.
  { rewrite B2. intros X. unfold JsMap.keys in X. apply in_map_iff in X.
    destruct X as (e & E1 & E2). apply filter_In in E2. destruct E2 as [E2 _].
    unfold forgotten, rest in E2. simpl in E2. apply in_delete in E2.
    destruct E2 as [_ E2]. now apply E2. }
  split.
  { intros X. apply B5 in X. unfold forgotten in X. simpl in X.
    apply keys_delete in X. tauto. }
  split.
  { intros X. apply B6 in X. unfold forgotten in X. simpl in X.
    apply keys_delete in X. tauto. }
  intros L. change (ChatRoom.connections forgotten) with rest in RA.
  rewrite (deadIds_allLive _ L) in RA. cbn [ChatRoom.removeAll] in RA.
  injection RA as <- <-. auto.
Qed.

Lemma last_connection_removal_broadcasts_offline_witness :
  exists st',
    ChatRoom.removeConnection 5000 "c2" twoUserRoom
    = Some (st', [WsClose "c2"; ClearInterval 8;
                  Bcast (ChatRoom.presenceEvent "bob" "offline" 5000);
                  WsSend "c1" (stringify (ChatRoom.presenceEvent "bob" "offline" 5000))
                    true])
    /\ ChatRoom.connections st' = [("c1", openSocket)].
Proof.
  destruct (last_connection_removal_broadcasts_offline 5000 "c2" twoUserRoom
              "bob" ["c2"] 8 twoUserRoom_reachable eq_refl eq_refl eq_refl
              ltac:(discriminate))
    as (ws & st' & cleanup & _ & E & _ & C & _ & _ & _ & _ & Exact).
  destruct Exact as [_ ->].
  { intros e H. simpl in H. destruct H as [<-|[]]. reflexivity. }
  exists st'. split; [exact E|exact C].
Defined.




(** C6, counterexample.  alice is online, last seen at 1000, and her
    typing indicator of 2000 has expired by 20000: the sweep run then
    keeps her online but rewrites the typing fields of her record. *)
Lemma sweep_rewrites_fresh_record :
  ~ sweepKeepsFreshRecord "alice" 20000 20000 aliceOnlineTyping
  /\ JsMap.get "alice" (Presence.userPresence aliceOnlineTyping)
     = Some (Presence.mkUserPresence "alice" Presence.online 1000 None None
               (Some true) (Some "room-1"))
  /\ JsMap.get "alice"
       (Presence.userPresence (fst (Presence.alarm 20000 20000 aliceOnlineTyping)))
     = Some (Presence.mkUserPresence "alice" Presence.online 1000 None None
               (Some false) None).
Proof.
  split; [|split; reflexivity].
  intros H. specialize (H _ eq_refl eq_refl). vm_compute in H.
  assert (Some false = Some true) as X; [|discriminate X].
  assert (forall a b : Presence.UserPresence, Some a = Some b ->
            Presence.isTyping a = Presence.isTyping b) as P
    by (intros a b E; injection E as ->; reflexivity).
  apply (P _ _ (H ltac:(discriminate))).
Qed.

(** C6, amended.  For a user with a presence record, one run of the
    sweep keeps the record's user, last-activity timestamp, device and
    active conversation; its typing fields are either kept or cleared,
    and kept when no expired typing indicator belongs to the user.  If
    the user is online and last seen more than five minutes before the
    sweep, the status becomes offline and exactly one [presence_update]
    is broadcast for the user; if the user is online and within the five
    minutes, or away or offline, the status is kept and no
    [presence_update] is broadcast for the user. *)
Theorem presence_staleness_sweep
  (now now' : Z) (st : Presence.State) (user : string) (p : Presence.UserPresence)
  (WF : wfPresence (Presence.userPresence st))
  (WT : NoDup (JsMap.keys (Presence.typingIndicators st)))
  (Known : In (user, p) (Presence.userPresence st)) :
  let r := Presence.alarm now now' st in
  let updates := count (isPresenceUpdateFor user) (broadcasts (snd r)) in
  exists p',
    JsMap.get user (Presence.userPresence (fst r)) = Some p'
    /\ Presence.userId p' = Presence.userId p
    /\ Presence.lastSeenAt p' = Presence.lastSeenAt p
    /\ Presence.deviceInfo p' = Presence.deviceInfo p
    /\ Presence.currentChatId p' = Presence.currentChatId p
    /\ ((Presence.isTyping p' = Presence.isTyping p
         /\ Presence.typingInChatId p' = Presence.typingInChatId p)
        \/ (Presence.isTyping p' = Some false /\ Presence.typingInChatId p' = None))
    /\ ((forall k i, In (k, i) (Presence.typingIndicators st) ->
                     Presence.expired now (k, i) = true ->
                     Presence.typingUserId i <> user) ->
        Presence.isTyping p' = Presence.isTyping p
        /\ Presence.typingInChatId p' = Presence.typingInChatId p)
    /\ (Presence.status p = Presence.online ->
        Presence.lastSeenAt p < now' - 300000 ->
        Presence.status p' = Presence.offline /\ updates = 1%nat)
    /\ (Presence.status p = Presence.online ->
        now' - 300000 <= Presence.lastSeenAt p ->
        Presence.status p' = Presence.online /\ updates = 0%nat)
    /\ (Presence.status p <> Presence.online ->
        Presence.status p' = Presence.status p /\ updates = 0%nat).
Proof.
  intros r updates. destruct WF as [ND Keyed].
  unfold updates, r, Presence.alarm, Presence.cleanupExpiredTypingIndicators.
  clear r updates.
  destruct (AlarmFacts.expireAll_presence now (Presence.expiredKeys now st) st ND)
    as (us & U1 & U2).
  pose proof (AlarmFacts.expireAll_no_update user now (Presence.expiredKeys now st) st) as C1.
  destruct (Presence.expireAll now (Presence.expiredKeys now st) st) as [st1 t1].
  cbn [fst snd] in U1, C1.
  pose proof (AlarmFacts.demoteStale_spec (now' - 300000)
                (Presence.userPresence st1) st1) as (D1 & D2 & _).
  destruct (Presence.demoteStale (now' - 300000) (Presence.userPresence st1) st1)
    as [st2 t2].
  cbn [fst snd] in *.
  set (f := now' - 300000) in *.
  set (p1 := snd (clearIf us (user, p))).
  assert (In (user, p1) (Presence.userPresence st1)) as In1.
  { rewrite U1. apply in_map_iff. exists (user, p). split; [|assumption].
    unfold p1, clearIf. simpl. destruct (existsb _ us); reflexivity. }
  assert (NoDup (JsMap.keys (Presence.userPresence st1))) as ND1
    by (rewrite U1, AlarmFacts.keys_clearIf; assumption).
  assert (forall k q, In (k, q) (Presence.userPresence st1) -> Presence.userId q = k)
    as Keyed1.
  { intros k q H. rewrite U1 in H. apply in_map_iff in H.
    destruct H as [[k0 q0] [E H]]. pose proof (Keyed k0 q0 H) as K0.
    unfold clearIf in E. simpl in E.
    destruct (existsb _ us); injection E as <- <-; exact K0. }
  assert (Presence.userId p = user) as Kp by (apply Keyed; assumption).
  assert (stale f (user, p1) = stale f (user, p)) as S1.
  { unfold p1, clearIf. simpl. destruct (existsb _ us); reflexivity. }
  assert (JsMap.get user (Presence.userPresence st2)
          = Some (if stale f (user, p) then demote p1 else p1)) as G2.
  { rewrite D1, <- S1. apply AlarmFacts.get_demoteMap; auto. now apply in_get. }
  assert (count (isPresenceUpdateFor user) (broadcasts (t1 ++ t2))
          = if stale f (user, p) then 1%nat else 0%nat) as Cnt.
  { rewrite PresenceFacts.broadcasts_app, SweepFacts.count_app, C1, D2.
    rewrite SweepFacts.count_map, SweepFacts.count_filter. simpl.
    rewrite (SweepFacts.count_unique _ user p1 _ ND1 In1).
    - rewrite S1, SweepFacts.isPresenceUpdateFor_update. simpl.
      rewrite (Keyed1 user p1 In1), String.eqb_refl, andb_true_r. reflexivity.
    - intros [k q] He P. apply andb_true_iff in P. destruct P as [_ P].
      rewrite SweepFacts.isPresenceUpdateFor_update in P. simpl in P.
      apply String.eqb_eq in P. simpl. rewrite <- (Keyed1 k q He). exact P. }
  rewrite Cnt.
  assert (~ In user us -> p1 = p) as Same.
  { intros N. unfold p1, clearIf. simpl.
    destruct (existsb (String.eqb user) us) eqn:E; [|reflexivity].
    apply existsb_exists in E. destruct E as [x [E1 E2]].
    apply String.eqb_eq in E2. subst x. tauto. }
  assert (p1 = p \/ p1 = clearTyping p) as Cases.
  { unfold p1, clearIf. simpl. destruct (existsb _ us); auto. }
  exists (if stale f (user, p) then demote p1 else p1).
  split; [exact G2|].
  assert (stale f (user, p)
          = (Presence.lastSeenAt p <? f) && Presence.is_online (Presence.status p)) as SE
    by reflexivity.
  split; [destruct (stale f (user, p)), Cases as [-> | ->]; reflexivity|].
  split; [destruct (stale f (user, p)), Cases as [-> | ->]; reflexivity|].
  split; [destruct (stale f (user, p)), Cases as [-> | ->]; reflexivity|].
  split; [destruct (stale f (user, p)), Cases as [-> | ->]; reflexivity|].
  split; [destruct (stale f (user, p)), Cases as [-> | ->]; simpl; auto|].
  split.
  { intros NoExpired. rewrite Same.
    - destruct (stale f (user, p)); simpl; auto.
    - intros Hu. destruct (U2 user Hu) as (k & i & A & B & C).
      apply (NoExpired k i B); [|assumption].
      now apply (SweepFacts.in_expiredKeys now st k i WT B). }
  split; [|split].
  - intros On Old. rewrite SE, On. simpl.
    replace (Presence.lastSeenAt p <? f) with true by (symmetry; apply Z.ltb_lt; lia).
    simpl. split; reflexivity.
  - intros On Fresh. rewrite SE, On. simpl.
    replace (Presence.lastSeenAt p <? f) with false by (symmetry; apply Z.ltb_ge; lia).
    simpl. split; [|reflexivity].
    destruct Cases as [-> | ->]; simpl; assumption.
  - intros Off. rewrite SE.
    assert (Presence.is_online (Presence.status p) = false) as O
      by (destruct (Presence.status p); simpl; congruence).
    rewrite O, andb_false_r. split; [|reflexivity].
    destruct Cases as [-> | ->]; reflexivity.
Qed.

Lemma presence_staleness_sweep_witness :
  exists p',
    JsMap.get "alice" (Presence.userPresence (fst (Presence.alarm 400000 400000 aliceOnline)))
    = Some p'
    /\ Presence.status p' = Presence.offline
    /\ count (isPresenceUpdateFor "alice")
         (broadcasts (snd (Presence.alarm 400000 400000 aliceOnline))) = 1%nat.
Proof.
  assert (wfPresence (Presence.userPresence aliceOnline)) as WF.
  { split; [distinct_strings|]. intros k q [H|[]]. injection H as <- <-. reflexivity. }
  destruct (presence_staleness_sweep 400000 400000 aliceOnline "alice"
              (Presence.mkUserPresence "alice" Presence.online 1000 None None None None)
              WF ltac:(constructor) ltac:(left; reflexivity))
    as (p' & G & _ & _ & _ & _ & _ & _ & Old & _).
  exists p'. split; [exact G|]. apply Old; [reflexivity|simpl; lia].
Defined.

(** C7, counterexample.  Fifty-nine seconds after alice's last typing
    signal, with no sweep in between, the snapshot sent to a new
    subscriber still lists her indicator; the specified snapshot has an
    empty typing list. *)
Lemma snapshot_lists_stale_indicators :
  effectsOf (Presence.handleWebSocketUpgrade (upgradeRequest "bob") "c2"
               openSocket 8 60000 aliceTyping)
  = [WsSend "c2"
       (stringify (Presence.presenceStateMessage []
                     [Presence.mkTypingIndicator "alice" "room-1" 1000] 60000))
       true]
  /\ unexpiredTyping 60000 aliceTyping = []
  /\ effectsOf (Presence.handleWebSocketUpgrade (upgradeRequest "bob") "c2"
                  openSocket 8 60000 aliceTyping)
     <> [WsSend "c2" (stringify (specifiedSnapshot 60000 aliceTyping)) true].
Proof.
  split; [reflexivity|]. split; [reflexivity|].
  vm_compute. discriminate.
Qed.

(** C7, amended.  A connection that subscribes to the presence object
    is sent, at once and to it alone, one snapshot that lists every
    presence record and every typing indicator held in the typing map at
    that moment, whether or not the indicator is older than ten
    seconds. *)
Theorem subscriber_receives_snapshot
  {B : Type} (request : Request B) (connectionId : string) (server : WebSocket)
  (interval now : Z) (st : Presence.State)
  (Upgrade : upgradeHeader request = Some "websocket")
  (Open : readyState server = OPEN)
  (Sends : sendThrows server = false) :
  exists st',
    Presence.handleWebSocketUpgrade request connectionId server interval now st
    = (Returned (mkResponse 101 None None (Some connectionId)), st',
       [WsSend connectionId
          (stringify (Presence.presenceStateMessage
                        (JsMap.values (Presence.userPresence st))
                        (JsMap.values (Presence.typingIndicators st)) now))
          true])
    /\ Presence.userPresence st' = Presence.userPresence st
    /\ Presence.typingIndicators st' = Presence.typingIndicators st
    /\ Presence.presenceSubscribers st'
       = JsMap.set connectionId server (Presence.presenceSubscribers st).
Proof.
  unfold Presence.handleWebSocketUpgrade, Presence.sendCurrentPresenceState, is_open.
  rewrite Upgrade, Open, Sends. simpl. eexists. split; [reflexivity|]. auto.
Qed.

Lemma subscriber_receives_snapshot_witness :
  exists st',
    Presence.handleWebSocketUpgrade (upgradeRequest "bob") "c2" openSocket 8 60000
      aliceTyping
    = (Returned (mkResponse 101 None None (Some "c2")), st',
       [WsSend "c2"
          (stringify (Presence.presenceStateMessage
                        (JsMap.values (Presence.userPresence aliceTyping))
                        (JsMap.values (Presence.typingIndicators aliceTyping)) 60000))
          true])
    /\ Presence.userPresence st' = Presence.userPresence aliceTyping
    /\ Presence.typingIndicators st' = Presence.typingIndicators aliceTyping
    /\ Presence.presenceSubscribers st'
       = JsMap.set "c2" openSocket (Presence.presenceSubscribers aliceTyping).
Proof.
  apply (subscriber_receives_snapshot (upgradeRequest "bob") "c2" openSocket 8 60000
           aliceTyping); reflexivity.
Defined.







(** C10.  A status request for a user without a presence record is
    answered with status 200 and the body [{"status":"offline"}]; the
    state is left as it was and nothing is sent, stored or broadcast. *)
Theorem status_of_unknown_user_is_offline
  {B : Type} (request : Request B) (st : Presence.State) (user : string)
  (Caller : getUserIdFromRequest request = Some user)
  (Unknown : JsMap.get user (Presence.userPresence st) = None) :
  Presence.handleStatusRequest request st
  = (Returned (mkResponse 200
                 (Some ("{" ++ dq ++ "status" ++ dq ++ ":" ++ dq ++ "offline" ++ dq ++ "}"))
                 (Some "application/json") None),
     st, []).
Proof.
  unfold Presence.handleStatusRequest. rewrite Caller, Unknown. reflexivity.
Qed.

Lemma status_of_unknown_user_is_offline_witness :
  Presence.handleStatusRequest (upgradeRequest "zed") aliceSubscribed
  = (Returned (mkResponse 200
                 (Some ("{" ++ dq ++ "status" ++ dq ++ ":" ++ dq ++ "offline" ++ dq ++ "}"))
                 (Some "application/json") None),
     aliceSubscribed, []).
Proof.
  apply (status_of_unknown_user_is_offline (upgradeRequest "zed") aliceSubscribed "zed");
    reflexivity.
Defined.

(* ================================================================== *)
(** ** Further properties                                              *)
(* ================================================================== *)

Lemma anonymous_has_no_user {B} (request : Request B) :
  anonymous request <-> getUserIdFromRequest request = None.
Proof.
  unfold anonymous, blank, getUserIdFromRequest, nonEmpty. split.
  - intros ([-> | ->] & [-> | ->] & [-> | ->]); reflexivity.
  - destruct (xUserId request) as [a|]; [destruct (String.eqb a "") eqn:A|];
      try discriminate;
      (destruct (cfAccessJwtClaims request) as [b|]; [destruct (String.eqb b "") eqn:Bq|];
       try discriminate;
       (destruct (queryUserId request) as [c|]; [destruct (String.eqb c "") eqn:C|];
        try discriminate));
      intros _; repeat split;
      try (apply String.eqb_eq in A; subst);
      try (apply String.eqb_eq in Bq; subst);
      try (apply String.eqb_eq in C; subst); auto.
Qed.

(** X1.  A request whose X-User-ID header, CF-Access-JWT-Claims header
    and userId query parameter are all missing or empty identifies no
    caller.  The room then registers nothing on an upgrade, and every
    request handler of either object answers without touching the state
    and without sending, storing or broadcasting anything; the message,
    typing and presence handlers answer with an error status. *)
Theorem anonymous_requests_change_nothing
  (upgrade : Request unit)
  (message : Request ChatRoom.MessageData) (typing : Request ChatRoom.TypingData)
  (presence : Request ChatRoom.PresenceData)
  (ptyping : Request Presence.TypingData) (ppresence : Request Presence.PresenceData)
  (status : Request unit)
  (connectionId id : string) (server : WebSocket) (interval now : Z) (putThrows : bool)
  (room : ChatRoom.State) (pst : Presence.State)
  (A1 : anonymous upgrade) (A2 : anonymous message) (A3 : anonymous typing)
  (A4 : anonymous presence) (A5 : anonymous ptyping) (A6 : anonymous ppresence)
  (A7 : anonymous status) :
  snd (ChatRoom.handleWebSocketUpgrade upgrade connectionId server interval room) = room
  /\ (exists r, ChatRoom.handleMessageRequest message id now room
                = Some (Returned r, room, []) /\ response_ok r = false)
  /\ (exists r, ChatRoom.handleTypingRequest typing now room
                = Some (Returned r, room, []) /\ response_ok r = false)
  /\ (exists r, ChatRoom.handlePresenceRequest presence now room
                = Some (Returned r, room, []) /\ response_ok r = false)
  /\ (exists r, Presence.handleTypingRequest ptyping now pst
                = (Returned r, pst, []) /\ response_ok r = false)
  /\ (exists r, Presence.handlePresenceRequest ppresence now putThrows pst
                = (Returned r, pst, []) /\ response_ok r = false)
  /\ Presence.handleStatusRequest status pst = (Presence.serverError, pst, []).
Proof.
  apply anonymous_has_no_user in A1, A2, A3, A4, A5, A6, A7.
  split; [|split; [|split; [|split; [|split; [|split]]]]].
  - unfold ChatRoom.handleWebSocketUpgrade. rewrite A1.
    destruct (negb (is_websocket (upgradeHeader upgrade))); reflexivity.
  - unfold ChatRoom.handleMessageRequest. rewrite A2.
    destruct (negb _); [|destruct (json message)]; eexists; split; reflexivity.
  - unfold ChatRoom.handleTypingRequest. rewrite A3.
    destruct (negb _); [|destruct (json typing)]; eexists; split; reflexivity.
  - unfold ChatRoom.handlePresenceRequest. rewrite A4.
    destruct (negb _); [|destruct (json presence)]; eexists; split; reflexivity.
  - unfold Presence.handleTypingRequest. rewrite A5.
    destruct (negb _); [|destruct (json ptyping)]; eexists; split; reflexivity.
  - unfold Presence.handlePresenceRequest. rewrite A6.
    destruct (negb _); [|destruct (json ppresence)]; eexists; split; reflexivity.
  - unfold Presence.handleStatusRequest. now rewrite A7.
Qed.

Lemma anonymous_requests_change_nothing_witness :
  snd (ChatRoom.handleWebSocketUpgrade (anonymousRequest "GET" (@None unit)) "c9"
         openSocket 9 twoUserRoom) = twoUserRoom.
Proof.
  refine (proj1 (anonymous_requests_change_nothing
                   (anonymousRequest "GET" (@None unit))
                   (anonymousRequest "POST" (Some (ChatRoom.mkMessageData "hi" "text" None)))
                   (anonymousRequest "POST" (Some (ChatRoom.mkTypingData true)))
                   (anonymousRequest "POST" (Some (ChatRoom.mkPresenceData "away")))
                   (anonymousRequest "POST" (Some (Presence.mkTypingData "room-1" true)))
                   (anonymousRequest "POST"
                      (Some (Presence.mkPresenceData Presence.away None None)))
                   (anonymousRequest "GET" (@None unit))
                   "c9" "id-9" openSocket 9 9000 false twoUserRoom aliceSubscribed
                   _ _ _ _ _ _ _));
    unfold anonymous, blank; simpl; auto.
Defined.

(** X2.  The room's message handler always answers.  It answers 405 to
    anything but a POST, 500 when the body does not parse or no caller is
    identified, 400 when the content or the type is empty, and 200
    otherwise; whenever the answer is not 200 the state is untouched and
    nothing was sent or broadcast, and when it is 200 the message was
    broadcast. *)
Theorem message_request_outcomes
  (request : Request ChatRoom.MessageData) (id : string) (now : Z)
  (st : ChatRoom.State)
  (ND : NoDup (JsMap.keys (ChatRoom.connections st))) :
  exists r st' t,
    ChatRoom.handleMessageRequest request id now st = Some (Returned r, st', t)
    /\ (method request <> "POST" -> status r = 405)
    /\ (method request = "POST" ->
        json request = None \/ getUserIdFromRequest request = None ->
        status r = 500)
    /\ (method request = "POST" ->
        forall d u, json request = Some d -> getUserIdFromRequest request = Some u ->
                    (ChatRoom.content d = "" \/ ChatRoom.type d = "" -> status r = 400)
                    /\ (ChatRoom.content d <> "" -> ChatRoom.type d <> "" ->
                        status r = 200
                        /\ broadcasts t <> []
                        /\ hd_error t = Some (Bcast (ChatRoom.messageEvent id d u now))))
    /\ (status r <> 200 -> st' = st /\ t = []).
Proof.
  unfold ChatRoom.handleMessageRequest.
  destruct (String.eqb (method request) "POST") eqn:M; simpl.
  2:{ apply String.eqb_neq in M. eexists _, _, _. split; [reflexivity|].
      simpl. repeat split; auto; try tauto. }
  apply String.eqb_eq in M.
  destruct (json request) as [d|] eqn:J.
  2:{ eexists _, _, _. split; [reflexivity|]. simpl.
      repeat split; auto; try tauto; try discriminate. }
  destruct (getUserIdFromRequest request) as [u|] eqn:U.
  2:{ eexists _, _, _. split; [reflexivity|]. simpl.
      repeat split; auto; try tauto; try discriminate. }
  destruct (String.eqb (ChatRoom.content d) "") eqn:C; simpl.
  { apply String.eqb_eq in C. eexists _, _, _. split; [reflexivity|]. simpl.
    split; [tauto|]. split; [intros _ [X|X]; discriminate|].
    split; [|auto]. intros _ d' u' E1 E2. injection E1 as <-.
    split; [reflexivity|]. tauto. }
  destruct (String.eqb (ChatRoom.type d) "") eqn:T; simpl.
  { apply String.eqb_eq in T. eexists _, _, _. split; [reflexivity|]. simpl.
    split; [tauto|]. split; [intros _ [X|X]; discriminate|].
    split; [|auto]. intros _ d' u' E1 E2. injection E1 as <-.
    split; [reflexivity|]. tauto. }
  apply String.eqb_neq in C, T.
  destruct (RoomProgress.broadcastMessage_total now
              (ChatRoom.messageEvent id d u now) st ND) as (st' & t & B & _).
  rewrite B. simpl. exists successResponse, st', t. split; [reflexivity|].
  unfold ChatRoom.broadcastMessage, ChatRoom.enoughFuel in B.
  apply broadcastMessageFuel_shape in B. destruct B as (cleanup & -> & _).
  split; [tauto|]. split; [intros _ [X|X]; discriminate|].
  split.
  - intros _ d' u' E1 E2. injection E1 as <-. injection E2 as <-.
    split; [tauto|]. intros _ _. simpl. repeat split; discriminate.
  - simpl. intros X. exfalso. apply X. reflexivity.
Qed.

Lemma message_request_outcomes_witness :
  exists r st' t,
    ChatRoom.handleMessageRequest (messageRequest "alice" "" "text") "id-1" 1000
      twoUserRoom = Some (Returned r, st', t)
    /\ status r = 400 /\ st' = twoUserRoom /\ t = [].
Proof.
  destruct (message_request_outcomes (messageRequest "alice" "" "text") "id-1" 1000
              twoUserRoom ltac:(distinct_strings))
    as (r & st' & t & E & _ & _ & Bad & Frame).
  exists r, st', t. split; [exact E|].
  assert (status r = 400) as S.
  { apply (Bad eq_refl (ChatRoom.mkMessageData "" "text" None) "alice" eq_refl eq_refl).
    now left. }
  split; [exact S|]. apply Frame. rewrite S. discriminate.
Defined.

(** *** Two more facts about maps *)

Lemma delete_set_same {V} k (v : V) (m : list (string * V)) :
  JsMap.delete k (JsMap.set k v m) = JsMap.delete k m.
Proof.
  destruct (JsMap.has k m) eqn:H.
  - rewrite set_present by assumption. unfold JsMap.delete.
    induction m as [|e m IH]; [reflexivity|].
    assert (JsMap.has k m = true -> 
            filter (fun e0 => negb (JsMap.is_key k e0))
              (map (fun e0 => if JsMap.is_key k e0 then (k, v) else e0) m)
            = filter (fun e0 => negb (JsMap.is_key k e0)) m) as IH' by exact IH.
    clear IH. simpl. destruct (JsMap.is_key k e) eqn:K; simpl.
    + assert (JsMap.is_key k (k, v) = true) as KK by (apply is_key_true; reflexivity).
      rewrite KK. simpl.
      destruct (JsMap.has k m) eqn:H2; [now apply IH'|].
      apply has_false_keys in H2.
      rewrite map_ext_in with (g := fun e0 => e0); [now rewrite map_id|].
      intros e0 HIn. destruct (JsMap.is_key k e0) eqn:K0; [|reflexivity].
      apply is_key_true in K0. exfalso. apply H2. unfold JsMap.keys.
      rewrite <- K0. now apply in_map.
    + rewrite K. simpl. f_equal. apply IH'.
      unfold JsMap.has in *. simpl in H.
      unfold JsMap.is_key in K. unfold JsMap.is_key in H. rewrite K in H. exact H.
  - rewrite set_absent by assumption. unfold JsMap.delete. rewrite filter_app. simpl.
    assert (JsMap.is_key k (k, v) = true) as KK by (apply is_key_true; reflexivity).
    rewrite KK. simpl. apply app_nil_r.
Qed.

(** X3.  The presence object runs [removePresenceSubscriber] from the
    close listener, the error listener, the heartbeat and the broadcast
    clean-up, so one socket is often removed more than once.  A second
    removal of the same connection changes nothing and has no effect on
    the outside, and so does the removal of a connection that is neither
    subscribed nor has a timer. *)
Theorem unsubscribe_twice_is_once (connectionId : string) (st : Presence.State) :
  let st' := fst (Presence.removePresenceSubscriber connectionId st) in
  Presence.removePresenceSubscriber connectionId st' = (st', [])
  /\ JsMap.get connectionId (Presence.presenceSubscribers st') = None
  /\ (JsMap.get connectionId (Presence.presenceSubscribers st) = None ->
      JsMap.get connectionId (Presence.heartbeatIntervals st) = None ->
      Presence.removePresenceSubscriber connectionId st = (st, [])).
Proof.
  unfold Presence.removePresenceSubscriber.
  destruct (JsMap.get connectionId (Presence.presenceSubscribers st)) as [ws|] eqn:G;
    cbn [Presence.with_presenceSubscribers Presence.heartbeatIntervals
         Presence.presenceSubscribers];
    (destruct (JsMap.get connectionId (Presence.heartbeatIntervals st)) as [i|] eqn:H;
     [destruct (i =? 0) eqn:Z|]);
    cbn [fst Presence.with_presenceSubscribers Presence.with_heartbeatIntervals
         Presence.heartbeatIntervals Presence.presenceSubscribers];
    rewrite ?get_delete_same, ?G, ?H, ?Z;
    cbn [fst Presence.with_presenceSubscribers Presence.with_heartbeatIntervals
         Presence.heartbeatIntervals Presence.presenceSubscribers];
    rewrite ?get_delete_same, ?G, ?H, ?Z;
    repeat split; try discriminate; destruct st; reflexivity.
Qed.

Lemma presence_remove_no_rows connectionId st :
  storedRows (snd (Presence.removePresenceSubscriber connectionId st)) = [].
Proof.
  unfold Presence.removePresenceSubscriber.
  destruct (JsMap.get connectionId (Presence.presenceSubscribers st));
    cbn [Presence.heartbeatIntervals Presence.with_presenceSubscribers];
    destruct (JsMap.get connectionId (Presence.heartbeatIntervals st)) as [i|];
    try destruct (i =? 0); reflexivity.
Qed.

Lemma presence_removeAll_no_rows ids : forall st,
  storedRows (snd (Presence.removeAll ids st)) = [].
Proof.
  induction ids as [|c ids IH]; intros st; simpl; [reflexivity|].
  pose proof (presence_remove_no_rows c st) as R.
  destruct (Presence.removePresenceSubscriber c st) as [sa ta].
  pose proof (IH sa) as A.
  destruct (Presence.removeAll ids sa) as [sb tb]. simpl in *.
  now rewrite RoomFacts.storedRows_app, R, A.
Qed.

Lemma presence_broadcast_no_rows update st :
  storedRows (snd (Presence.broadcastPresenceUpdate update st)) = [].
Proof.
  unfold Presence.broadcastPresenceUpdate. rewrite sendToAll_spec.
  pose proof (presence_removeAll_no_rows (deadIds (Presence.presenceSubscribers st)) st) as A.
  destruct (Presence.removeAll _ st) as [sb tb]. simpl in *.
  now rewrite RoomFacts.storedRows_app, RoomFacts.storedRows_sendsTo, A.
Qed.

(** X4.  A presence update of an identified caller replaces the caller's
    whole record: a later lookup and a later status request of the same
    caller return the new record, whose typing fields are unset whatever
    the old record said, while the typing indicators themselves and the
    records of all other users stay as they were.  The update is broadcast
    once and then written to storage; when that write fails the answer is
    500 although the record was replaced and the broadcast went out. *)
Theorem presence_update_then_status
  {B : Type} (request : Request Presence.PresenceData) (query : Request B)
  (now : Z) (putThrows : bool) (st : Presence.State) (user : string)
  (d : Presence.PresenceData)
  (Post : method request = "POST")
  (Body : json request = Some d)
  (Caller : getUserIdFromRequest request = Some user)
  (Same : getUserIdFromRequest query = Some user) :
  let p := Presence.mkUserPresence user (Presence.reqStatus d) now
             (Presence.reqDeviceInfo d) (Presence.reqCurrentChatId d) None None in
  let r := Presence.handlePresenceRequest request now putThrows st in
  fst (fst r) = (if putThrows then Presence.serverError else Returned successResponse)
  /\ Presence.getUserPresence user (stateOf r) = Some p
  /\ (forall other, other <> user ->
        Presence.getUserPresence other (stateOf r) = Presence.getUserPresence other st)
  /\ Presence.typingIndicators (stateOf r) = Presence.typingIndicators st
  /\ broadcasts (effectsOf r) = [Presence.presenceUpdateEvent p]
  /\ (exists sent, effectsOf r
                   = (sent ++ [StoragePut ("presence:" ++ user) (Presence.presenceJson p)])%list
                   /\ storedRows sent = [])
  /\ Presence.handleStatusRequest query (stateOf r)
     = (Returned (jsonResponse (Presence.presenceJson p)), stateOf r, []).
Proof.
  intros p r. unfold r, Presence.handlePresenceRequest.
  rewrite Post, String.eqb_refl, Body, Caller. cbn [negb].
  fold p.
  set (st1 := Presence.with_userPresence st (JsMap.set user p (Presence.userPresence st))).
  pose proof (presence_broadcast_frame (Presence.presenceUpdateEvent p) st1)
    as (F1 & F2 & F3).
  destruct (Presence.broadcastPresenceUpdate (Presence.presenceUpdateEvent p) st1)
    as [st2 sent] eqn:BC.
  unfold stateOf, effectsOf. cbn [fst snd] in *.
  unfold Presence.getUserPresence.
  assert (Presence.userPresence st2 = JsMap.set user p (Presence.userPresence st)) as UP
    by (rewrite F1; reflexivity).
  split; [reflexivity|].
  split; [rewrite UP; apply get_set_eq|].
  split; [intros other NE; rewrite UP; now apply get_set_other|].
  split; [rewrite F2; reflexivity|].
  split; [rewrite PresenceFacts.broadcasts_app, F3; reflexivity|].
  split.
  - exists sent. split; [reflexivity|].
    pose proof (presence_broadcast_no_rows (Presence.presenceUpdateEvent p) st1) as N.
    rewrite BC in N. exact N.
  - unfold Presence.handleStatusRequest. rewrite Same, UP, get_set_eq. reflexivity.
Qed.

Lemma presence_update_then_status_witness :
  Presence.handleStatusRequest (upgradeRequest "alice")
    (stateOf (Presence.handlePresenceRequest (presenceRequest "alice" Presence.away)
                5000 true aliceOnlineTyping))
  = (Returned (jsonResponse
                 (Presence.presenceJson
                    (Presence.mkUserPresence "alice" Presence.away 5000 None None
                       None None))),
     stateOf (Presence.handlePresenceRequest (presenceRequest "alice" Presence.away)
                5000 true aliceOnlineTyping), []).
Proof.
  exact (proj2 (proj2 (proj2 (proj2 (proj2 (proj2
    (presence_update_then_status (presenceRequest "alice" Presence.away)
       (upgradeRequest "alice") 5000 true aliceOnlineTyping "alice"
       (Presence.mkPresenceData Presence.away None None)
       eq_refl eq_refl eq_refl eq_refl))))))).
Defined.

Lemma typing_users_distinct chat (m : list (string * Presence.TypingIndicator)) :
  NoDup (JsMap.keys m) ->
  (forall k i, In (k, i) m ->
               k = Presence.typingKey (Presence.typingUserId i) (Presence.chatId i)) ->
  NoDup (map Presence.typingUserId
           (filter (fun indicator => String.eqb (Presence.chatId indicator) chat)
                   (JsMap.values m))).
Proof.
  induction m as [|[k i] m IH]; intros ND K; simpl; [constructor|].
  simpl in ND. inversion ND as [|? ? NI ND']; subst.
  assert (NoDup (map Presence.typingUserId
                   (filter (fun indicator => String.eqb (Presence.chatId indicator) chat)
                           (JsMap.values m)))) as R.
  { apply IH; [assumption|]. intros k' i' H. apply K. now right. }
  destruct (String.eqb (Presence.chatId i) chat) eqn:C; [|exact R].
  simpl. constructor; [|exact R].
  intros HIn. apply in_map_iff in HIn. destruct HIn as (i' & EU & HI).
  apply filter_In in HI. destruct HI as [HI C'].
  unfold JsMap.values in HI. apply in_map_iff in HI. destruct HI as ([k' j] & EJ & HJ).
  simpl in EJ. subst j.
  apply String.eqb_eq in C, C'.
  apply NI. unfold JsMap.keys. apply in_map_iff. exists (k', i'). split; [|exact HJ].
  simpl. rewrite (K k' i' (or_intror HJ)), (K k i (or_introl eq_refl)).
  now rewrite EU, C, C'.
Qed.

(** X5.  In every state the presence object can reach, the typing list
    of a chat names no user twice, holds only indicators of that chat, and
    each of them is the one stored under the key of its user and chat. *)
Theorem typing_list_names_each_user_once
  (chat : string) (st : Presence.State)
  (Reach : PresenceSystem.reachable st) :
  NoDup (map Presence.typingUserId (Presence.getTypingIndicators chat st))
  /\ forall i, In i (Presence.getTypingIndicators chat st) ->
       Presence.chatId i = chat
       /\ JsMap.get (Presence.typingKey (Presence.typingUserId i) chat)
                    (Presence.typingIndicators st) = Some i.
Proof.
  destruct (PresenceSystemFacts.reachable_wellKeyed st Reach) as (_ & (ND & K) & _).
  split; [now apply typing_users_distinct|].
  intros i HI. unfold Presence.getTypingIndicators in HI.
  apply filter_In in HI. destruct HI as [HI C]. apply String.eqb_eq in C.
  split; [exact C|].
  unfold JsMap.values in HI. apply in_map_iff in HI. destruct HI as ([k j] & EJ & HJ).
  simpl in EJ. subst j. rewrite <- C, <- (K k i HJ). now apply in_get.
Qed.

Lemma typing_list_names_each_user_once_witness :
  NoDup (map Presence.typingUserId (Presence.getTypingIndicators "room-1" aliceTyping)).
Proof.
  refine (proj1 (typing_list_names_each_user_once "room-1" aliceTyping _)).
  eapply PresenceSystem.reach_step; [apply PresenceSystem.reach_initial|].
  apply (PresenceSystem.step_typing (typingRequest "alice" "room-1" true) 1000).
Defined.

(** X6.  After an identified caller has asked to stop typing in a chat,
    no indicator of that caller is listed for the chat, and a later expiry
    sweep, whenever it runs, announces no typing stop for that caller and
    chat: the stop is announced once, by the request itself. *)
Theorem explicit_stop_is_not_announced_again
  (request : Request Presence.TypingData) (user chat : string) (now later : Z)
  (st : Presence.State)
  (Keyed : wfTyping st)
  (Post : method request = "POST")
  (Body : json request = Some (Presence.mkTypingData chat false))
  (Caller : getUserIdFromRequest request = Some user) :
  let r := Presence.handleTypingRequest request now st in
  count (isTypingStopFor user chat) (broadcasts (effectsOf r)) = 1%nat
  /\ (forall i, In i (Presence.getTypingIndicators chat (stateOf r)) ->
                Presence.typingUserId i <> user)
  /\ count (isTypingStopFor user chat)
       (broadcasts (snd (Presence.cleanupExpiredTypingIndicators later (stateOf r))))
     = 0%nat
  /\ wfTyping (stateOf r).
Proof.
  intros r. destruct Keyed as [ND K].
  assert (Presence.typingIndicators (stateOf r)
          = JsMap.delete (Presence.typingKey user chat) (Presence.typingIndicators st)
          /\ broadcasts (effectsOf r) = [Presence.typingStopEvent user chat now]) as [TI BC].
  { unfold r, Presence.handleTypingRequest.
    rewrite Post, String.eqb_refl, Body, Caller. cbn [negb Presence.reqIsTyping Presence.reqChatId].
    set (st2 := Presence.markTyping user false None _).
    pose proof (presence_broadcast_frame (Presence.typingStopEvent user chat now) st2)
      as (_ & F2 & F3).
    destruct (Presence.broadcastPresenceUpdate _ st2) as [st3 sent].
    unfold stateOf, effectsOf. cbn [fst snd] in *. split; [|exact F3].
    rewrite F2. unfold st2. rewrite markTyping_typing. reflexivity. }
  assert (forall k i, In (k, i) (Presence.typingIndicators (stateOf r)) ->
                      In (k, i) (Presence.typingIndicators st)
                      /\ k <> Presence.typingKey user chat) as Sub.
  { intros k i H. rewrite TI in H. apply in_delete in H. exact H. }
  assert (wfTyping (stateOf r)) as WF.
  { split.
    - rewrite TI. now apply nodup_keys_delete.
    - intros k i H. apply K. now apply Sub. }
  split.
  { rewrite BC. unfold count. cbn [filter].
    rewrite SweepFacts.isTypingStopFor_stop, !String.eqb_refl. reflexivity. }
  split.
  { intros i HI EU. unfold Presence.getTypingIndicators in HI.
    apply filter_In in HI. destruct HI as [HI C]. apply String.eqb_eq in C.
    unfold JsMap.values in HI. apply in_map_iff in HI. destruct HI as ([k j] & EJ & HJ).
    simpl in EJ. subst j. destruct (Sub k i HJ) as [HIn NE].
    apply NE. rewrite (K k i HIn), EU, C. reflexivity. }
  split; [|exact WF].
  rewrite SweepFacts.cleanup_broadcasts by apply WF.
  rewrite SweepFacts.count_map. apply SweepFacts.count_none.
  intros [k i] HI. apply filter_In in HI. destruct HI as [HI _].
  destruct (Sub k i HI) as [HIn NE].
  unfold stopOf. cbn [snd]. rewrite SweepFacts.isTypingStopFor_stop.
  destruct (String.eqb (Presence.typingUserId i) user) eqn:E1; [|reflexivity].
  destruct (String.eqb (Presence.chatId i) chat) eqn:E2; [|reflexivity].
  apply String.eqb_eq in E1, E2. exfalso. apply NE.
  rewrite (K k i HIn), E1, E2. reflexivity.
Qed.

Lemma explicit_stop_is_not_announced_again_witness :
  count (isTypingStopFor "alice" "room-1")
    (broadcasts
       (snd (Presence.cleanupExpiredTypingIndicators 60000
               (stateOf (Presence.handleTypingRequest
                           (typingRequest "alice" "room-1" false) 3000
                           aliceOnlineTyping)))))
  = 0%nat.
Proof.
  refine (proj1 (proj2 (proj2
    (explicit_stop_is_not_announced_again (typingRequest "alice" "room-1" false)
       "alice" "room-1" 3000 60000 aliceOnlineTyping _ eq_refl eq_refl eq_refl)))).
  split.
  - vm_compute. distinct_strings.
  - intros k i H. vm_compute in H. destruct H as [H|[]].
    injection H as <- <-. reflexivity.
Defined.

Lemma demoteStale_none f entries : forall st,
  (forall e, In e entries -> stale f e = false) ->
  Presence.demoteStale f entries st = (st, []).
Proof.
  induction entries as [|[u p] entries IH]; intros st H; simpl; [reflexivity|].
  assert (stale f (u, p) = false) as S by (apply H; now left).
  unfold stale in S. cbn [snd] in S. rewrite S. apply IH.
  intros e He. apply H. now right.
Qed.

Lemma demoteMap_leaves_none_stale f up :
  wfPresence up -> forall e, In e (demoteMap f up up) -> stale f e = false.
Proof.
  intros WF [u q'] HIn.
  assert (wfPresence (demoteMap f up up)) as WF'
    by (apply wfPresence_demoteMap; [assumption|apply WF]).
  destruct WF as [ND K]. destruct WF' as [ND' K'].
  pose proof (in_get _ _ _ ND' HIn) as G'.
  destruct (in_dec string_dec u (JsMap.keys up)) as [HK|HK].
  - unfold JsMap.keys in HK. apply in_map_iff in HK.
    destruct HK as ([u0 q] & E & Hq). simpl in E; subst u0.
    pose proof (AlarmFacts.get_demoteMap f u q up up ND Hq (in_get _ _ _ ND Hq)) as G.
    rewrite G' in G. injection G as ->.
    destruct (stale f (u, q)) eqn:S; [|exact S].
    unfold stale, demote. cbn. apply andb_false_r.
  - pose proof (AlarmFacts.get_demoteMap_other f u up up HK) as G.
    rewrite G' in G. symmetry in G. apply get_none in HK. congruence.
Qed.

(** X7.  In every state the presence object can reach, running the alarm
    again with the same clock readings finds nothing left to do: the state
    it left is kept and nothing is sent or broadcast.  After a run no
    indicator is older than ten seconds and no online user is stale. *)
Theorem alarm_twice_is_once (now now' : Z) (st : Presence.State)
  (Reach : PresenceSystem.reachable st) :
  let st' := fst (Presence.alarm now now' st) in
  Presence.alarm now now' st' = (st', [])
  /\ Presence.expiredKeys now st' = []
  /\ (forall e, In e (Presence.userPresence st') -> stale (now' - 300000) e = false).
Proof.
  intros st'.
  pose proof (PresenceSystemFacts.reachable_wellKeyed st Reach) as WK.
  assert (Presence.typingIndicators st'
          = filter (notIn (Presence.expiredKeys now st)) (Presence.typingIndicators st)
          /\ Presence.userPresence st'
             = demoteMap (now' - 300000)
                 (Presence.userPresence
                    (fst (Presence.cleanupExpiredTypingIndicators now st)))
                 (Presence.userPresence
                    (fst (Presence.cleanupExpiredTypingIndicators now st)))) as [TI UP].
  { unfold st', Presence.alarm.
    pose proof (SweepFacts.expireAll_typing now (Presence.expiredKeys now st) st) as T1.
    unfold Presence.cleanupExpiredTypingIndicators in *.
    destruct (Presence.expireAll now (Presence.expiredKeys now st) st) as [st1 t1].
    cbn [fst snd] in *.
    pose proof (AlarmFacts.demoteStale_spec (now' - 300000)
                  (Presence.userPresence st1) st1) as (D1 & _ & D3).
    destruct (Presence.demoteStale (now' - 300000) (Presence.userPresence st1) st1)
      as [st2 t2]. cbn [fst snd] in *.
    split; [rewrite D3; exact T1|exact D1]. }
  assert (Presence.expiredKeys now st' = []) as EK.
  { unfold Presence.expiredKeys. rewrite TI.
    replace (filter (Presence.expired now)
               (filter (notIn (Presence.expiredKeys now st))
                       (Presence.typingIndicators st)))
      with (@nil (string * Presence.TypingIndicator)); [reflexivity|].
    symmetry. 
    destruct (filter (Presence.expired now)
               (filter (notIn (Presence.expiredKeys now st))
                       (Presence.typingIndicators st))) as [|e l] eqn:F; [reflexivity|].
    exfalso.
    assert (In e (e :: l)) as HIn by now left.
    rewrite <- F in HIn. apply filter_In in HIn. destruct HIn as [HIn X].
    apply filter_In in HIn. destruct HIn as [HIn N].
    apply notIn_true in N. apply N. unfold Presence.expiredKeys.
    apply in_map. apply filter_In. auto. }
  assert (forall e, In e (Presence.userPresence st') -> stale (now' - 300000) e = false)
    as NS.
  { rewrite UP. apply demoteMap_leaves_none_stale.
    apply (PresenceSystemFacts.expireAll_wellKeyed now (Presence.expiredKeys now st) st WK). }
  split; [|split; assumption].
  unfold Presence.alarm at 1, Presence.cleanupExpiredTypingIndicators.
  rewrite EK. cbn [Presence.expireAll].
  rewrite demoteStale_none by exact NS. reflexivity.
Qed.

Lemma alarm_twice_is_once_witness :
  Presence.alarm 400000 400000 (fst (Presence.alarm 400000 400000 aliceOnlineTyping))
  = (fst (Presence.alarm 400000 400000 aliceOnlineTyping), []).
Proof.
  refine (proj1 (alarm_twice_is_once 400000 400000 aliceOnlineTyping _)).
  eapply PresenceSystem.reach_step.
  - eapply PresenceSystem.reach_step; [apply PresenceSystem.reach_initial|].
    apply (PresenceSystem.step_presence (presenceRequest "alice" Presence.online)
             1000 false).
  - apply (PresenceSystem.step_typing (typingRequest "alice" "room-1" true) 2000).
Defined.

Lemma delete_set_fresh {V} k (v : V) (m : list (string * V)) :
  ~ In k (JsMap.keys m) -> JsMap.delete k (JsMap.set k v m) = m.
Proof. intros N. rewrite delete_set_same. now apply delete_absent. Qed.

Lemma set_get_same {V} k (v : V) (m : list (string * V)) :
  NoDup (JsMap.keys m) -> JsMap.get k m = Some v -> JsMap.set k v m = m.
Proof.
  intros ND G. pose proof (get_in _ _ _ G) as HIn.
  rewrite set_present by (apply has_in_keys; eapply in_keys; eauto).
  rewrite map_ext_in with (g := fun e => e); [apply map_id|].
  intros [k' v'] He. destruct (JsMap.is_key k (k', v')) eqn:K; [|reflexivity].
  apply is_key_true in K. simpl in K. subst k'.
  now rewrite (nodup_keys_same _ _ _ _ ND HIn He).
Qed.

Lemma set_delete_add_fresh (x : string) (s : list string) :
  ~ In x s -> JsSet.delete x (JsSet.add x s) = s.
Proof.
  intros N. assert (JsSet.has x s = false) as H.
  { destruct (JsSet.has x s) eqn:H; [|reflexivity]. apply set_has_iff in H. tauto. }
  unfold JsSet.add. rewrite H. unfold JsSet.delete. rewrite filter_app. simpl.
  rewrite String.eqb_refl. simpl. rewrite app_nil_r.
  now apply set_delete_absent.
Qed.

(** X8.  The presence object subscribes whoever asks for an upgrade,
    identified or not.  The new connection and its timer are stored even
    when sending the snapshot throws, which is the only case in which the
    upgrade fails; and removing a connection right after it was added
    under a new id closes it, clears its timer and gives back the state
    from before the subscription. *)
Theorem presence_subscribe_then_unsubscribe
  {B : Type} (request : Request B) (connectionId : string) (server : WebSocket)
  (interval now : Z) (st : Presence.State)
  (Upgrade : upgradeHeader request = Some "websocket")
  (Fresh : ~ In connectionId (JsMap.keys (Presence.presenceSubscribers st)))
  (FreshTimer : ~ In connectionId (JsMap.keys (Presence.heartbeatIntervals st)))
  (Timer : interval <> 0) :
  let r := Presence.handleWebSocketUpgrade request connectionId server interval now st in
  (fst (fst r) = Threw <-> readyState server = OPEN /\ sendThrows server = true)
  /\ (fst (fst r) <> Threw ->
      fst (fst r) = Returned (mkResponse 101 None None (Some connectionId)))
  /\ JsMap.get connectionId (Presence.presenceSubscribers (stateOf r)) = Some server
  /\ JsMap.get connectionId (Presence.heartbeatIntervals (stateOf r)) = Some interval
  /\ Presence.removePresenceSubscriber connectionId (stateOf r)
     = (st, [WsClose connectionId; ClearInterval interval]).
Proof.
  intros r. unfold r, Presence.handleWebSocketUpgrade.
  rewrite Upgrade. cbn [is_websocket]. rewrite String.eqb_refl. cbn [negb].
  unfold Presence.sendCurrentPresenceState, Presence.setupHeartbeat.
  assert (Presence.removePresenceSubscriber connectionId
            (Presence.with_heartbeatIntervals
               (Presence.with_presenceSubscribers st
                  (JsMap.set connectionId server (Presence.presenceSubscribers st)))
               (JsMap.set connectionId interval
                  (Presence.heartbeatIntervals
                     (Presence.with_presenceSubscribers st
                        (JsMap.set connectionId server
                           (Presence.presenceSubscribers st))))))
          = (st, [WsClose connectionId; ClearInterval interval])) as Back.
  { unfold Presence.removePresenceSubscriber.
    cbn [Presence.with_heartbeatIntervals Presence.with_presenceSubscribers
         Presence.presenceSubscribers Presence.heartbeatIntervals].
    rewrite get_set_eq.
    cbn [Presence.with_heartbeatIntervals Presence.with_presenceSubscribers
         Presence.presenceSubscribers Presence.heartbeatIntervals].
    rewrite get_set_eq.
    destruct (interval =? 0) eqn:Z; [apply Z.eqb_eq in Z; contradiction|].
    cbn [Presence.with_heartbeatIntervals Presence.with_presenceSubscribers
         Presence.presenceSubscribers Presence.heartbeatIntervals
         Presence.userPresence Presence.typingIndicators].
    rewrite !delete_set_fresh by assumption. destruct st; reflexivity. }
  unfold is_open.
  destruct server as [[] []]; unfold stateOf; cbn [fst snd readyState sendThrows negb];
    (split; [split; [intros E; try discriminate E; auto
                    |intros [E1 E2]; try discriminate E1; try discriminate E2; reflexivity]|]);
    (split; [intros N; try reflexivity; exfalso; apply N; reflexivity|]);
    (split; [apply get_set_eq|]); (split; [apply get_set_eq|exact Back]).
Qed.

Lemma presence_subscribe_then_unsubscribe_witness :
  Presence.removePresenceSubscriber "c9"
    (stateOf (Presence.handleWebSocketUpgrade (anonymousRequest "GET" (@None unit))
                "c9" brokenSocket 9 5000 samplePresence))
  = (samplePresence, [WsClose "c9"; ClearInterval 9]).
Proof.
  refine (proj2 (proj2 (proj2 (proj2
    (presence_subscribe_then_unsubscribe (anonymousRequest "GET" (@None unit))
       "c9" brokenSocket 9 5000 samplePresence eq_refl _ _ _))))).
  - simpl. intuition discriminate.
  - simpl. intuition discriminate.
  - discriminate.
Defined.

(** *** Computing a removal in the room *)

Lemma find_only_owner connectionId u ids (uc : list (string * list string)) :
  In (u, ids) uc -> In connectionId ids ->
  (forall u' ids', In (u', ids') uc -> In connectionId ids' -> (u', ids') = (u, ids)) ->
  find (ChatRoom.owns connectionId) uc = Some (u, ids).
Proof.
  intros HIn Hc Only.
  destruct (find (ChatRoom.owns connectionId) uc) as [[u' ids']|] eqn:F.
  - apply RoomFacts.find_owner in F. destruct F as [F1 F2].
    now rewrite (Only _ _ F1 F2).
  - exfalso. eapply RoomFacts.find_no_owner; eauto.
Qed.

(** X9.  A connection the room has just registered under a new id can
    be taken back: the upgrade of an identified caller answers 101 and
    stores the socket, the id in the caller's set and the timer; removing
    that connection again closes it, clears the timer and restores the
    state from before the upgrade.  When the caller had other connections
    nothing is sent; when this was the caller's only connection the room
    announces them offline to everybody else. *)
Theorem room_subscribe_then_unregister
  {B : Type} (request : Request B) (connectionId : string) (server : WebSocket)
  (interval now : Z) (st : ChatRoom.State) (user : string)
  (Upgrade : upgradeHeader request = Some "websocket")
  (Caller : getUserIdFromRequest request = Some user)
  (Inv : RoomSystem.registryInv st)
  (Pop : populated (ChatRoom.userConnections st))
  (Fresh : ~ In connectionId (JsMap.keys (ChatRoom.connections st)))
  (FreshTimer : ~ In connectionId (JsMap.keys (ChatRoom.heartbeatIntervals st)))
  (Timer : interval <> 0) :
  let r := ChatRoom.handleWebSocketUpgrade request connectionId server interval st in
  let gone := ChatRoom.presenceEvent user "offline" now in
  fst r = Returned (mkResponse 101 None None (Some connectionId))
  /\ JsMap.get connectionId (ChatRoom.connections (snd r)) = Some server
  /\ (exists ids, JsMap.get user (ChatRoom.userConnections (snd r)) = Some ids
                  /\ In connectionId ids)
  /\ (JsMap.has user (ChatRoom.userConnections st) = true ->
      ChatRoom.removeConnection now connectionId (snd r)
      = Some (st, [WsClose connectionId; ClearInterval interval]))
  /\ (JsMap.has user (ChatRoom.userConnections st) = false ->
      allLive (ChatRoom.connections st) ->
      ChatRoom.removeConnection now connectionId (snd r)
      = Some (st, (WsClose connectionId :: ClearInterval interval :: Bcast gone
                   :: sendsTo (stringify gone) (ChatRoom.connections st))%list)).
Proof.
  intros r gone. destruct Inv as (ND & J2 & J3).
  assert (forall u ids, In (u, ids) (ChatRoom.userConnections st) ->
                        ~ In connectionId ids) as NoOwner.
  { intros u ids H Hc. apply Fresh. apply J2. eauto. }
  set (ids0 := match JsMap.get user (ChatRoom.userConnections st) with
               | Some ids => ids
               | None => []
               end).
  assert (~ In connectionId ids0) as NI.
  { unfold ids0. destruct (JsMap.get user (ChatRoom.userConnections st)) as [ids|] eqn:G;
      [|tauto]. apply get_in in G. eauto. }
  assert (r = (Returned (mkResponse 101 None None (Some connectionId)),
               ChatRoom.mkState
                 (JsMap.set connectionId server (ChatRoom.connections st))
                 (JsMap.set user (JsSet.add connectionId ids0)
                    (ChatRoom.userConnections st))
                 (ChatRoom.typingUsers st)
                 (JsMap.set connectionId interval (ChatRoom.heartbeatIntervals st))))
    as Er.
  { unfold r, ChatRoom.handleWebSocketUpgrade.
    rewrite Upgrade. cbn [is_websocket]. rewrite String.eqb_refl. cbn [negb].
    rewrite Caller. unfold ChatRoom.setupHeartbeat.
    cbn [ChatRoom.with_connections ChatRoom.with_userConnections
         ChatRoom.with_heartbeatIntervals ChatRoom.userConnections
         ChatRoom.connections ChatRoom.typingUsers ChatRoom.heartbeatIntervals].
    f_equal. f_equal. unfold ids0.
    destruct (JsMap.has user (ChatRoom.userConnections st)) eqn:HU.
    - apply has_in_keys in HU. unfold JsMap.keys in HU. apply in_map_iff in HU.
      destruct HU as ([u ids] & E & HI). simpl in E. subst u.
      now rewrite (in_get _ _ _ ND HI).
    - rewrite get_set_eq.
      assert (JsMap.get user (ChatRoom.userConnections st) = None) as G
        by (apply get_none; now apply has_false_keys).
      rewrite G, set_set. reflexivity. }
  rewrite Er. cbn [fst snd ChatRoom.connections ChatRoom.userConnections].
  split; [reflexivity|]. split; [apply get_set_eq|].
  split; [exists (JsSet.add connectionId ids0); split;
          [apply get_set_eq|apply set_in_add; now right]|].
  set (uc2 := JsMap.set user (JsSet.add connectionId ids0) (ChatRoom.userConnections st)).
  set (st2 := ChatRoom.mkState _ uc2 _ _).
  assert (find (ChatRoom.owns connectionId) uc2
          = Some (user, JsSet.add connectionId ids0)) as Owner.
  { apply find_only_owner.
    - unfold uc2. destruct (JsMap.has user (ChatRoom.userConnections st)) eqn:HU.
      + apply in_set_present; [assumption|]. now right.
      + rewrite set_absent by assumption. apply in_or_app. right. now left.
    - apply set_in_add. now right.
    - intros u' ids' H Hc. unfold uc2 in H. apply in_set_cases in H.
      destruct H as [[H _]|H]; [|exact H]. exfalso. eapply NoOwner; eauto. }
  assert (forall bc,
            ChatRoom.removeConnectionWith bc now connectionId st2
            = match JsSet.size ids0 with
              | O =>
                  match bc gone
                          (ChatRoom.mkState (ChatRoom.connections st)
                             (JsMap.delete user (ChatRoom.userConnections st))
                             (ChatRoom.typingUsers st)
                             (ChatRoom.heartbeatIntervals st)) with
                  | Some (st4, sent) =>
                      Some (st4, (WsClose connectionId :: ClearInterval interval :: sent)%list)
                  | None => None
                  end
              | S _ =>
                  Some (ChatRoom.mkState (ChatRoom.connections st)
                          (JsMap.set user ids0 (ChatRoom.userConnections st))
                          (ChatRoom.typingUsers st)
                          (ChatRoom.heartbeatIntervals st),
                        [WsClose connectionId; ClearInterval interval])
              end) as Run.
  { intros bc.
    rewrite (removeConnectionWith_registered bc now connectionId st2 server interval
               user (JsSet.add connectionId ids0));
      [|apply get_set_eq|apply get_set_eq|assumption|exact Owner].
    cbn [st2 ChatRoom.connections ChatRoom.userConnections ChatRoom.typingUsers
         ChatRoom.heartbeatIntervals ChatRoom.with_userConnections].
    rewrite set_delete_add_fresh by assumption.
    rewrite !delete_set_fresh by assumption.
    unfold uc2. rewrite delete_set_same, set_set. reflexivity. }
  unfold ChatRoom.removeConnection. rewrite Run. split.
  - intros HU. apply has_in_keys in HU. unfold JsMap.keys in HU. apply in_map_iff in HU.
    destruct HU as ([u ids] & E & HI). simpl in E. subst u.
    pose proof (in_get _ _ _ ND HI) as G.
    assert (ids0 = ids) as -> by (unfold ids0; now rewrite G).
    destruct ids as [|c ids]; [exfalso; now apply (Pop _ _ HI)|].
    cbn [JsSet.size Datatypes.length]. rewrite (set_get_same _ _ _ ND G).
    destruct st; reflexivity.
  - intros HU L.
    assert (JsMap.get user (ChatRoom.userConnections st) = None) as G
      by (apply get_none; now apply has_false_keys).
    assert (ids0 = []) as -> by (unfold ids0; now rewrite G).
    cbn [JsSet.size Datatypes.length].
    rewrite delete_get_none by assumption.
    replace (ChatRoom.mkState (ChatRoom.connections st) (ChatRoom.userConnections st)
               (ChatRoom.typingUsers st) (ChatRoom.heartbeatIntervals st))
      with st by (destruct st; reflexivity).
    unfold ChatRoom.enoughFuel. rewrite broadcast_allLive by assumption. reflexivity.
Qed.

(** *** The sample room is a room *)

Lemma twoUserRoom_populated : populated (ChatRoom.userConnections twoUserRoom).
Proof.
  intros u ids H. vm_compute in H.
  destruct H as [H|[H|[]]]; injection H as <- <-; discriminate.
Qed.

Lemma room_subscribe_then_unregister_witness :
  ChatRoom.removeConnection 5000 "c3"
    (snd (ChatRoom.handleWebSocketUpgrade (upgradeRequest "bob") "c3" openSocket 9
            twoUserRoom))
  = Some (twoUserRoom, [WsClose "c3"; ClearInterval 9]).
Proof.
  refine (proj1 (proj2 (proj2 (proj2
    (room_subscribe_then_unregister (upgradeRequest "bob") "c3" openSocket 9 5000
       twoUserRoom "bob" eq_refl eq_refl
       (RoomSystemFacts.reachable_inv _ twoUserRoom_reachable)
       twoUserRoom_populated _ _ _)))) eq_refl).
  - simpl. intuition discriminate.
  - simpl. intuition discriminate.
  - discriminate.
Defined.

(** *** No user of a room is left without a connection *)

Module RoomPopulated.
Import ChatRoom RoomSystem.

Lemma populated_delete u uc : populated uc -> populated (JsMap.delete u uc).
Proof. intros P u' ids H. apply in_delete in H. eapply P. apply H. Qed.

Lemma populated_set u ids uc :
  populated uc -> ids <> [] -> populated (JsMap.set u ids uc).
Proof.
  intros P N u' ids' H. apply in_set_cases in H.
  destruct H as [[H _]|H]; [eapply P; eauto|]. now injection H as -> ->.
Qed.

Section Nested.
Variable bc : value -> State -> option (State * list Effect).
Variable now : Z.
Hypothesis bc_pop :
  forall message st st' t,
    populated (userConnections st) -> bc message st = Some (st', t) ->
    populated (userConnections st').

Lemma removeConnectionWith_pop connectionId st st' t :
  populated (userConnections st) ->
  removeConnectionWith bc now connectionId st = Some (st', t) ->
  populated (userConnections st').
Proof.
  intros P. unfold removeConnectionWith.
  pose proof (RoomFacts.closeSocket_spec connectionId st) as (_ & C2 & _).
  destruct (closeSocket connectionId st) as [st1 closed]. simpl in *.
  pose proof (RoomFacts.clearHeartbeat_spec connectionId st1) as (_ & H2 & _).
  destruct (clearHeartbeat connectionId st1) as [st2 cleared]. simpl in *.
  assert (userConnections st2 = userConnections st) as EU by congruence.
  destruct (find (owns connectionId) (userConnections st2)) as [[userId ids]|] eqn:F.
  - destruct (JsSet.size (JsSet.delete connectionId ids)) eqn:Sz.
    + destruct (bc _ _) as [[st4 sent]|] eqn:B; [|discriminate].
      intros E. injection E as <- _. eapply bc_pop; [|exact B].
      simpl. rewrite EU. now apply populated_delete.
    + intros E. injection E as <- _. simpl. rewrite EU.
      apply populated_set; [assumption|].
      intros X. unfold JsSet.size in Sz. rewrite X in Sz. discriminate.
  - intros E. injection E as <- _. now rewrite EU.
Qed.

Lemma removeAll_pop ids : forall st st' t,
  populated (userConnections st) ->
  removeAll (removeConnectionWith bc now) ids st = Some (st', t) ->
  populated (userConnections st').
Proof.
  induction ids as [|c ids IH]; intros st st' t P; simpl.
  - intros E. now injection E as <- _.
  - destruct (removeConnectionWith bc now c st) as [[st1 t1]|] eqn:R; [|discriminate].
    destruct (removeAll _ ids st1) as [[st2 t2]|] eqn:A; [|discriminate].
    intros E. injection E as <- _.
    eapply IH; [|exact A]. eapply removeConnectionWith_pop; eauto.
Qed.

End Nested.

Lemma broadcastMessageFuel_pop fuel now : forall message st st' t,
  populated (userConnections st) ->
  broadcastMessageFuel fuel now message st = Some (st', t) ->
  populated (userConnections st').
Proof.
  induction fuel as [|fuel IH]; intros message st st' t P; [discriminate|].
  cbn [broadcastMessageFuel].
  destruct (sendToAll _ _) as [sent dead].
  destruct (removeAll _ dead st) as [[st2 cleanup]|] eqn:A; [|discriminate].
  intros E. injection E as <- _.
  eapply removeAll_pop; [exact IH|exact P|exact A].
Qed.

Lemma subscribe_pop B (request : Request B) connectionId server interval st :
  populated (userConnections st) ->
  populated (userConnections
               (snd (handleWebSocketUpgrade request connectionId server interval st))).
Proof.
  intros P. unfold handleWebSocketUpgrade.
  destruct (negb (is_websocket (upgradeHeader request))); [exact P|].
  destruct (getUserIdFromRequest request) as [user|]; [|exact P].
  cbn [snd setupHeartbeat with_heartbeatIntervals with_userConnections
       with_connections userConnections].
  assert (forall ids uc, populated (JsMap.delete user uc) ->
                         populated (JsMap.set user (JsSet.add connectionId ids) uc)) as Add.
  { intros ids uc Q u ids' H. apply in_set_cases in H. destruct H as [[H N]|H].
    - apply (Q u). apply in_delete. auto.
    - injection H as -> ->. intros X.
      assert (In connectionId (JsSet.add connectionId ids)) as HI
        by (apply set_in_add; now right).
      rewrite X in HI. exact HI. }
  destruct (JsMap.has user (userConnections st)) eqn:HU.
  - destruct (JsMap.get user (userConnections st)) as [ids|]; [|exact P].
    apply Add. now apply populated_delete.
  - rewrite get_set_eq. apply Add. rewrite delete_set_same. now apply populated_delete.
Qed.

Lemma step_pop st st' :
  step st st' -> populated (userConnections st) -> populated (userConnections st').
Proof.
  assert (forall now message s s' t,
            populated (userConnections s) ->
            broadcastMessage now message s = Some (s', t) ->
            populated (userConnections s')) as Bc.
  { intros now message s s' t P E. eapply broadcastMessageFuel_pop; eauto. }
  assert (forall now c s s' t,
            populated (userConnections s) ->
            removeConnection now c s = Some (s', t) ->
            populated (userConnections s')) as Rm.
  { intros now c s s' t P E.
    eapply removeConnectionWith_pop; [|exact P|exact E].
    apply broadcastMessageFuel_pop. }
  intros S P. destruct S.
  - replace st' with (snd (handleWebSocketUpgrade request connectionId server interval st))
      by now rewrite H0.
    now apply subscribe_pop.
  - eapply Rm; eauto.
  - unfold heartbeatTick in H.
    assert (forall x, match removeConnection now connectionId st with
                      | Some (st0, t0) => Some (st0, (t0 ++ [ClearInterval interval])%list)
                      | None => None
                      end = Some x -> populated (userConnections (fst x))) as Expire.
    { intros x E.
      destruct (removeConnection now connectionId st) as [[st0 t0]|] eqn:R;
        [|discriminate].
      injection E as <-. eapply Rm; eauto. }
    destruct (JsMap.get connectionId (connections st)) as [ws|].
    + destruct (is_open ws); [now injection H as <- _|exact (Expire _ H)].
    + exact (Expire _ H).
  - destruct frame; simpl in H.
    + now injection H as <- _.
    + eapply Bc; eauto.
    + unfold handleTypingIndicator in H. eapply Bc; [|exact H]. exact P.
    + now injection H as <- _.
  - eapply Bc; eauto.
  - unfold handleMessageRequest in H.
    destruct (negb _); [now injection H as _ <- _|].
    destruct (json request); [|now injection H as _ <- _].
    destruct (getUserIdFromRequest request); [|now injection H as _ <- _].
    destruct (_ || _); [now injection H as _ <- _|].
    apply RoomProgress.afterBroadcast_keys in H. eapply Bc; eauto.
  - unfold handleTypingRequest in H.
    destruct (negb _); [now injection H as _ <- _|].
    destruct (json request); [|now injection H as _ <- _].
    destruct (getUserIdFromRequest request); [|now injection H as _ <- _].
    apply RoomProgress.afterBroadcast_keys in H. eapply Bc; [|exact H]. exact P.
  - unfold handlePresenceRequest in H.
    destruct (negb _); [now injection H as _ <- _|].
    destruct (json request); [|now injection H as _ <- _].
    destruct (getUserIdFromRequest request); [|now injection H as _ <- _].
    apply RoomProgress.afterBroadcast_keys in H. eapply Bc; eauto.
  - exact P.
Qed.

Lemma reachable_pop st : reachable st -> populated (userConnections st).
Proof.
  induction 1 as [|st st' R IH S]; [intros u ids []|].
  eapply step_pop; eauto.
Qed.

Lemma first_ids_distinct (uc : list (string * list string)) :
  NoDup (JsMap.keys uc) -> populated uc ->
  (forall c u1 ids1 u2 ids2,
      In (u1, ids1) uc -> In (u2, ids2) uc -> In c ids1 -> In c ids2 -> u1 = u2) ->
  NoDup (map (fun e => hd "" (snd e)) uc)
  /\ forall c, In c (map (fun e => hd "" (snd e)) uc) ->
               exists u ids, In (u, ids) uc /\ In c ids.
Proof.
  assert (forall ids : list string, ids <> [] -> In (hd "" ids) ids) as Hd.
  { intros [|c ids] N; [contradiction|now left]. }
  intros ND P J. split.
  - induction uc as [|[u ids] uc IH]; simpl; [constructor|].
    simpl in ND. inversion ND as [|? ? NI ND']; subst.
    constructor.
    + intros HI. apply in_map_iff in HI. destruct HI as ([u' ids'] & E & H').
      simpl in E. apply NI.
      assert (u = u') as ->.
      { apply (J (hd "" ids) u ids u' ids'); [now left|now right| |].
        - apply Hd. apply (P u). now left.
        - rewrite <- E. apply Hd. apply (P u'). now right. }
      eapply in_keys; eauto.
    + apply IH; [assumption| |].
      * intros u' ids' H. apply (P u'). now right.
      * intros c u1 ids1 u2 ids2 H1 H2. apply J; now right.
  - intros c HI. apply in_map_iff in HI. destruct HI as ([u ids] & E & H').
    simpl in E. exists u, ids. split; [assumption|].
    rewrite <- E. apply Hd. eapply P; eauto.
Qed.

End RoomPopulated.

(** X10.  In every state a room can reach, [getState] never reports more
    users than connections, and it reports no user exactly when it
    reports no connection: every user the room lists holds at least one
    registered connection. *)
Theorem state_counts_users_within_connections (st : ChatRoom.State)
  (Reach : RoomSystem.reachable st) :
  let s := ChatRoomQueries.getState st in
  (ChatRoomQueries.userCount s <= ChatRoomQueries.connectionCount s)%nat
  /\ (ChatRoomQueries.userCount s = 0%nat <-> ChatRoomQueries.connectionCount s = 0%nat)
  /\ forall u ids, In (u, ids) (ChatRoom.userConnections st) ->
                   exists c, In c ids /\ In c (JsMap.keys (ChatRoom.connections st)).
Proof.
  intros s. unfold s, ChatRoomQueries.getState, JsMap.size.
  cbn [ChatRoomQueries.userCount ChatRoomQueries.connectionCount
       ChatRoomQueries.typingUserList].
  pose proof (RoomSystemFacts.reachable_inv st Reach) as (ND & J2 & J3).
  pose proof (RoomPopulated.reachable_pop st Reach) as P.
  destruct (RoomPopulated.first_ids_distinct _ ND P J3) as [F1 F2].
  assert (forall u ids, In (u, ids) (ChatRoom.userConnections st) ->
                        exists c, In c ids /\ In c (JsMap.keys (ChatRoom.connections st)))
    as Holds.
  { intros u ids H. destruct ids as [|c rest]; [exfalso; now apply (P u [])|].
    exists c. split; [now left|]. apply J2. exists u, (c :: rest).
    split; [assumption|now left]. }
  split; [|split; [|exact Holds]].
  - rewrite <- (length_map (fun e => hd "" (snd e)) (ChatRoom.userConnections st)).
    rewrite <- (length_map fst (ChatRoom.connections st)).
    apply NoDup_incl_length; [exact F1|].
    intros c HI. apply J2. now apply F2.
  - split; intros Z.
    + destruct (ChatRoom.connections st) as [|[c ws] l] eqn:EC; [reflexivity|].
      exfalso. assert (In c (JsMap.keys ((c, ws) :: l))) as HI by now left.
      apply J2 in HI. destruct HI as (u & ids & H & _).
      apply length_zero_iff_nil in Z. rewrite Z in H. exact H.
    + destruct (ChatRoom.userConnections st) as [|[u ids] l] eqn:EU; [reflexivity|].
      exfalso. destruct (Holds u ids (or_introl eq_refl)) as (c & _ & HI).
      apply length_zero_iff_nil in Z. rewrite Z in HI. exact HI.
Qed.

Lemma state_counts_users_within_connections_witness :
  (ChatRoomQueries.userCount (ChatRoomQueries.getState twoUserRoom)
   <= ChatRoomQueries.connectionCount (ChatRoomQueries.getState twoUserRoom))%nat.
Proof.
  exact (proj1 (state_counts_users_within_connections twoUserRoom twoUserRoom_reachable)).
Defined.

(** *** What a removal leaves behind in the room *)

Lemma keepsLive_keys l l' c :
  RoomSystem.keepsLive l l' -> In c (JsMap.keys l') -> In c (JsMap.keys l).
Proof.
  intros [q [-> _]] H. unfold JsMap.keys in *. apply in_map_iff in H.
  destruct H as (e & <- & He). apply filter_In in He. apply in_map. tauto.
Qed.

Lemma removeConnectionWith_timer bc n now connectionId st st' t :
  RoomSystem.broadcastOk n bc ->
  (length (ChatRoom.userConnections st) <= n)%nat ->
  NoDup (JsMap.keys (ChatRoom.connections st)) ->
  JsMap.get connectionId (ChatRoom.heartbeatIntervals st) <> Some 0 ->
  ChatRoom.removeConnectionWith bc now connectionId st = Some (st', t) ->
  ~ In connectionId (JsMap.keys (ChatRoom.heartbeatIntervals st')).
Proof.
  intros bc_ok Hn ND NZ. unfold ChatRoom.removeConnectionWith.
  pose proof (RoomFacts.closeSocket_spec connectionId st) as (C1 & C2 & C3 & C4).
  destruct (ChatRoom.closeSocket connectionId st) as [st1 closed]. simpl in *.
  pose proof (RoomFacts.clearHeartbeat_spec connectionId st1) as (H1 & H2 & H3).
  pose proof (RoomFacts.clearHeartbeat_timers connectionId st1) as (H4 & H5).
  destruct (ChatRoom.clearHeartbeat connectionId st1) as [st2 cleared]. simpl in *.
  assert (~ In connectionId (JsMap.keys (ChatRoom.heartbeatIntervals st2))) as Gone.
  { rewrite C4 in *.
    destruct (JsMap.get connectionId (ChatRoom.heartbeatIntervals st)) as [i|] eqn:G.
    - apply (H5 i eq_refl). intros ->. now apply NZ.
    - apply get_none in G. intros X. apply G. now apply H4. }
  assert (ChatRoom.connections st2 = JsMap.delete connectionId (ChatRoom.connections st))
    as EC by congruence.
  assert (ChatRoom.userConnections st2 = ChatRoom.userConnections st) as EU by congruence.
  destruct (find (ChatRoom.owns connectionId) (ChatRoom.userConnections st2))
    as [[userId ids]|] eqn:F.
  - apply RoomFacts.find_owner in F. destruct F as [F1 F2].
    destruct (JsSet.size (JsSet.delete connectionId ids)) eqn:Sz.
    + set (st3 := ChatRoom.with_userConnections st2
                    (JsMap.delete userId (ChatRoom.userConnections st2))).
      destruct (bc_ok (ChatRoom.presenceEvent userId "offline" now) st3)
        as (st4 & t4 & B1 & _ & _ & _ & [_ B5] & _).
      * unfold st3. simpl. rewrite <- EU in Hn.
        pose proof (length_delete_lt _ _ _ F1). lia.
      * unfold st3. simpl. rewrite EC. now apply nodup_keys_delete.
      * fold st3. rewrite B1. intros E. injection E as <- _.
        intros X. apply Gone. apply B5 in X. exact X.
    + intros E. injection E as <- _. exact Gone.
  - intros E. injection E as <- _. exact Gone.
Qed.

Lemma removeConnection_of_stranger now connectionId st :
  ~ In connectionId (JsMap.keys (ChatRoom.connections st)) ->
  ~ In connectionId (JsMap.keys (ChatRoom.heartbeatIntervals st)) ->
  (forall u ids, In (u, ids) (ChatRoom.userConnections st) -> ~ In connectionId ids) ->
  ChatRoom.removeConnection now connectionId st = Some (st, []).
Proof.
  intros N1 N2 N3. unfold ChatRoom.removeConnection, ChatRoom.removeConnectionWith,
    ChatRoom.closeSocket, ChatRoom.clearHeartbeat.
  apply get_none in N1, N2. rewrite N1, N2.
  destruct (find (ChatRoom.owns connectionId) (ChatRoom.userConnections st))
    as [[u ids]|] eqn:F; [|reflexivity].
  apply RoomFacts.find_owner in F. exfalso. eapply N3; apply F.
Qed.

(** X11.  The room runs [removeConnection] from the close listener, the
    error listener, the heartbeat and the broadcast clean-up.  In every
    state a room can reach, a removal leaves the connection in none of the
    three maps (its timer is cleared unless it was stored as 0), and a
    second removal of the same connection returns the same state with no
    effect at all: nobody is closed, nothing is broadcast. *)
Theorem room_unregister_twice_is_once
  (now later : Z) (connectionId : string) (st : ChatRoom.State)
  (Reach : RoomSystem.reachable st)
  (Timer : JsMap.get connectionId (ChatRoom.heartbeatIntervals st) <> Some 0) :
  exists st' t,
    ChatRoom.removeConnection now connectionId st = Some (st', t)
    /\ ~ In connectionId (JsMap.keys (ChatRoom.connections st'))
    /\ (forall u ids, In (u, ids) (ChatRoom.userConnections st') ->
                      ~ In connectionId ids)
    /\ ~ In connectionId (JsMap.keys (ChatRoom.heartbeatIntervals st'))
    /\ ChatRoom.removeConnection later connectionId st' = Some (st', []).
Proof.
  pose proof (RoomProgress.reachable_distinct_keys st Reach) as ND.
  pose proof (RoomSystemFacts.reachable_inv st Reach) as Inv.
  destruct (RoomProgress.removeConnection_total now connectionId st ND)
    as (st' & t & E & K).
  exists st', t. split; [exact E|].
  assert (~ In connectionId (JsMap.keys (ChatRoom.connections st'))) as N1.
  { intros X. apply (keepsLive_keys _ _ _ K) in X. apply keys_delete in X. tauto. }
  assert (forall u ids, In (u, ids) (ChatRoom.userConnections st') ->
                        ~ In connectionId ids) as N3.
  { pose proof (RoomSystemFacts.removeConnection_inv _ _ _ _ _ Inv E) as (_ & J2 & _).
    intros u ids H Hc. apply N1. apply J2. eauto. }
  assert (~ In connectionId (JsMap.keys (ChatRoom.heartbeatIntervals st'))) as N2.
  { eapply (removeConnectionWith_timer _ (ChatRoom.enoughFuel st));
      [apply RoomFacts.broadcastMessageFuel_ok| |exact ND|exact Timer|exact E].
    unfold ChatRoom.enoughFuel. lia. }
  repeat (split; [assumption|]).
  now apply removeConnection_of_stranger.
Qed.

Lemma room_unregister_twice_is_once_witness :
  exists st' t,
    ChatRoom.removeConnection 5000 "c2" twoUserRoom = Some (st', t)
    /\ ChatRoom.removeConnection 6000 "c2" st' = Some (st', []).
Proof.
  destruct (room_unregister_twice_is_once 5000 6000 "c2" twoUserRoom
              twoUserRoom_reachable ltac:(discriminate))
    as (st' & t & E & _ & _ & _ & Again).
  exists st', t. split; assumption.
Defined.

(** X12.  Removing a connection whose user holds another one is silent:
    the socket is closed and its timer cleared, the user keeps the
    remaining ids, and nothing is sent or broadcast to anybody; the user
    is not announced offline. *)
Theorem removal_with_other_connections_is_silent
  (now : Z) (connectionId : string) (st : ChatRoom.State)
  (user : string) (ids : list string)
  (Owner : find (ChatRoom.owns connectionId) (ChatRoom.userConnections st)
           = Some (user, ids))
  (More : JsSet.delete connectionId ids <> []) :
  exists st' t,
    ChatRoom.removeConnection now connectionId st = Some (st', t)
    /\ ChatRoom.connections st' = JsMap.delete connectionId (ChatRoom.connections st)
    /\ ChatRoom.userConnections st'
       = JsMap.set user (JsSet.delete connectionId ids) (ChatRoom.userConnections st)
    /\ JsMap.get user (ChatRoom.userConnections st')
       = Some (JsSet.delete connectionId ids)
    /\ ChatRoom.typingUsers st' = ChatRoom.typingUsers st
    /\ broadcasts t = [] /\ sendTargets t = [].
Proof.
  unfold ChatRoom.removeConnection, ChatRoom.removeConnectionWith.
  pose proof (RoomFacts.closeSocket_spec connectionId st) as (C1 & C2 & C3 & C4).
  pose proof (RoomFacts.closeSocket_trace connectionId st) as (_ & T1 & T2).
  destruct (ChatRoom.closeSocket connectionId st) as [st1 closed]. cbn [fst snd] in *.
  pose proof (RoomFacts.clearHeartbeat_spec connectionId st1) as (H1 & H2 & H3).
  pose proof (RoomFacts.clearHeartbeat_trace connectionId st1) as (_ & T3 & T4).
  destruct (ChatRoom.clearHeartbeat connectionId st1) as [st2 cleared]. cbn [fst snd] in *.
  rewrite H2, C2, Owner.
  destruct (JsSet.size (JsSet.delete connectionId ids)) eqn:Sz.
  { exfalso. apply More. unfold JsSet.size in Sz. now apply length_zero_iff_nil. }
  eexists _, _. split; [reflexivity|].
  cbn [ChatRoom.with_userConnections ChatRoom.connections ChatRoom.userConnections
       ChatRoom.typingUsers].
  split; [congruence|]. split; [reflexivity|]. split; [apply get_set_eq|].
  split; [congruence|].
  rewrite PresenceFacts.broadcasts_app, PresenceFacts.sendTargets_app, T1, T2, T3, T4.
  split; reflexivity.
Qed.

Lemma removal_with_other_connections_is_silent_witness :
  exists st' t,
    ChatRoom.removeConnection 5000 "c1" sampleRoom = Some (st', t)
    /\ JsMap.get "alice" (ChatRoom.userConnections st') = Some ["c2"]
    /\ broadcasts t = [] /\ sendTargets t = [].
Proof.
  destruct (removal_with_other_connections_is_silent 5000 "c1" sampleRoom "alice"
              ["c1"; "c2"] eq_refl ltac:(discriminate))
    as (st' & t & E & _ & _ & G & _ & B & S).
  exists st', t. repeat split; assumption.
Defined.

(** *** Who is listed as typing in a room *)

(** X13.  The room's typing list changes only by typing signals.  In
    a reachable room every event is handled, and an event that carries a
    typing signal of a user,
    a typing frame or an accepted typing request, puts that user on the
    list when the flag is set and takes them off when it is not; every
    other event, a subscription, a closed socket, a heartbeat tick, any
    other frame, a message or presence request, a refused typing
    request, leaves the list as it was.  So a listed user stays listed
    until their own stop signal is handled, and the removal of their
    connections, the last one included, does not take them off the list
    that [getState] reports. *)
Theorem typing_user_leaves_only_by_own_stop
  (user : string) (e : RoomEvents.Event) (st : ChatRoom.State)
  (Reach : RoomSystem.reachable st) :
  exists st',
    RoomEvents.handle e st = Some st'
    /\ ChatRoom.typingUsers st'
       = match RoomEvents.typingSignal e with
         | Some (signaller, true) => JsSet.add signaller (ChatRoom.typingUsers st)
         | Some (signaller, false) => JsSet.delete signaller (ChatRoom.typingUsers st)
         | None => ChatRoom.typingUsers st
         end
    /\ (In user (ChatRoom.typingUsers st) ->
        RoomEvents.typingSignal e <> Some (user, false) ->
        In user (ChatRoom.typingUsers st'))
    /\ (RoomEvents.typingSignal e = Some (user, false) ->
        ~ In user (ChatRoom.typingUsers st'))
    /\ (forall now connectionId,
          e = RoomEvents.SocketClosed now connectionId ->
          ChatRoomQueries.typingUserList (ChatRoomQueries.getState st')
          = ChatRoomQueries.typingUserList (ChatRoomQueries.getState st)).
Proof.
  pose proof (RoomProgress.reachable_distinct_keys st Reach) as ND.
  destruct (event_handled e st ND) as [st' Run].
  pose proof (event_typing e st st' ND Run) as T.
  unfold RoomEvents.afterSignal in T.
  exists st'. split; [exact Run|].
  split; [exact T|]. split; [|split].
  - intros Listed Other. rewrite T.
    destruct (RoomEvents.typingSignal e) as [[u []]|]; [| |exact Listed].
    + apply set_in_add. now left.
    + apply set_in_delete. split; [exact Listed|].
      intros X. apply Other. now rewrite X.
  - intros Stop. rewrite T, Stop. intros X. apply set_in_delete in X.
    destruct X as [_ X]. now apply X.
  - intros now connectionId E. subst e. cbn in T. cbn. exact T.
Qed.

Lemma aliceTypingInRoom_reachable : RoomSystem.reachable aliceTypingInRoom.
Proof.
  unfold aliceTypingInRoom.
  destruct (ChatRoom.handleTypingRequest (roomTypingRequest "alice" true) 1000 twoUserRoom)
    as [[[r s] t]|] eqn:E; [|apply twoUserRoom_reachable].
  eapply RoomSystem.reach_step; [apply twoUserRoom_reachable|].
  eapply RoomSystem.step_typing. exact E.
Qed.

Lemma typing_user_leaves_only_by_own_stop_witness :
  exists st1,
    RoomEvents.handle (RoomEvents.SocketClosed 5000 "c1") aliceTypingInRoom = Some st1
    /\ ChatRoom.typingUsers aliceTypingInRoom = ["alice"]
    /\ In "alice" (ChatRoom.typingUsers st1).
Proof.
  destruct (typing_user_leaves_only_by_own_stop "alice"
              (RoomEvents.SocketClosed 5000 "c1") aliceTypingInRoom
              aliceTypingInRoom_reachable) as (st1 & Run & _ & Stays & _).
  exists st1. split; [exact Run|]. split; [reflexivity|].
  apply Stays.
  - vm_compute. now left.
  - discriminate.
Defined.

(** *** The message route *)



(** X15.  A broadcast leaves only subscribers that took the frame, so a
    broadcast that follows at once finds nobody to remove: in both
    objects it changes nothing, closes no socket, and every frame it
    writes is handed over. *)
Theorem second_broadcast_prunes_nobody
  (first second : value) (now : Z) (pst : Presence.State) (rst : ChatRoom.State)
  (HP : NoDup (JsMap.keys (Presence.presenceSubscribers pst)))
  (HR : NoDup (JsMap.keys (ChatRoom.connections rst))) :
  (let pst1 := fst (Presence.broadcastPresenceUpdate first pst) in
   allLive (Presence.presenceSubscribers pst1)
   /\ Presence.broadcastPresenceUpdate second pst1
      = (pst1, (Bcast second
                :: map (fun e => WsSend (fst e) (stringify second) true)
                       (Presence.presenceSubscribers pst1))%list))
  /\ (exists rst1 t,
        ChatRoom.broadcastMessage now first rst = Some (rst1, t)
        /\ allLive (ChatRoom.connections rst1)
        /\ ChatRoom.broadcastMessage now second rst1
           = Some (rst1, (Bcast second
                          :: map (fun e => WsSend (fst e) (stringify second) true)
                                 (ChatRoom.connections rst1))%list)).
Proof.
  assert (forall msg l, allLive l ->
            sendsTo msg l = map (fun e => WsSend (fst e) msg true) l) as Sends.
  { intros msg l L. unfold sendsTo. induction l as [|e l IH]; [reflexivity|].
    assert (live e = true) as Le by (apply L; now left).
    unfold live, deliverable in Le. apply andb_true_iff in Le. destruct Le as [O T].
    simpl. rewrite O. simpl. rewrite T. f_equal. apply IH.
    intros x Hx. apply L. now right. }
  split.
  - intros pst1.
    destruct (PresenceFacts.broadcast_spec first pst HP)
      as (st' & cleanup & E & _ & _ & _ & Subs & _).
    assert (allLive (Presence.presenceSubscribers pst1)) as L.
    { unfold pst1. rewrite E. cbn [fst]. rewrite Subs. apply allLive_filter. }
    split; [exact L|].
    unfold Presence.broadcastPresenceUpdate at 1.
    rewrite sendToAll_spec, (deadIds_allLive _ L). cbn [Presence.removeAll].
    now rewrite app_nil_r, Sends.
  - destruct (RoomProgress.broadcastMessage_total now first rst HR) as (rst1 & t & E & C).
    exists rst1, t. split; [exact E|].
    assert (allLive (ChatRoom.connections rst1)) as L
      by (rewrite C; apply allLive_filter).
    split; [exact L|].
    unfold ChatRoom.broadcastMessage, ChatRoom.enoughFuel.
    now rewrite broadcast_allLive, Sends.
Qed.

Lemma second_broadcast_prunes_nobody_witness :
  Presence.broadcastPresenceUpdate sampleEvent
    (fst (Presence.broadcastPresenceUpdate sampleEvent samplePresence))
  = (fst (Presence.broadcastPresenceUpdate sampleEvent samplePresence),
     (Bcast sampleEvent
      :: map (fun e => WsSend (fst e) (stringify sampleEvent) true)
             (Presence.presenceSubscribers
                (fst (Presence.broadcastPresenceUpdate sampleEvent samplePresence))))%list).
Proof.
  refine (proj2 (proj1
    (second_broadcast_prunes_nobody sampleEvent sampleEvent 1000 samplePresence
       sampleRoom _ _))); simpl; distinct_strings.
Defined.

(** *** Keys of the typing map *)

Lemma string_append_assoc (a b c : string) : ((a ++ b) ++ c = a ++ (b ++ c))%string.
Proof. induction a as [|x a IH]; simpl; [reflexivity|]. now rewrite IH. Qed.

Lemma string_length_append (a b : string) :
  String.length (a ++ b) = (String.length a + String.length b)%nat.
Proof. induction a as [|x a IH]; simpl; [reflexivity|]. now rewrite IH. Qed.

Lemma colon_chat_differs (b c : string) : (b ++ ":" ++ c)%string <> c.
Proof.
  intros E. apply (f_equal String.length) in E.
  rewrite !string_length_append in E. simpl in E. lia.
Qed.

(** X16.  The key of the typing map joins user and chat with a colon,
    so the user a:b in chat c and the user a in chat b:c share one key.
    When a starts typing in b:c, an indicator of a:b in c is overwritten:
    a:b is no longer listed for c, although no typing stop was announced
    for them. *)
Theorem typing_keys_collide
  (request : Request Presence.TypingData) (a b c : string) (now : Z)
  (st : Presence.State)
  (Keyed : wfTyping st)
  (Post : method request = "POST")
  (Body : json request = Some (Presence.mkTypingData (b ++ ":" ++ c) true))
  (Caller : getUserIdFromRequest request = Some a) :
  let victim := (a ++ ":" ++ b)%string in
  let r := Presence.handleTypingRequest request now st in
  Presence.typingKey victim c = Presence.typingKey a (b ++ ":" ++ c)
  /\ JsMap.get (Presence.typingKey victim c) (Presence.typingIndicators (stateOf r))
     = Some (Presence.mkTypingIndicator a (b ++ ":" ++ c) now)
  /\ (forall i, In i (Presence.getTypingIndicators c (stateOf r)) ->
                Presence.typingUserId i <> victim)
  /\ count (isTypingStopFor victim c) (broadcasts (effectsOf r)) = 0%nat.
Proof.
  intros victim r. destruct Keyed as [ND K].
  assert (Presence.typingKey victim c = Presence.typingKey a (b ++ ":" ++ c)) as EK.
  { unfold Presence.typingKey, victim. now rewrite string_append_assoc. }
  set (ind := Presence.mkTypingIndicator a (b ++ ":" ++ c) now).
  assert (Presence.typingIndicators (stateOf r)
          = JsMap.set (Presence.typingKey a (b ++ ":" ++ c)) ind
              (Presence.typingIndicators st)
          /\ broadcasts (effectsOf r) = [Presence.typingStartEvent ind]) as [TI BC].
  { unfold r, Presence.handleTypingRequest.
    rewrite Post, String.eqb_refl, Body, Caller.
    cbn [negb Presence.reqIsTyping Presence.reqChatId]. fold ind.
    set (st2 := Presence.markTyping a true _ _).
    pose proof (presence_broadcast_frame (Presence.typingStartEvent ind) st2)
      as (_ & F2 & F3).
    destruct (Presence.broadcastPresenceUpdate _ st2) as [st3 sent].
    unfold stateOf, effectsOf. cbn [fst snd] in *. split; [|exact F3].
    rewrite F2. unfold st2. rewrite markTyping_typing. reflexivity. }
  split; [exact EK|]. split; [rewrite TI, EK; apply get_set_eq|]. split.
  - intros i HI EU. unfold Presence.getTypingIndicators in HI.
    apply filter_In in HI. destruct HI as [HI C]. apply String.eqb_eq in C.
    unfold JsMap.values in HI. apply in_map_iff in HI. destruct HI as ([k j] & EJ & HJ).
    simpl in EJ. subst j. rewrite TI in HJ. apply in_set_cases in HJ.
    destruct HJ as [[HIn NE]|E].
    + apply NE. simpl. rewrite (K k i HIn), EU, C. exact EK.
    + injection E as _ ->. simpl in C. now apply colon_chat_differs in C.
  - rewrite BC. reflexivity.
Qed.

Lemma typing_keys_collide_witness :
  let before := stateOf (Presence.handleTypingRequest
                           (typingRequest "alice:x" "room-1" true) 1000
                           Presence.initial) in
  let after := stateOf (Presence.handleTypingRequest
                          (typingRequest "alice" "x:room-1" true) 2000 before) in
  Presence.getTypingIndicators "room-1" before
  = [Presence.mkTypingIndicator "alice:x" "room-1" 1000]
  /\ forall i, In i (Presence.getTypingIndicators "room-1" after) ->
               Presence.typingUserId i <> "alice:x".
Proof.
  intros before after. split; [reflexivity|].
  refine (proj1 (proj2 (proj2
    (typing_keys_collide (typingRequest "alice" "x:room-1" true) "alice" "x" "room-1"
       2000 before _ eq_refl eq_refl eq_refl)))).
  split.
  - vm_compute. distinct_strings.
  - intros k i H. vm_compute in H. destruct H as [H|[]].
    injection H as <- <-. reflexivity.
Defined.

(** X17.  The heartbeat looks at the transport state only.  A tick for a
    registered socket that reports OPEN writes one ping and changes
    nothing, also when the write throws, so the heartbeat never removes
    such a socket.  A tick for a registered socket in any other state
    unregisters the connection: the presence object does so without
    sending or broadcasting anything, and in a reachable room the id is
    afterwards in no map of the registry. *)
Theorem heartbeat_removes_only_closed_sockets
  (connectionId : string) (interval now : Z) (pws rws : WebSocket)
  (pst : Presence.State) (rst : ChatRoom.State)
  (Reach : RoomSystem.reachable rst)
  (PS : JsMap.get connectionId (Presence.presenceSubscribers pst) = Some pws)
  (RS : JsMap.get connectionId (ChatRoom.connections rst) = Some rws) :
  (readyState pws = OPEN ->
   Presence.heartbeatTick connectionId interval pst
   = (pst, [WsSend connectionId Presence.pingFrame (negb (sendThrows pws))]))
  /\ (readyState rws = OPEN ->
      ChatRoom.heartbeatTick now connectionId interval rst
      = Some (rst, [WsSend connectionId ChatRoom.pingFrame (negb (sendThrows rws))]))
  /\ (readyState pws <> OPEN ->
      let r := Presence.heartbeatTick connectionId interval pst in
      JsMap.get connectionId (Presence.presenceSubscribers (fst r)) = None
      /\ Presence.userPresence (fst r) = Presence.userPresence pst
      /\ Presence.typingIndicators (fst r) = Presence.typingIndicators pst
      /\ sendTargets (snd r) = [] /\ broadcasts (snd r) = []
      /\ In (WsClose connectionId) (snd r) /\ In (ClearInterval interval) (snd r))
  /\ (readyState rws <> OPEN ->
      exists rst' t,
        ChatRoom.heartbeatTick now connectionId interval rst = Some (rst', t)
        /\ ~ In connectionId (JsMap.keys (ChatRoom.connections rst'))
        /\ (forall u ids, In (u, ids) (ChatRoom.userConnections rst') ->
                          ~ In connectionId ids)
        /\ ChatRoom.typingUsers rst' = ChatRoom.typingUsers rst
        /\ In (WsClose connectionId) t /\ In (ClearInterval interval) t).
Proof.
  split; [|split; [|split]].
  - intros O. unfold Presence.heartbeatTick. rewrite PS. unfold is_open. now rewrite O.
  - intros O. unfold ChatRoom.heartbeatTick. rewrite RS. unfold is_open. now rewrite O.
  - intros N r.
    assert (r = (fst (Presence.removePresenceSubscriber connectionId pst),
                 (snd (Presence.removePresenceSubscriber connectionId pst)
                  ++ [ClearInterval interval])%list)) as Er.
    { unfold r, Presence.heartbeatTick. rewrite PS. unfold is_open.
      destruct (readyState pws); try contradiction;
        destruct (Presence.removePresenceSubscriber connectionId pst); reflexivity. }
    rewrite Er. cbn [fst snd].
    pose proof (PresenceFacts.remove_subscribers connectionId pst) as S1.
    pose proof (PresenceFacts.remove_frame connectionId pst) as (F1 & F2).
    pose proof (PresenceFacts.remove_silent connectionId pst) as (Q1 & Q2).
    split; [rewrite S1; apply get_delete_same|].
    split; [exact F1|]. split; [exact F2|].
    split; [rewrite PresenceFacts.sendTargets_app, Q1; reflexivity|].
    split; [rewrite PresenceFacts.broadcasts_app, Q2; reflexivity|].
    split; [|apply in_or_app; right; now left].
    apply in_or_app. left. unfold Presence.removePresenceSubscriber. rewrite PS.
    cbn [Presence.heartbeatIntervals Presence.with_presenceSubscribers].
    destruct (JsMap.get connectionId (Presence.heartbeatIntervals pst)) as [i|];
      [destruct (i =? 0)|]; cbn [snd]; now left.
  - intros N.
    pose proof (RoomProgress.reachable_distinct_keys rst Reach) as ND.
    pose proof (RoomSystemFacts.reachable_inv rst Reach) as Inv.
    destruct (RoomProgress.removeConnection_total now connectionId rst ND)
      as (rst' & t & E & K).
    exists rst', (t ++ [ClearInterval interval])%list.
    split.
    { unfold ChatRoom.heartbeatTick. rewrite RS, E. unfold is_open.
      destruct (readyState rws); try contradiction; reflexivity. }
    assert (~ In connectionId (JsMap.keys (ChatRoom.connections rst'))) as N1.
    { intros X. apply (keepsLive_keys _ _ _ K) in X. apply keys_delete in X. tauto. }
    split; [exact N1|]. split.
    { pose proof (RoomSystemFacts.removeConnection_inv _ _ _ _ _ Inv E) as (_ & J2 & _).
      intros u ids H Hc. apply N1. apply J2. eauto. }
    split; [eapply removeConnection_typing; eauto|].
    split; [|apply in_or_app; right; now left].
    apply in_or_app. left.
    unfold ChatRoom.removeConnection, ChatRoom.removeConnectionWith,
      ChatRoom.closeSocket in E. rewrite RS in E.
    destruct (ChatRoom.clearHeartbeat connectionId _) as [st2 cleared].
    destruct (find _ _) as [[u ids]|].
    + destruct (JsSet.size _).
      * destruct (ChatRoom.broadcastMessageFuel _ _ _ _) as [[st4 sent]|]; [|discriminate].
        injection E as _ <-. now left.
      * injection E as _ <-. now left.
    + injection E as _ <-. now left.
Qed.

Lemma heartbeat_removes_only_closed_sockets_witness :
  JsMap.get "c2"
    (Presence.presenceSubscribers (fst (Presence.heartbeatTick "c2" 12 samplePresence)))
  = None
  /\ exists rst' t,
       ChatRoom.heartbeatTick 5000 "c2" 12
         (ChatRoom.with_connections twoUserRoom
            (JsMap.set "c2" closedSocket (ChatRoom.connections twoUserRoom)))
       = Some (rst', t)
       /\ ~ In "c2" (JsMap.keys (ChatRoom.connections rst')).
Proof.
  assert (RoomSystem.reachable
            (ChatRoom.with_connections twoUserRoom
               (JsMap.set "c2" closedSocket (ChatRoom.connections twoUserRoom)))) as R.
  { eapply RoomSystem.reach_step; [apply twoUserRoom_reachable|].
    apply RoomSystem.step_transport. simpl. auto. }
  destruct (heartbeat_removes_only_closed_sockets "c2" 12 5000 closedSocket closedSocket
              samplePresence _ R eq_refl eq_refl)
    as (_ & _ & P & Q).
  split; [exact (proj1 (P ltac:(discriminate)))|].
  destruct (Q ltac:(discriminate)) as (rst' & t & E & N & _).
  exists rst', t. split; assumption.
Defined.

(** *** The users the presence object knows *)

Lemma markTyping_keys user typing chat st :
  JsMap.keys (Presence.userPresence (Presence.markTyping user typing chat st))
  = JsMap.keys (Presence.userPresence st).
Proof.
  unfold Presence.markTyping.
  destruct (JsMap.get user (Presence.userPresence st)) as [p|] eqn:G; [|reflexivity].
  cbn [Presence.with_userPresence Presence.userPresence].
  apply keys_set_present. apply has_in_keys. eapply in_keys. eapply get_in. exact G.
Qed.

Lemma expireAll_keys now keys : forall st,
  JsMap.keys (Presence.userPresence (fst (Presence.expireAll now keys st)))
  = JsMap.keys (Presence.userPresence st).
Proof.
  induction keys as [|k keys IH]; intros st; simpl; [reflexivity|].
  pose proof (SweepFacts.expireKey_spec now k st) as (_ & _ & E3).
  destruct (Presence.expireKey now k st) as [st1 t1]. cbn [fst] in E3.
  specialize (IH st1). destruct (Presence.expireAll now keys st1) as [st2 t2].
  cbn [fst] in *. rewrite IH, E3.
  destruct (JsMap.get k (Presence.typingIndicators st)); [apply markTyping_keys|reflexivity].
Qed.

Lemma demoteMap_keys f entries : forall m,
  incl (JsMap.keys m) (JsMap.keys (demoteMap f entries m)).
Proof.
  unfold demoteMap. induction entries as [|e entries IH]; intros m; [apply incl_refl|].
  simpl. eapply incl_tran; [|apply IH].
  destruct (stale f e); [|apply incl_refl].
  intros k H. apply RegistryFacts.in_keys_set. now left.
Qed.

(** X18.  The presence object never forgets a user.  Whatever happens to
    it, a subscription, a removal, a heartbeat, a presence or typing
    request of anybody, a run of the alarm, every user with a presence
    record still has one afterwards; so a user who was once announced is
    never again reported by the status request as the unknown user is. *)
Theorem known_users_are_never_forgotten
  (st st' : Presence.State) (user : string)
  (Step : PresenceSystem.step st st')
  (Known : In user (JsMap.keys (Presence.userPresence st))) :
  In user (JsMap.keys (Presence.userPresence st'))
  /\ exists p, Presence.getUserPresence user st' = Some p
               /\ forall (B : Type) (query : Request B),
                    getUserIdFromRequest query = Some user ->
                    Presence.handleStatusRequest query st'
                    = (Returned (jsonResponse (Presence.presenceJson p)), st', []).
Proof.
  assert (In user (JsMap.keys (Presence.userPresence st'))) as K.
  { destruct Step.
    - unfold Presence.handleWebSocketUpgrade.
      destruct (negb (is_websocket (upgradeHeader request))); [exact Known|].
      destruct (Presence.sendCurrentPresenceState _ _ _ _) as [sent []]; exact Known.
    - now rewrite (proj1 (PresenceFacts.remove_frame connectionId st)).
    - unfold Presence.heartbeatTick.
      pose proof (proj1 (PresenceFacts.remove_frame connectionId st)) as F.
      destruct (Presence.removePresenceSubscriber connectionId st) as [s t].
      cbn [fst] in F.
      destruct (JsMap.get connectionId (Presence.presenceSubscribers st)) as [ws|];
        [destruct (is_open ws)|]; cbn [fst]; rewrite ?F; exact Known.
    - unfold Presence.handlePresenceRequest.
      destruct (negb _); [exact Known|].
      destruct (json request) as [d|]; [|exact Known].
      destruct (getUserIdFromRequest request) as [u|]; [|exact Known].
      match goal with |- context [Presence.broadcastPresenceUpdate ?e ?s] =>
        pose proof (presence_broadcast_frame e s) as (F1 & _);
        destruct (Presence.broadcastPresenceUpdate e s) as [st2 sent] end.
      cbn [fst snd] in *. rewrite F1. cbn [Presence.with_userPresence Presence.userPresence].
      apply RegistryFacts.in_keys_set. now left.
    - unfold Presence.handleTypingRequest.
      destruct (negb _); [exact Known|].
      destruct (json request) as [d|]; [|exact Known].
      destruct (getUserIdFromRequest request) as [u|]; [|exact Known].
      destruct (Presence.reqIsTyping d);
        match goal with |- context [Presence.broadcastPresenceUpdate ?e ?s] =>
          pose proof (presence_broadcast_frame e s) as (F1 & _);
          destruct (Presence.broadcastPresenceUpdate e s) as [st2 sent] end;
        cbn [fst snd] in *; rewrite F1, markTyping_keys; exact Known.
    - unfold Presence.alarm, Presence.cleanupExpiredTypingIndicators.
      pose proof (expireAll_keys now (Presence.expiredKeys now st) st) as E.
      destruct (Presence.expireAll now (Presence.expiredKeys now st) st) as [st1 t1].
      cbn [fst] in E.
      pose proof (AlarmFacts.demoteStale_spec (now' - 300000)
                    (Presence.userPresence st1) st1) as (D1 & _).
      destruct (Presence.demoteStale _ _ st1) as [st2 t2]. cbn [fst] in *.
      rewrite D1. apply demoteMap_keys. now rewrite E.
    - exact Known. }
  split; [exact K|].
  destruct (JsMap.get user (Presence.userPresence st')) as [p|] eqn:G.
  - exists p. unfold Presence.getUserPresence. split; [exact G|].
    intros B query Q. unfold Presence.handleStatusRequest. now rewrite Q, G.
  - apply get_none in G. contradiction.
Qed.

Lemma known_users_are_never_forgotten_witness :
  In "alice"
     (JsMap.keys (Presence.userPresence (fst (Presence.alarm 400000 400000 aliceOnline)))).
Proof.
  refine (proj1 (known_users_are_never_forgotten aliceOnline _ "alice"
                   (PresenceSystem.step_alarm 400000 400000 aliceOnline) _)).
  simpl. now left.
Defined.

(** *** Typing and presence records *)

(** X19.  A typing request never creates a presence record.  When a
    caller without a record starts typing, the indicator is stored and
    listed for the chat, but the presence map is left as it was, and a
    status request for the caller still gets the answer for an unknown
    user. *)
Theorem typing_of_unknown_user_creates_no_record
  {B : Type} (request : Request Presence.TypingData) (query : Request B)
  (user chat : string) (now : Z) (st : Presence.State)
  (Post : method request = "POST")
  (Body : json request = Some (Presence.mkTypingData chat true))
  (Caller : getUserIdFromRequest request = Some user)
  (Same : getUserIdFromRequest query = Some user)
  (Unknown : Presence.getUserPresence user st = None) :
  let r := Presence.handleTypingRequest request now st in
  fst (fst r) = Returned successResponse
  /\ Presence.userPresence (stateOf r) = Presence.userPresence st
  /\ In (Presence.mkTypingIndicator user chat now)
        (Presence.getTypingIndicators chat (stateOf r))
  /\ Presence.handleStatusRequest query (stateOf r)
     = (Returned (jsonResponse (JObj [("status", JStr "offline")])), stateOf r, []).
Proof.
  intros r. destruct (typing_start_spec request user chat now st Post Body Caller)
    as (R1 & R2 & R3). fold r in R1, R2, R3.
  assert (Presence.userPresence (stateOf r) = Presence.userPresence st) as UP.
  { rewrite R3. unfold Presence.markTyping.
    unfold Presence.getUserPresence in Unknown. now rewrite Unknown. }
  split; [exact R1|]. split; [exact UP|]. split.
  - apply (listed_indicator (Presence.typingKey user chat)
             (Presence.mkTypingIndicator user chat now)).
    rewrite R2. apply in_set_new.
  - unfold Presence.handleStatusRequest. rewrite Same, UP.
    unfold Presence.getUserPresence in Unknown. now rewrite Unknown.
Qed.

Lemma typing_of_unknown_user_creates_no_record_witness :
  Presence.userPresence aliceTyping = []
  /\ In aliceIndicator (Presence.getTypingIndicators "room-1" aliceTyping).
Proof.
  destruct (typing_of_unknown_user_creates_no_record
              (typingRequest "alice" "room-1" true) (upgradeRequest "alice")
              "alice" "room-1" 1000 Presence.initial eq_refl eq_refl eq_refl eq_refl
              eq_refl) as (_ & UP & Listed & _).
  split; [exact UP|exact Listed].
Defined.

Lemma alarm_record now now' st user p :
  wfPresence (Presence.userPresence st) ->
  In (user, p) (Presence.userPresence st) ->
  exists p1,
    (p1 = p \/ p1 = clearTyping p)
    /\ JsMap.get user (Presence.userPresence (fst (Presence.alarm now now' st)))
       = Some (if stale (now' - 300000) (user, p) then demote p1 else p1).
Proof.
  intros [ND Keyed] Known.
  unfold Presence.alarm, Presence.cleanupExpiredTypingIndicators.
  destruct (AlarmFacts.expireAll_presence now (Presence.expiredKeys now st) st ND)
    as (us & U1 & _).
  destruct (Presence.expireAll now (Presence.expiredKeys now st) st) as [st1 t1].
  cbn [fst snd] in U1.
  pose proof (AlarmFacts.demoteStale_spec (now' - 300000)
                (Presence.userPresence st1) st1) as (D1 & _ & _).
  destruct (Presence.demoteStale (now' - 300000) (Presence.userPresence st1) st1)
    as [st2 t2].
  cbn [fst snd] in *.
  set (f := now' - 300000) in *.
  set (p1 := snd (clearIf us (user, p))).
  assert (In (user, p1) (Presence.userPresence st1)) as In1.
  { rewrite U1. apply in_map_iff. exists (user, p). split; [|assumption].
    unfold p1, clearIf. simpl. destruct (existsb _ us); reflexivity. }
  assert (NoDup (JsMap.keys (Presence.userPresence st1))) as ND1
    by (rewrite U1, AlarmFacts.keys_clearIf; assumption).
  assert (stale f (user, p1) = stale f (user, p)) as S1.
  { unfold p1, clearIf. simpl. destruct (existsb _ us); reflexivity. }
  exists p1. split.
  - unfold p1, clearIf. simpl. destruct (existsb _ us); auto.
  - rewrite D1, <- S1. apply AlarmFacts.get_demoteMap; auto. now apply in_get.
Qed.

(** X20.  Typing is not activity.  A typing request marks the caller's
    record as typing but leaves its last-activity time alone, so the
    alarm judges the caller by their last presence update: an online
    caller whose update is more than five minutes old is set offline by
    the next run, even when they started typing less than ten seconds
    before it, and is then offline while still listed as typing. *)
Theorem typing_is_not_activity
  (request : Request Presence.TypingData) (user chat : string) (now later : Z)
  (st : Presence.State) (p : Presence.UserPresence)
  (Reach : PresenceSystem.reachable st)
  (Post : method request = "POST")
  (Body : json request = Some (Presence.mkTypingData chat true))
  (Caller : getUserIdFromRequest request = Some user)
  (Known : Presence.getUserPresence user st = Some p)
  (Online : Presence.status p = Presence.online)
  (Old : Presence.lastSeenAt p < later - 300000)
  (Fresh : later - now <= 10000) :
  let st1 := stateOf (Presence.handleTypingRequest request now st) in
  let st2 := fst (Presence.alarm later later st1) in
  Presence.getUserPresence user st1
  = Some (Presence.mkUserPresence (Presence.userId p) Presence.online
            (Presence.lastSeenAt p) (Presence.deviceInfo p) (Presence.currentChatId p)
            (Some true) (Some chat))
  /\ (exists p', Presence.getUserPresence user st2 = Some p'
                 /\ Presence.status p' = Presence.offline
                 /\ Presence.lastSeenAt p' = Presence.lastSeenAt p)
  /\ In (Presence.mkTypingIndicator user chat now)
        (Presence.getTypingIndicators chat st2).
Proof.
  intros st1 st2.
  destruct (typing_start_spec request user chat now st Post Body Caller)
    as (_ & R2 & R3). fold st1 in R2, R3.
  assert (PresenceSystem.wellKeyed st1) as (WP & (NDT & _) & _).
  { apply (PresenceSystemFacts.step_wellKeyed st).
    - apply PresenceSystem.step_typing.
    - now apply PresenceSystemFacts.reachable_wellKeyed. }
  set (p1 := Presence.mkUserPresence (Presence.userId p) Presence.online
               (Presence.lastSeenAt p) (Presence.deviceInfo p)
               (Presence.currentChatId p) (Some true) (Some chat)).
  assert (Presence.userPresence st1 = JsMap.set user p1 (Presence.userPresence st)) as UP.
  { rewrite R3. unfold Presence.markTyping. unfold Presence.getUserPresence in Known.
    rewrite Known, Online. reflexivity. }
  assert (Presence.getUserPresence user st1 = Some p1) as G1.
  { unfold Presence.getUserPresence. rewrite UP. apply get_set_eq. }
  split; [exact G1|]. split.
  - destruct (alarm_record later later st1 user p1 WP) as (q & Cases & G).
    { apply get_in. exact G1. }
    assert (stale (later - 300000) (user, p1) = true) as S.
    { unfold stale. cbn. apply andb_true_iff. split; [apply Z.ltb_lt; lia|reflexivity]. }
    rewrite S in G. exists (demote q). split; [exact G|].
    destruct Cases as [-> | ->]; split; reflexivity.
  - set (ind := Presence.mkTypingIndicator user chat now).
    assert (In (Presence.typingKey user chat, ind) (Presence.typingIndicators st1)) as HI
      by (rewrite R2; apply in_set_new).
    apply (listed_indicator (Presence.typingKey user chat) ind).
    unfold st2, Presence.alarm, Presence.cleanupExpiredTypingIndicators.
    pose proof (SweepFacts.expireAll_typing later (Presence.expiredKeys later st1) st1) as T.
    destruct (Presence.expireAll later (Presence.expiredKeys later st1) st1) as [sa ta].
    cbn [fst] in T.
    pose proof (AlarmFacts.demoteStale_spec (later - 300000)
                  (Presence.userPresence sa) sa) as (_ & _ & D3).
    destruct (Presence.demoteStale (later - 300000) (Presence.userPresence sa) sa)
      as [sb tb]. cbn [fst] in *.
    rewrite D3, T. apply filter_In. split; [exact HI|].
    apply notIn_true. cbn [fst].
    rewrite (SweepFacts.in_expiredKeys later st1 _ ind NDT HI).
    unfold Presence.expired. cbn. intros X. apply Z.ltb_lt in X. lia.
Qed.

Lemma typing_is_not_activity_witness :
  exists p',
    Presence.getUserPresence "alice"
      (fst (Presence.alarm 400000 400000
              (stateOf (Presence.handleTypingRequest
                          (typingRequest "alice" "room-1" true) 395000 aliceOnline))))
    = Some p'
    /\ Presence.status p' = Presence.offline
    /\ Presence.lastSeenAt p' = 1000.
Proof.
  refine (proj1 (proj2
    (typing_is_not_activity (typingRequest "alice" "room-1" true) "alice" "room-1"
       395000 400000 aliceOnline
       (Presence.mkUserPresence "alice" Presence.online 1000 None None None None)
       _ eq_refl eq_refl eq_refl eq_refl eq_refl _ _))).
  - eapply PresenceSystem.reach_step; [apply PresenceSystem.reach_initial|].
    apply (PresenceSystem.step_presence (presenceRequest "alice" Presence.online)
             1000 false).
  - simpl. lia.
  - lia.
Defined.

(** *** Frames received from a client *)

Lemma broadcast_reaches now message st c ws :
  NoDup (JsMap.keys (ChatRoom.connections st)) ->
  In (c, ws) (ChatRoom.connections st) -> deliverable ws = true ->
  exists st' t,
    ChatRoom.broadcastMessage now message st = Some (st', t)
    /\ hd_error t = Some (Bcast message)
    /\ In (stringify message) (received c t)
    /\ ChatRoom.typingUsers st' = ChatRoom.typingUsers st.
Proof.
  intros ND HIn D.
  destruct (RoomProgress.broadcastMessage_total now message st ND) as (st' & t & E & _).
  exists st', t. split; [exact E|].
  pose proof (broadcastMessage_typing _ _ _ _ _ ND E) as T.
  unfold ChatRoom.broadcastMessage, ChatRoom.enoughFuel in E.
  apply broadcastMessageFuel_shape in E. destruct E as (cleanup & -> & _).
  split; [reflexivity|]. split; [|exact T].
  apply received_in. right. apply in_or_app. left.
  unfold sendsTo. apply in_map_iff. exists (c, ws).
  unfold deliverable in D. apply andb_true_iff in D. destruct D as [O S].
  cbn [fst snd]. rewrite S. split; [reflexivity|].
  apply filter_In. split; [exact HIn|exact O].
Qed.

(** X21.  What a client sends over its socket is relayed to every
    connection that takes frames, the sender's own connection included.
    A message frame is relayed without any check of its content, with the
    type text when it names none; a typing frame is relayed and puts the
    sender on the typing list or takes them off; a pong and a frame of an
    unknown type change nothing and reach nobody. *)
Theorem socket_frames_are_relayed_to_everyone
  (userId id connectionId : string) (ws : WebSocket) (now : Z)
  (message : ChatRoom.MessageData) (typing : ChatRoom.TypingData)
  (st : ChatRoom.State)
  (Reach : RoomSystem.reachable st)
  (Registered : In (connectionId, ws) (ChatRoom.connections st))
  (Alive : deliverable ws = true) :
  (exists st' t,
      ChatRoom.onSocketMessage (ChatRoom.MessageFrame message) userId id now st
      = Some (st', t)
      /\ hd_error t = Some (Bcast (ChatRoom.clientMessageEvent id message userId now))
      /\ In (stringify (ChatRoom.clientMessageEvent id message userId now))
            (received connectionId t)
      /\ eventField "type" (ChatRoom.clientMessageEvent id message userId now)
         = Some (JStr (if String.eqb (ChatRoom.type message) "" then "text"
                       else ChatRoom.type message))
      /\ ChatRoom.typingUsers st' = ChatRoom.typingUsers st)
  /\ (exists st' t,
        ChatRoom.onSocketMessage (ChatRoom.TypingFrame typing) userId id now st
        = Some (st', t)
        /\ In (stringify (ChatRoom.typingEvent userId (ChatRoom.isTyping typing) now))
              (received connectionId t)
        /\ (In userId (ChatRoom.typingUsers st') <-> ChatRoom.isTyping typing = true))
  /\ ChatRoom.onSocketMessage ChatRoom.PongFrame userId id now st = Some (st, [])
  /\ ChatRoom.onSocketMessage ChatRoom.UnknownFrame userId id now st = Some (st, []).
Proof.
  pose proof (RoomProgress.reachable_distinct_keys st Reach) as ND.
  split; [|split; [|split; reflexivity]].
  - cbn [ChatRoom.onSocketMessage]. unfold ChatRoom.handleClientMessage.
    destruct (broadcast_reaches now (ChatRoom.clientMessageEvent id message userId now)
                st connectionId ws ND Registered Alive) as (st' & t & E & H & R & T).
    exists st', t. repeat (split; [assumption|]). split; [reflexivity|exact T].
  - cbn [ChatRoom.onSocketMessage]. unfold ChatRoom.handleTypingIndicator.
    set (st1 := ChatRoom.with_typingUsers st _).
    destruct (broadcast_reaches now
                (ChatRoom.typingEvent userId (ChatRoom.isTyping typing) now)
                st1 connectionId ws ND Registered Alive) as (st' & t & E & _ & R & T).
    exists st', t. split; [exact E|]. split; [exact R|].
    rewrite T. unfold st1. cbn [ChatRoom.with_typingUsers ChatRoom.typingUsers].
    destruct (ChatRoom.isTyping typing).
    + split; [reflexivity|]. intros _. apply set_in_add. now right.
    + split; [|discriminate]. intros X. apply set_in_delete in X.
      destruct X as [_ X]. now contradiction X.
Qed.

Lemma socket_frames_are_relayed_to_everyone_witness :
  exists st' t,
    ChatRoom.onSocketMessage
      (ChatRoom.MessageFrame (ChatRoom.mkMessageData "" "" None)) "alice" "id-1" 1000
      twoUserRoom
    = Some (st', t)
    /\ In (stringify (ChatRoom.clientMessageEvent "id-1"
                        (ChatRoom.mkMessageData "" "" None) "alice" 1000))
          (received "c1" t).
Proof.
  destruct (socket_frames_are_relayed_to_everyone "alice" "id-1" "c1" openSocket 1000
              (ChatRoom.mkMessageData "" "" None) (ChatRoom.mkTypingData true)
              twoUserRoom twoUserRoom_reachable
              ltac:(left; reflexivity) eq_refl)
    as ((st' & t & E & _ & R & _) & _).
  exists st', t. split; assumption.
Defined.

(** *** Heartbeat timers *)

Lemma timersCover_delete {V} c (registry : list (string * V)) timers timers' :
  timersCover registry timers ->
  timers' = timers \/ timers' = JsMap.delete c timers ->
  timersCover (JsMap.delete c registry) timers'.
Proof.
  intros P E k H. apply keys_delete in H. destruct H as [H N].
  destruct E as [-> | ->]; [now apply P|]. apply keys_delete. split; [now apply P|exact N].
Qed.

Lemma timersCover_filter {V} (q : string * V -> bool) registry timers :
  timersCover registry timers -> timersCover (filter q registry) timers.
Proof.
  intros P k H. apply P. unfold JsMap.keys in *. apply in_map_iff in H.
  destruct H as (e & <- & He). apply filter_In in He. apply in_map. tauto.
Qed.

Lemma timersCover_set {V} c (v : V) registry i timers :
  timersCover registry timers ->
  timersCover (JsMap.set c v registry) (JsMap.set c i timers).
Proof.
  intros P k H. apply RegistryFacts.in_keys_set in H. apply RegistryFacts.in_keys_set.
  destruct H as [H|H]; [left; now apply P|now right].
Qed.

Lemma timersCover_transport {V} c (v : V) registry timers :
  timersCover registry timers -> In c (JsMap.keys registry) ->
  timersCover (JsMap.set c v registry) timers.
Proof.
  intros P Hc k H. apply RegistryFacts.in_keys_set in H.
  destruct H as [H| ->]; now apply P.
Qed.

Module RoomTimers.
Import ChatRoom RoomSystem.


Lemma clearHeartbeat_cases connectionId st :
  heartbeatIntervals (fst (clearHeartbeat connectionId st)) = heartbeatIntervals st
  \/ heartbeatIntervals (fst (clearHeartbeat connectionId st))
     = JsMap.delete connectionId (heartbeatIntervals st).
Proof.
  unfold clearHeartbeat.
  destruct (JsMap.get connectionId (heartbeatIntervals st)) as [i|]; [|now left].
  destruct (i =? 0); [now left|now right].
Qed.

Section Nested.
Variable bc : value -> State -> option (State * list Effect).
Variable now : Z.
Hypothesis bc_covered :
  forall message st st' t, roomTimersCover st -> bc message st = Some (st', t) -> roomTimersCover st'.

Lemma removeConnectionWith_covered connectionId st st' t :
  roomTimersCover st ->
  removeConnectionWith bc now connectionId st = Some (st', t) ->
  roomTimersCover st'.
Proof.
  unfold roomTimersCover. intros P. unfold removeConnectionWith.
  pose proof (RoomFacts.closeSocket_spec connectionId st) as (C1 & _ & _ & C4).
  destruct (closeSocket connectionId st) as [st1 closed]. cbn [fst] in *.
  pose proof (RoomFacts.clearHeartbeat_spec connectionId st1) as (H1 & _).
  pose proof (clearHeartbeat_cases connectionId st1) as HC.
  destruct (clearHeartbeat connectionId st1) as [st2 cleared]. cbn [fst] in *.
  assert (timersCover (connections st2) (heartbeatIntervals st2)) as P2.
  { rewrite H1, C1.
    apply (timersCover_delete _ _ (heartbeatIntervals st)); [exact P|].
    now rewrite <- C4. }
  destruct (find (owns connectionId) (userConnections st2)) as [[userId ids]|].
  - destruct (JsSet.size (JsSet.delete connectionId ids)).
    + destruct (bc _ _) as [[st4 sent]|] eqn:B; [|discriminate].
      intros E. injection E as <- _. eapply bc_covered; [|exact B]. exact P2.
    + intros E. injection E as <- _. exact P2.
  - intros E. injection E as <- _. exact P2.
Qed.

Lemma removeAll_covered ids : forall st st' t,
  roomTimersCover st ->
  removeAll (removeConnectionWith bc now) ids st = Some (st', t) ->
  roomTimersCover st'.
Proof.
  induction ids as [|c ids IH]; intros st st' t P; simpl.
  - intros E. now injection E as <- _.
  - destruct (removeConnectionWith bc now c st) as [[st1 t1]|] eqn:R; [|discriminate].
    destruct (removeAll _ ids st1) as [[st2 t2]|] eqn:A; [|discriminate].
    intros E. injection E as <- _.
    eapply IH; [|exact A]. eapply removeConnectionWith_covered; eauto.
Qed.

End Nested.

Lemma broadcastMessageFuel_covered fuel now : forall message st st' t,
  roomTimersCover st ->
  broadcastMessageFuel fuel now message st = Some (st', t) ->
  roomTimersCover st'.
Proof.
  induction fuel as [|fuel IH]; intros message st st' t P; [discriminate|].
  cbn [broadcastMessageFuel].
  destruct (sendToAll _ _) as [sent dead].
  destruct (removeAll _ dead st) as [[st2 cleanup]|] eqn:A; [|discriminate].
  intros E. injection E as <- _.
  eapply removeAll_covered; [exact IH|exact P|exact A].
Qed.

Lemma step_covered st st' : step st st' -> roomTimersCover st -> roomTimersCover st'.
Proof.
  assert (forall now message s s' t,
            roomTimersCover s -> broadcastMessage now message s = Some (s', t) -> roomTimersCover s')
    as Bc.
  { intros now message s s' t P E. eapply broadcastMessageFuel_covered; eauto. }
  assert (forall now c s s' t,
            roomTimersCover s -> removeConnection now c s = Some (s', t) -> roomTimersCover s') as Rm.
  { intros now c s s' t P E.
    eapply removeConnectionWith_covered; [|exact P|exact E].
    apply broadcastMessageFuel_covered. }
  intros S P. destruct S.
  - unfold handleWebSocketUpgrade in H0.
    destruct (negb (is_websocket (upgradeHeader request))).
    { now injection H0 as _ <-. }
    destruct (getUserIdFromRequest request); [|now injection H0 as _ <-].
    injection H0 as _ <-. unfold roomTimersCover. simpl. now apply timersCover_set.
  - eapply Rm; eauto.
  - unfold heartbeatTick in H.
    assert (forall x, match removeConnection now connectionId st with
                      | Some (st0, t0) => Some (st0, (t0 ++ [ClearInterval interval])%list)
                      | None => None
                      end = Some x -> roomTimersCover (fst x)) as Expire.
    { intros x E.
      destruct (removeConnection now connectionId st) as [[st0 t0]|] eqn:R;
        [|discriminate].
      injection E as <-. eapply Rm; eauto. }
    destruct (JsMap.get connectionId (connections st)) as [ws|].
    + destruct (is_open ws); [now injection H as <- _|exact (Expire _ H)].
    + exact (Expire _ H).
  - destruct frame; simpl in H.
    + now injection H as <- _.
    + eapply Bc; eauto.
    + unfold handleTypingIndicator in H. eapply Bc; [|exact H]. exact P.
    + now injection H as <- _.
  - eapply Bc; eauto.
  - unfold handleMessageRequest in H.
    destruct (negb _); [now injection H as _ <- _|].
    destruct (json request); [|now injection H as _ <- _].
    destruct (getUserIdFromRequest request); [|now injection H as _ <- _].
    destruct (_ || _); [now injection H as _ <- _|].
    apply RoomProgress.afterBroadcast_keys in H. eapply Bc; eauto.
  - unfold handleTypingRequest in H.
    destruct (negb _); [now injection H as _ <- _|].
    destruct (json request); [|now injection H as _ <- _].
    destruct (getUserIdFromRequest request); [|now injection H as _ <- _].
    apply RoomProgress.afterBroadcast_keys in H. eapply Bc; [|exact H]. exact P.
  - unfold handlePresenceRequest in H.
    destruct (negb _); [now injection H as _ <- _|].
    destruct (json request); [|now injection H as _ <- _].
    destruct (getUserIdFromRequest request); [|now injection H as _ <- _].
    apply RoomProgress.afterBroadcast_keys in H. eapply Bc; eauto.
  - unfold roomTimersCover. simpl. now apply timersCover_transport.
Qed.

Lemma reachable_covered st : reachable st -> roomTimersCover st.
Proof.
  induction 1 as [|st st' R IH S]; [intros k []|].
  eapply step_covered; eauto.
Qed.

End RoomTimers.

Module PresenceTimers.
Import Presence PresenceSystem.


Lemma presence_remove_covered connectionId st :
  presenceTimersCover st -> presenceTimersCover (fst (removePresenceSubscriber connectionId st)).
Proof.
  unfold presenceTimersCover. intros P.
  assert (timersCover (JsMap.delete connectionId (presenceSubscribers st))
            (heartbeatIntervals st)) as P1
    by (apply (timersCover_delete _ _ (heartbeatIntervals st)); auto).
  assert (timersCover (JsMap.delete connectionId (presenceSubscribers st))
            (JsMap.delete connectionId (heartbeatIntervals st))) as P2
    by (apply (timersCover_delete _ _ (heartbeatIntervals st)); auto).
  assert (timersCover (presenceSubscribers st)
            (JsMap.delete connectionId (heartbeatIntervals st)) \/
          JsMap.get connectionId (presenceSubscribers st) <> None) as P3.
  { destruct (JsMap.get connectionId (presenceSubscribers st)) eqn:G;
      [right; discriminate|left].
    rewrite <- (delete_get_none _ _ G). exact P2. }
  unfold removePresenceSubscriber.
  destruct (JsMap.get connectionId (presenceSubscribers st)) as [ws|];
    cbn [with_presenceSubscribers heartbeatIntervals presenceSubscribers];
    (destruct (JsMap.get connectionId (heartbeatIntervals st)) as [i|];
     [destruct (i =? 0)|]);
    cbn [fst with_presenceSubscribers with_heartbeatIntervals heartbeatIntervals
         presenceSubscribers]; try assumption;
    destruct P3 as [P3|P3]; try assumption; now contradiction P3.
Qed.

Lemma presence_removeAll_covered ids : forall st,
  presenceTimersCover st -> presenceTimersCover (fst (removeAll ids st)).
Proof.
  induction ids as [|c ids IH]; intros st P; simpl; [exact P|].
  pose proof (presence_remove_covered c st P) as R.
  destruct (removePresenceSubscriber c st) as [st1 t1]. cbn [fst] in R.
  specialize (IH st1 R). destruct (removeAll ids st1) as [st2 t2]. exact IH.
Qed.

Lemma presence_broadcast_covered update st :
  presenceTimersCover st -> presenceTimersCover (fst (broadcastPresenceUpdate update st)).
Proof.
  intros P. unfold broadcastPresenceUpdate.
  destruct (sendToAll _ _) as [sent dead].
  pose proof (presence_removeAll_covered dead st P) as R.
  destruct (removeAll dead st) as [st1 t1]. exact R.
Qed.

Lemma presence_markTyping_covered user typing chat st :
  presenceTimersCover st -> presenceTimersCover (markTyping user typing chat st).
Proof.
  unfold markTyping. destruct (JsMap.get user (userPresence st)); auto.
Qed.

Lemma presence_expireAll_covered now keys : forall st,
  presenceTimersCover st -> presenceTimersCover (fst (expireAll now keys st)).
Proof.
  induction keys as [|k keys IH]; intros st P; simpl; [exact P|].
  assert (presenceTimersCover (fst (expireKey now k st))) as R.
  { unfold expireKey. destruct (JsMap.get k (typingIndicators st)) as [i|]; [|exact P].
    apply presence_broadcast_covered. apply presence_markTyping_covered. exact P. }
  destruct (expireKey now k st) as [st1 t1]. cbn [fst] in R.
  specialize (IH st1 R). destruct (expireAll now keys st1) as [st2 t2]. exact IH.
Qed.

Lemma presence_demoteStale_covered f entries : forall st,
  presenceTimersCover st -> presenceTimersCover (fst (demoteStale f entries st)).
Proof.
  induction entries as [|[u p] entries IH]; intros st P; simpl; [exact P|].
  destruct ((lastSeenAt p <? f) && is_online (status p)); [|now apply IH].
  match goal with |- context [broadcastPresenceUpdate ?e ?s] =>
    pose proof (presence_broadcast_covered e s P) as R;
    destruct (broadcastPresenceUpdate e s) as [st2 t1] end.
  cbn [fst] in R. specialize (IH st2 R).
  destruct (demoteStale f entries st2) as [st3 t2]. exact IH.
Qed.

Lemma presence_step_covered st st' : step st st' -> presenceTimersCover st -> presenceTimersCover st'.
Proof.
  intros S P. destruct S.
  - unfold handleWebSocketUpgrade.
    destruct (negb (is_websocket (upgradeHeader request))); [exact P|].
    destruct (sendCurrentPresenceState _ _ _ _) as [sent []]; cbn [fst snd];
      unfold presenceTimersCover; simpl; now apply timersCover_set.
  - now apply presence_remove_covered.
  - unfold heartbeatTick.
    pose proof (presence_remove_covered connectionId st P) as R.
    destruct (removePresenceSubscriber connectionId st) as [s t]. cbn [fst] in R.
    destruct (JsMap.get connectionId (presenceSubscribers st)) as [ws|];
      [destruct (is_open ws)|]; assumption.
  - unfold handlePresenceRequest.
    destruct (negb _); [exact P|].
    destruct (json request) as [d|]; [|exact P].
    destruct (getUserIdFromRequest request) as [u|]; [|exact P].
    match goal with |- context [broadcastPresenceUpdate ?e ?s] =>
      pose proof (presence_broadcast_covered e s P) as R;
      destruct (broadcastPresenceUpdate e s) as [st2 sent] end.
    exact R.
  - unfold handleTypingRequest.
    destruct (negb _); [exact P|].
    destruct (json request) as [d|]; [|exact P].
    destruct (getUserIdFromRequest request) as [u|]; [|exact P].
    destruct (reqIsTyping d);
      match goal with |- context [broadcastPresenceUpdate ?e ?s] =>
        assert (presenceTimersCover (fst (broadcastPresenceUpdate e s))) as R
          by (apply presence_broadcast_covered, presence_markTyping_covered; exact P);
        destruct (broadcastPresenceUpdate e s) as [st2 sent] end;
      exact R.
  - unfold alarm, cleanupExpiredTypingIndicators.
    pose proof (presence_expireAll_covered now (expiredKeys now st) st P) as E.
    destruct (expireAll now (expiredKeys now st) st) as [st1 t1]. cbn [fst] in E.
    pose proof (presence_demoteStale_covered (now' - 300000) (userPresence st1) st1 E) as D.
    destruct (demoteStale _ _ st1) as [st2 t2]. exact D.
  - unfold presenceTimersCover. simpl. now apply timersCover_transport.
Qed.

Lemma presence_reachable_covered st : reachable st -> presenceTimersCover st.
Proof.
  induction 1 as [|st st' R IH S]; [intros k []|].
  eapply presence_step_covered; eauto.
Qed.

End PresenceTimers.

(** X22.  No socket is registered without a heartbeat.  In every state
    either object can reach, each registered connection has an entry in
    the timer map, so a socket whose close event never arrives is still
    looked at by its heartbeat. *)
Theorem every_connection_has_a_timer
  (connectionId : string) (rst : ChatRoom.State) (pst : Presence.State)
  (RoomReach : RoomSystem.reachable rst)
  (PresenceReach : PresenceSystem.reachable pst) :
  (JsMap.has connectionId (ChatRoom.connections rst) = true ->
   exists interval,
     JsMap.get connectionId (ChatRoom.heartbeatIntervals rst) = Some interval)
  /\ (JsMap.has connectionId (Presence.presenceSubscribers pst) = true ->
      exists interval,
        JsMap.get connectionId (Presence.heartbeatIntervals pst) = Some interval).
Proof.
  assert (forall (timers : list (string * Z)),
            In connectionId (JsMap.keys timers) ->
            exists interval, JsMap.get connectionId timers = Some interval) as Has.
  { intros timers H. destruct (JsMap.get connectionId timers) as [i|] eqn:G; [eauto|].
    apply get_none in G. contradiction. }
  split; intros H; apply Has; apply has_in_keys in H.
  - now apply (RoomTimers.reachable_covered rst RoomReach).
  - now apply (PresenceTimers.presence_reachable_covered pst PresenceReach).
Qed.

Lemma every_connection_has_a_timer_witness :
  exists interval, JsMap.get "c2" (ChatRoom.heartbeatIntervals twoUserRoom) = Some interval.
Proof.
  refine (proj1 (every_connection_has_a_timer "c2" twoUserRoom Presence.initial
                   twoUserRoom_reachable PresenceSystem.reach_initial) eq_refl).
Defined.

(** X23.  The room keeps no presence of its own.  A presence request of
    an identified caller is answered 200 and relayed, with whatever status
    it names, to every connection that takes frames; the room's typing
    list is unchanged and its registry loses only the connections the
    broadcast found dead, so when every socket takes frames the room is
    exactly as before, also when the status is offline.  Anything but a
    POST is answered 405 and changes nothing. *)
Theorem room_presence_request_is_relayed
  (request : Request ChatRoom.PresenceData) (status_ user connectionId : string)
  (ws : WebSocket) (now : Z) (st : ChatRoom.State)
  (Reach : RoomSystem.reachable st)
  (Body : json request = Some (ChatRoom.mkPresenceData status_))
  (Caller : getUserIdFromRequest request = Some user)
  (Registered : In (connectionId, ws) (ChatRoom.connections st))
  (Alive : deliverable ws = true) :
  let event := ChatRoom.presenceEvent user status_ now in
  (method request <> "POST" ->
   ChatRoom.handlePresenceRequest request now st
   = Some (Returned (textResponse "Method not allowed" 405), st, []))
  /\ (method request = "POST" ->
      exists st' t,
        ChatRoom.handlePresenceRequest request now st
        = Some (Returned successResponse, st', t)
        /\ hd_error t = Some (Bcast event)
        /\ In (stringify event) (received connectionId t)
        /\ ChatRoom.connections st' = filter live (ChatRoom.connections st)
        /\ ChatRoom.typingUsers st' = ChatRoom.typingUsers st
        /\ (allLive (ChatRoom.connections st) ->
            st' = st
            /\ t = (Bcast event
                    :: sendsTo (stringify event) (ChatRoom.connections st))%list)).
Proof.
  intros event. pose proof (RoomProgress.reachable_distinct_keys st Reach) as ND.
  unfold ChatRoom.handlePresenceRequest. split.
  - intros N. apply String.eqb_neq in N. now rewrite N.
  - intros Post. rewrite Post, String.eqb_refl, Body, Caller. cbn [negb].
    cbn [ChatRoom.presenceStatus]. fold event.
    destruct (broadcast_reaches now event st connectionId ws ND Registered Alive)
      as (st' & t & E & H & R & T).
    destruct (RoomProgress.broadcastMessage_total now event st ND) as (s & t0 & E0 & C).
    rewrite E in E0. injection E0 as <- <-.
    rewrite E. exists st', t. split; [reflexivity|].
    repeat (split; [assumption|]).
    intros L. unfold ChatRoom.broadcastMessage, ChatRoom.enoughFuel in E.
    rewrite broadcast_allLive in E by assumption. injection E as <- <-. auto.
Qed.

Lemma room_presence_request_is_relayed_witness :
  exists st' t,
    ChatRoom.handlePresenceRequest
      (mkRequest "POST" None (Some "bob") None None
         (Some (ChatRoom.mkPresenceData "offline"))) 5000 twoUserRoom
    = Some (Returned successResponse, st', t)
    /\ st' = twoUserRoom
    /\ In (stringify (ChatRoom.presenceEvent "bob" "offline" 5000)) (received "c2" t).
Proof.
  destruct (room_presence_request_is_relayed
              (mkRequest "POST" None (Some "bob") None None
                 (Some (ChatRoom.mkPresenceData "offline")))
              "offline" "bob" "c2" openSocket 5000 twoUserRoom twoUserRoom_reachable
              eq_refl eq_refl ltac:(right; left; reflexivity) eq_refl)
    as (_ & Run).
  destruct (Run eq_refl) as (st' & t & E & _ & R & _ & _ & Same).
  exists st', t. split; [exact E|]. split; [|exact R].
  apply Same. intros e H. simpl in H.
  destruct H as [<-|[<-|[]]]; reflexivity.
Defined.

(** X24.  In every state the presence object can reach, the list of all
    presence records, which is also the user list of the snapshot sent to
    a new subscriber, names no user twice, and every record in it is the
    one a lookup of its user returns. *)
Theorem presence_list_names_each_user_once (st : Presence.State)
  (Reach : PresenceSystem.reachable st) :
  NoDup (map Presence.userId (Presence.getAllPresence st))
  /\ forall p, In p (Presence.getAllPresence st) ->
               Presence.getUserPresence (Presence.userId p) st = Some p.
Proof.
  destruct (PresenceSystemFacts.reachable_wellKeyed st Reach) as ((ND & K) & _).
  unfold Presence.getAllPresence, Presence.getUserPresence, JsMap.values.
  split.
  - rewrite map_map.
    rewrite (map_ext_in _ fst); [exact ND|].
    intros [k p] H. simpl. now apply K.
  - intros p H. apply in_map_iff in H. destruct H as ([k q] & E & H).
    simpl in E. subst q. rewrite (K k p H). now apply in_get.
Qed.

Lemma presence_list_names_each_user_once_witness :
  NoDup (map Presence.userId (Presence.getAllPresence aliceOnlineTyping)).
Proof.
  refine (proj1 (presence_list_names_each_user_once aliceOnlineTyping _)).
  eapply PresenceSystem.reach_step.
  - eapply PresenceSystem.reach_step; [apply PresenceSystem.reach_initial|].
    apply (PresenceSystem.step_presence (presenceRequest "alice" Presence.online)
             1000 false).
  - apply (PresenceSystem.step_typing (typingRequest "alice" "room-1" true) 2000).
Defined.
